(** * Farm Geotag: the plant record synchronizer

    A shallow embedding of the client-side data layer of the Farm Geotag
    application and the properties its specification states about it.

    Embedded source files:
    - [src/utils/storage.js]          (module [Storage])
    - [src/services/api.js]           (module [Api])
    - [src/redux/slices/plantsSlice.js] (module [PlantsSlice])
    - the callers in [App.jsx], [PlantCard.jsx], [FarmMap.jsx] and
      [ImageUpload.jsx]               (module [Components])

    JavaScript runs these functions on one thread against mutable module
    state ([cache]), the Redux store, [localStorage], the console and the
    network.  The embedding threads one [World] through a state monad whose
    computations either complete normally or throw, so that every
    [try]/[catch] of the source is a [try_catch] here.

    An [async] function is run from its call to its completion, and what it
    awaits from the environment (the settled request, the time this took) is
    an argument of the embedded function.  Other handlers running while a
    request is in flight are not part of the embedding.

    Data is typed as the data model of the application has it: a plant is a
    record whose properties may be undefined, a timestamp is an integer
    number of milliseconds, a coordinate is a binary64 number.  Only the
    result of [JSON.parse] is an untyped JSON value. *)

From Stdlib Require Import String Ascii ZArith List Bool Lia Floats.
From stdpp Require Import gmap strings pretty.
Import ListNotations.

Local Open Scope string_scope.

(* ===================================================================== *)
(** ** JavaScript values, truthiness and errors *)
(* ===================================================================== *)

Module Js.

#[local] Set Warnings "-register-all".

(** What [JSON.parse] can return. *)
Inductive JsValue : Type :=
| JNull
| JBool (b : bool)
| JNum (x : float)
| JStr (s : string)
| JArr (items : list JsValue)
| JObj (fields : list (string * JsValue)).

Definition is_array (v : JsValue) : bool :=
  match v with JArr _ => true | _ => false end.

(** [!!s] for a string: only the empty string is falsy. *)
Definition truthy_string (s : string) : bool := negb (String.eqb s "").

(** [!!x] for a number (binary64): [+0], [-0] and [NaN] are falsy. *)
Definition truthy_number (x : float) : bool :=
  negb (PrimFloat.is_zero x || PrimFloat.is_nan x).

(** [!!t] for an integer-valued number such as [Date.now()]. *)
Definition truthy_int (t : Z) : bool := negb (Z.eqb t 0).

(** A property that may be [undefined] (or [null]) is an [option];
    [undefined] and [null] are falsy. *)
Definition truthy_opt {A : Type} (truthy : A -> bool) (o : option A) : bool :=
  match o with
  | Some a => truthy a
  | None => false
  end.

(** [a || b] *)
Definition or_else {A : Type} (truthy : A -> bool) (a b : option A) : option A :=
  if truthy_opt truthy a then a else b.

(** [a || d] where [d] is a literal of the same type. *)
Definition or_default {A : Type} (truthy : A -> bool) (a : option A) (d : A) : A :=
  match a with
  | Some x => if truthy x then x else d
  | None => d
  end.

(** Template-literal interpolation of a possibly undefined string. *)
Definition to_string (o : option string) : string :=
  match o with
  | Some s => s
  | None => "undefined"
  end.

(** [a !== b] on string-or-undefined values. *)
Definition strict_neq (a b : option string) : bool :=
  match a, b with
  | Some x, Some y => negb (String.eqb x y)
  | None, None => false
  | _, _ => true
  end.

(** The part of a thrown value the [catch] blocks of the source look at:
    [error.response] (set by axios when the server answered with a
    non-2xx status), [error.request] (set by axios when the request was
    sent) and [error.message].  The body of an error response may be
    [null], and a thrown value that is not an [Error] (the event
    [compressImage] rejects with) has no [message]. *)
Record ResponseData : Type := {
  data_message : option string  (* error.response.data.message *)
}.

Record ErrorResponse : Type := {
  status : Z;
  data : option ResponseData    (* error.response.data, [None] for null *)
}.

Record JsError : Type := {
  name : string;
  message : option string;      (* [None] for undefined *)
  response : option ErrorResponse;
  request : bool
}.

(** [new Error(msg)] *)
Definition Error (msg : string) : JsError :=
  {| name := "Error"; message := Some msg; response := None; request := false |}.

Definition SyntaxError (msg : string) : JsError :=
  {| name := "SyntaxError"; message := Some msg; response := None; request := false |}.

Definition TypeError (msg : string) : JsError :=
  {| name := "TypeError"; message := Some msg; response := None; request := false |}.

Definition DOMException (nm msg : string) : JsError :=
  {| name := nm; message := Some msg; response := None; request := false |}.

(** A computation either completes normally or throws. *)
Inductive Completion (A : Type) : Type :=
| Normal (a : A)
| Throw (e : JsError).

Arguments Normal {A} a.
Arguments Throw {A} e.

Definition completes {A : Type} (c : Completion A) : bool :=
  match c with Normal _ => true | Throw _ => false end.

(** Effects on a state [W]: the state survives a throw, as the side
    effects done before a JavaScript exception do. *)
Definition Eff (W A : Type) : Type := W -> Completion A * W.

Definition ret {W A : Type} (a : A) : Eff W A := fun w => (Normal a, w).

Definition bind {W A B : Type} (m : Eff W A) (k : A -> Eff W B) : Eff W B :=
  fun w =>
    match m w with
    | (Normal a, w') => k a w'
    | (Throw e, w') => (Throw e, w')
    end.

Definition throw {W A : Type} (e : JsError) : Eff W A := fun w => (Throw e, w).

(** [try { body } catch (error) { handler }] *)
Definition try_catch {W A : Type} (body : Eff W A) (handler : JsError -> Eff W A)
  : Eff W A :=
  fun w =>
    match body w with
    | (Normal a, w') => (Normal a, w')
    | (Throw e, w') => handler e w'
    end.

Definition gets {W A : Type} (f : W -> A) : Eff W A := fun w => (Normal (f w), w).

Definition modify {W : Type} (f : W -> W) : Eff W unit := fun w => (Normal tt, f w).

(** [if (c) { m }] with no [else]. *)
Definition when {W : Type} (c : bool) (m : Eff W unit) : Eff W unit :=
  if c then m else ret tt.

End Js.

Export Js.

Declare Scope eff_scope.
Delimit Scope eff_scope with eff.
Notation "'let*' x ':=' c 'in' k" := (Js.bind c (fun x => k))
  (at level 10, x name, c at level 100, k at level 200) : eff_scope.
Notation "c ';;' k" := (Js.bind c (fun _ => k))
  (at level 100, k at level 200, right associativity) : eff_scope.

Local Open Scope eff_scope.

(* ===================================================================== *)
(** ** The data model *)
(* ===================================================================== *)

(** A plant record as the application builds it (the object literals of
    [fetchUserPlants], [savePlantData] and [uploadSingleFile]).  A property
    the remote side left out is [undefined], here [None]. *)
Module Plant.

Record t : Type := mk {
  id : option string;
  imageName : option string;
  imageUrl : option string;
  latitude : option float;
  longitude : option float;
  uploadedAt : option string
}.

(** JSON view of a string or number property; [JSON.stringify] leaves an
    [undefined] property out of the object. *)
Definition str_field (k : string) (o : option string) : list (string * JsValue) :=
  match o with Some s => [(k, JStr s)] | None => [] end.

Definition num_field (k : string) (o : option float) : list (string * JsValue) :=
  match o with Some x => [(k, JNum x)] | None => [] end.

Definition to_json (p : t) : JsValue :=
  JObj (str_field "id" (id p) ++ str_field "imageName" (imageName p)
        ++ str_field "imageUrl" (imageUrl p) ++ num_field "latitude" (latitude p)
        ++ num_field "longitude" (longitude p)
        ++ str_field "uploadedAt" (uploadedAt p)).

Definition list_to_json (ps : list t) : JsValue := JArr (map to_json ps).

End Plant.

(** What the remote service sends for one plant: the record of the data
    model plus the alternative keys [_id] and [createdAt] the client also
    accepts. *)
Module RemotePlant.

Record t : Type := mk {
  _id : option string;
  id : option string;
  imageName : option string;
  imageUrl : option string;
  latitude : option float;
  longitude : option float;
  uploadedAt : option string;
  createdAt : option string
}.

End RemotePlant.

(** The argument of [savePlantData]. *)
Module PlantData.

Record t : Type := mk {
  imageName : option string;
  imageUrl : option string;
  latitude : option float;
  longitude : option float
}.

End PlantData.

(** The axios instance [api] of [services/api.js], seen from its callers:
    a call is handed a request and settles, some time later, either with a
    response (a 2xx status) or with an error.  The retry interceptor lives
    inside the instance; what the callers see is the settled outcome. *)
Module Http.

Inductive Payload : Type :=
| EmailOnly                                            (* { emailId } *)
| ExtractPayload (imageName imageUrl : option string)  (* { emailId, imageName, imageUrl } *)
| SavePayload (d : PlantData.t).                       (* { emailId, imageName, ..., longitude } *)

Record Request : Type := {
  method : string;
  url : string;
  payload : Payload
}.

Inductive Reply (Body : Type) : Type :=
| Resolved (body : Body)
| Rejected (e : JsError).

Arguments Resolved {Body} body.
Arguments Rejected {Body} e.

(** How the environment settles one call: the reply, and the time in
    milliseconds that passes until it arrives. *)
Record Exchange (Body : Type) : Type := {
  reply : Reply Body;
  latency : Z
}.

Arguments reply {Body} _.
Arguments latency {Body} _.

(** [response.data] of the three plant endpoints and of the extraction
    endpoint. *)
Record FetchBody : Type := {
  fetch_success : bool;
  fetch_data : option (list RemotePlant.t)
}.

Record SaveBody : Type := {
  save_success : bool;
  save_data : option RemotePlant.t
}.

Record DeleteBody : Type := {
  delete_success : bool
}.

Record Coordinates : Type := {
  latitude : option float;
  longitude : option float
}.

Record ExtractBody : Type := {
  extract_success : bool;
  extract_data : option Coordinates
}.

End Http.

(** The module-level [cache] object of [services/api.js]. *)
Module Cache.

Record t : Type := mk {
  plants : option (list Plant.t);   (* null or the last fetched array *)
  timestamp : option Z              (* null or Date.now() of that fetch *)
}.

Definition CACHE_DURATION : Z := 2 * 60 * 1000.

Definition initial : t := {| plants := None; timestamp := None |}.

End Cache.

(** The browser's [localStorage]: a string-to-string map with a quota on
    the total length of its keys and values.  [setItem] throws when the
    write would exceed the quota; every access throws when storage is
    blocked for the page. *)
Module LocalStorage.

Record t : Type := mk {
  items : gmap string string;
  quota : Z;
  blocked : bool
}.

Definition usage (m : gmap string string) : nat :=
  map_fold (fun k v acc => String.length k + String.length v + acc)%nat 0%nat m.

Definition fits (ls : t) (k v : string) : bool :=
  (Z.of_nat (usage (<[k := v]> (items ls))) <=? quota ls)%Z.

Definition accepts (ls : t) (k v : string) : bool :=
  negb (blocked ls) && fits ls k v.

End LocalStorage.

(** The [plants] slice of the Redux store ([initialState] of
    [plantsSlice.js]). *)
Module PlantsState.

Record Filters : Type := {
  sortBy : string;
  searchTerm : string
}.

Record t : Type := mk {
  plants : list Plant.t;
  loading : bool;
  uploadProgress : gmap string Z;
  error : option string;
  filters : Filters;
  selectedPlant : option Plant.t;
  uploadQueue : list string
}.

Definition initialState : t :=
  {| plants := [];
     loading := false;
     uploadProgress := ∅;
     error := None;
     filters := {| sortBy := "date"; searchTerm := "" |};
     selectedPlant := None;
     uploadQueue := [] |}.

Definition set_plants (v : list Plant.t) (s : t) : t :=
  mk v (loading s) (uploadProgress s) (error s) (filters s) (selectedPlant s) (uploadQueue s).

Definition set_loading (v : bool) (s : t) : t :=
  mk (plants s) v (uploadProgress s) (error s) (filters s) (selectedPlant s) (uploadQueue s).

Definition set_uploadProgress (v : gmap string Z) (s : t) : t :=
  mk (plants s) (loading s) v (error s) (filters s) (selectedPlant s) (uploadQueue s).

Definition set_error (v : option string) (s : t) : t :=
  mk (plants s) (loading s) (uploadProgress s) v (filters s) (selectedPlant s) (uploadQueue s).

Definition set_filters (v : Filters) (s : t) : t :=
  mk (plants s) (loading s) (uploadProgress s) (error s) v (selectedPlant s) (uploadQueue s).

Definition set_selectedPlant (v : option Plant.t) (s : t) : t :=
  mk (plants s) (loading s) (uploadProgress s) (error s) (filters s) v (uploadQueue s).

Definition set_uploadQueue (v : list string) (s : t) : t :=
  mk (plants s) (loading s) (uploadProgress s) (error s) (filters s) (selectedPlant s) v.

End PlantsState.

(* ===================================================================== *)
(** ** The world the code runs in *)
(* ===================================================================== *)

Inductive LogEntry : Type :=
| ConsoleLog (msg : string)
| ConsoleError (msg : string) (err : JsError).

Inductive Toast : Type :=
| ToastSuccess (msg : string)
| ToastError (msg : string)
| ToastWarning (msg : string).

Record World : Type := mkWorld {
  clock : Z;                          (* what Date.now() returns *)
  development : bool;                 (* process.env.NODE_ENV === 'development' *)
  cache : Cache.t;                    (* services/api.js: cache *)
  requests : list Http.Request;       (* the calls handed to the axios instance *)
  console : list LogEntry;
  localStorage : LocalStorage.t;
  plantsState : PlantsState.t;        (* store.getState().plants *)
  toasts : list Toast
}.

Definition set_clock (v : Z) (w : World) : World :=
  mkWorld v (development w) (cache w) (requests w) (console w) (localStorage w)
          (plantsState w) (toasts w).

Definition set_cache (v : Cache.t) (w : World) : World :=
  mkWorld (clock w) (development w) v (requests w) (console w) (localStorage w)
          (plantsState w) (toasts w).

Definition set_requests (v : list Http.Request) (w : World) : World :=
  mkWorld (clock w) (development w) (cache w) v (console w) (localStorage w)
          (plantsState w) (toasts w).

Definition set_console (v : list LogEntry) (w : World) : World :=
  mkWorld (clock w) (development w) (cache w) (requests w) v (localStorage w)
          (plantsState w) (toasts w).

Definition set_localStorage (v : LocalStorage.t) (w : World) : World :=
  mkWorld (clock w) (development w) (cache w) (requests w) (console w) v
          (plantsState w) (toasts w).

Definition set_plantsState (v : PlantsState.t) (w : World) : World :=
  mkWorld (clock w) (development w) (cache w) (requests w) (console w) (localStorage w)
          v (toasts w).

Definition set_toasts (v : list Toast) (w : World) : World :=
  mkWorld (clock w) (development w) (cache w) (requests w) (console w) (localStorage w)
          (plantsState w) v.

(** Time passing between two calls. *)
Definition advance (ms : Z) (w : World) : World := set_clock (clock w + ms)%Z w.

(** The built-in [JSON] object.  [JSON_parse] is [None] where [JSON.parse]
    throws a [SyntaxError]. *)
Class JsonCodec : Type := {
  JSON_parse : string -> option JsValue;
  JSON_stringify : JsValue -> string
}.

Definition Date_now : Eff World Z := gets clock.

Definition console_log (msg : string) : Eff World unit :=
  modify (fun w => set_console (console w ++ [ConsoleLog msg]) w).

Definition console_error (msg : string) (err : JsError) : Eff World unit :=
  modify (fun w => set_console (console w ++ [ConsoleError msg err]) w).

Definition toast_success (msg : string) : Eff World unit :=
  modify (fun w => set_toasts (toasts w ++ [ToastSuccess msg]) w).

Definition toast_error (msg : string) : Eff World unit :=
  modify (fun w => set_toasts (toasts w ++ [ToastError msg]) w).

Definition localStorage_getItem (k : string) : Eff World (option string) :=
  fun w =>
    let ls := localStorage w in
    if LocalStorage.blocked ls
    then (Throw (DOMException "SecurityError" "The operation is insecure."), w)
    else (Normal (LocalStorage.items ls !! k), w).

Definition localStorage_setItem (k v : string) : Eff World unit :=
  fun w =>
    let ls := localStorage w in
    if LocalStorage.blocked ls
    then (Throw (DOMException "SecurityError" "The operation is insecure."), w)
    else if LocalStorage.fits ls k v
    then (Normal tt,
          set_localStorage
            (LocalStorage.mk (<[k := v]> (LocalStorage.items ls))
                             (LocalStorage.quota ls) (LocalStorage.blocked ls)) w)
    else (Throw (DOMException "QuotaExceededError" "The quota has been exceeded."), w).

Definition localStorage_removeItem (k : string) : Eff World unit :=
  fun w =>
    let ls := localStorage w in
    if LocalStorage.blocked ls
    then (Throw (DOMException "SecurityError" "The operation is insecure."), w)
    else (Normal tt,
          set_localStorage
            (LocalStorage.mk (delete k (LocalStorage.items ls))
                             (LocalStorage.quota ls) (LocalStorage.blocked ls)) w).

(** One call on the axios instance: the request is recorded, the time the
    exchange takes passes, and the call settles as the exchange says. *)
Definition api_call {Body : Type} (req : Http.Request) (x : Http.Exchange Body)
  : Eff World Body :=
  fun w =>
    let w' := advance (Http.latency x) (set_requests (requests w ++ [req]) w) in
    match Http.reply x with
    | Http.Resolved body => (Normal body, w')
    | Http.Rejected e => (Throw e, w')
    end.

Definition api_post {Body : Type} (url : string) (payload : Http.Payload)
  (x : Http.Exchange Body) : Eff World Body :=
  api_call {| Http.method := "POST"; Http.url := url; Http.payload := payload |} x.

Definition api_delete {Body : Type} (url : string) (x : Http.Exchange Body)
  : Eff World Body :=
  api_call {| Http.method := "DELETE"; Http.url := url; Http.payload := Http.EmailOnly |} x.

(* ===================================================================== *)
(** ** src/utils/storage.js *)
(* ===================================================================== *)

Module Storage.

Section WithJson.
Context {json : JsonCodec}.

Definition STORAGE_KEY : string := "farm-geotag-plants".

(** [JSON.parse(data)] as a computation. *)
Definition parse (data : string) : Eff World JsValue :=
  match JSON_parse data with
  | Some v => ret v
  | None => throw (SyntaxError "JSON.parse: unexpected character")
  end.

Definition savePlantsToLocal (plants : list Plant.t) : Eff World bool :=
  try_catch
    (localStorage_setItem STORAGE_KEY (JSON_stringify (Plant.list_to_json plants)) ;;
     ret true)
    (fun error =>
       console_error "Failed to save to localStorage:" error ;;
       ret false).

Definition loadPlantsFromLocal : Eff World JsValue :=
  try_catch
    (let* data := localStorage_getItem STORAGE_KEY in
     match data with
     | Some s => if truthy_string s then parse s else ret (JArr [])
     | None => ret (JArr [])
     end)
    (fun error =>
       console_error "Failed to load from localStorage:" error ;;
       ret (JArr [])).

Definition clearLocalStorage : Eff World bool :=
  try_catch
    (localStorage_removeItem STORAGE_KEY ;;
     ret true)
    (fun error =>
       console_error "Failed to clear localStorage:" error ;;
       ret false).

End WithJson.

End Storage.

(* ===================================================================== *)
(** ** src/services/api.js *)
(* ===================================================================== *)

Module Api.

(** The result objects [{ success, data, error, fromCache }]; [fromCache] is
    only set by [fetchUserPlants] on success. *)
Record Result (D : Type) : Type := {
  success : bool;
  data : D;
  error : option string;
  fromCache : option bool
}.

Arguments success {D} _.
Arguments data {D} _.
Arguments error {D} _.
Arguments fromCache {D} _.

Definition set_cache_plants (v : option (list Plant.t)) : Eff World unit :=
  modify (fun w => set_cache (Cache.mk v (Cache.timestamp (cache w))) w).

Definition set_cache_timestamp (v : option Z) : Eff World unit :=
  modify (fun w => set_cache (Cache.mk (Cache.plants (cache w)) v) w).

(** The message the [catch] blocks of [extractCoordinates] and
    [savePlantData] choose, starting from the fallback message. *)
Definition errorMessage (fallback : string) (error : JsError) : Eff World string :=
  match Js.response error with
  | Some r =>
      match Js.data r with
      | Some d => ret (or_default truthy_string (Js.data_message d) fallback)
      | None => throw (TypeError "Cannot read properties of null (reading 'message')")
      end
  | None =>
      if Js.request error
      then ret "Network error. Please check your connection."
      else ret (or_default truthy_string (Js.message error) fallback)
  end.

Definition extractCoordinates (imageName imageUrl : option string)
  (x : Http.Exchange Http.ExtractBody) : Eff World (Result (option Http.Coordinates)) :=
  try_catch
    (let* response :=
       api_post "/extract-latitude-longitude" (Http.ExtractPayload imageName imageUrl) x in
     if Http.extract_success response then
       ret {| success := true; data := Http.extract_data response; error := None;
              fromCache := None |}
     else
       ret {| success := false; data := None;
              error := Some "Failed to extract coordinates from image";
              fromCache := None |})
    (fun error =>
       console_error "Extract coordinates error:" error ;;
       let* errorMessage := errorMessage "Failed to extract coordinates" error in
       ret {| success := false; data := None; error := Some errorMessage;
              fromCache := None |}).

(** The object literal [savePlantData] builds from [response.data.data]. *)
Definition savedPlant (d : RemotePlant.t) : Plant.t :=
  {| Plant.id := or_else truthy_string (RemotePlant._id d) (RemotePlant.id d);
     Plant.imageName := RemotePlant.imageName d;
     Plant.imageUrl := RemotePlant.imageUrl d;
     Plant.latitude := RemotePlant.latitude d;
     Plant.longitude := RemotePlant.longitude d;
     Plant.uploadedAt := RemotePlant.uploadedAt d |}.

(** The validation at the head of [savePlantData]:
    [!imageName || !imageUrl || !latitude || !longitude]. *)
Definition missing_fields (plantData : PlantData.t) : bool :=
  negb (truthy_opt truthy_string (PlantData.imageName plantData))
  || negb (truthy_opt truthy_string (PlantData.imageUrl plantData))
  || negb (truthy_opt truthy_number (PlantData.latitude plantData))
  || negb (truthy_opt truthy_number (PlantData.longitude plantData)).

Definition savePlantData (plantData : PlantData.t) (x : Http.Exchange Http.SaveBody)
  : Eff World (Result (option Plant.t)) :=
  try_catch
    (if missing_fields plantData then
       throw (Error "Missing required plant data fields")
     else
       let* response :=
         api_post "/save-plant-location-data" (Http.SavePayload plantData) x in
       if Http.save_success response then
         set_cache_plants None ;;
         set_cache_timestamp None ;;
         ret {| success := true;
                data := option_map savedPlant (Http.save_data response);
                error := None; fromCache := None |}
       else
         ret {| success := false; data := None;
                error := Some "Failed to save plant data"; fromCache := None |})
    (fun error =>
       console_error "Save plant data error:" error ;;
       let* errorMessage := errorMessage "Failed to save plant data" error in
       ret {| success := false; data := None; error := Some errorMessage;
              fromCache := None |}).

(** The object literal [fetchUserPlants] maps every fetched plant to. *)
Definition fetchedPlant (plant : RemotePlant.t) : Plant.t :=
  {| Plant.id := or_else truthy_string (RemotePlant._id plant) (RemotePlant.id plant);
     Plant.imageName := RemotePlant.imageName plant;
     Plant.imageUrl := RemotePlant.imageUrl plant;
     Plant.latitude := RemotePlant.latitude plant;
     Plant.longitude := RemotePlant.longitude plant;
     Plant.uploadedAt :=
       or_else truthy_string (RemotePlant.uploadedAt plant) (RemotePlant.createdAt plant) |}.

(** The cache check at the head of [fetchUserPlants]: the cached array when
    the function returns it, [None] when control falls through to the
    request.  An array is truthy even when empty; the timestamp is tested
    for truthiness as a number. *)
Definition cacheLookup (forceRefresh : bool) : Eff World (option (list Plant.t)) :=
  let* c := gets cache in
  match Cache.plants c, Cache.timestamp c with
  | Some plants, Some timestamp =>
      if negb forceRefresh && truthy_int timestamp then
        let* now := Date_now in
        let cacheAge := (now - timestamp)%Z in
        if (cacheAge <? Cache.CACHE_DURATION)%Z then
          console_log "Returning cached plants data" ;;
          ret (Some plants)
        else ret None
      else ret None
  | _, _ => ret None
  end.

Definition fetchUserPlants (forceRefresh : bool) (x : Http.Exchange Http.FetchBody)
  : Eff World (Result (list Plant.t)) :=
  try_catch
    (let* cached := cacheLookup forceRefresh in
     match cached with
     | Some plants =>
         ret {| success := true; data := plants; error := None; fromCache := Some true |}
     | None =>
         let* response := api_post "/get-plant-location-data" Http.EmailOnly x in
         if Http.fetch_success response then
           let plants := map fetchedPlant (default [] (Http.fetch_data response)) in
           set_cache_plants (Some plants) ;;
           (let* now := Date_now in
            set_cache_timestamp (Some now)) ;;
           ret {| success := true; data := plants; error := None;
                  fromCache := Some false |}
         else
           ret {| success := false; data := [];
                  error := Some "Failed to fetch plants"; fromCache := None |}
     end)
    (fun error =>
       (let* dev := gets development in
        when dev (console_log "API not available, using localStorage")) ;;
       ret {| success := false; data := [];
              error := Some "API not available"; fromCache := None |}).

Definition deletePlantData (plantId : option string) (x : Http.Exchange Http.DeleteBody)
  : Eff World (Result (option Http.DeleteBody)) :=
  try_catch
    (let* response := api_delete ("/delete-plant/" ++ Js.to_string plantId) x in
     if Http.delete_success response then
       set_cache_plants None ;;
       set_cache_timestamp None ;;
       ret {| success := true; data := Some response; error := None; fromCache := None |}
     else
       ret {| success := false; data := None;
              error := Some "Failed to delete plant"; fromCache := None |})
    (fun error =>
       console_error "Delete plant error:" error ;;
       set_cache_plants None ;;
       set_cache_timestamp None ;;
       ret {| success := true; data := None; error := None; fromCache := None |}).

Definition clearCache : Eff World unit :=
  set_cache_plants None ;;
  set_cache_timestamp None ;;
  console_log "API cache cleared".

End Api.

(* ===================================================================== *)
(** ** src/redux/slices/plantsSlice.js *)
(* ===================================================================== *)

(** Each reducer is the state change its body makes to the slice, followed
    by the [savePlantsToLocal] call where the body has one.  Dispatching an
    action runs its reducer. *)
Module PlantsSlice.

Import PlantsState.

Section WithJson.
Context {json : JsonCodec}.

(** An assignment to a property of the slice. *)
Definition assign (f : PlantsState.t -> PlantsState.t) : Eff World unit :=
  modify (fun w => set_plantsState (f (plantsState w)) w).

Definition state_plants : Eff World (list Plant.t) :=
  gets (fun w => plants (plantsState w)).

(** The statement [savePlantsToLocal(state.plants);], its result dropped. *)
Definition persist : Eff World unit :=
  let* ps := state_plants in
  Storage.savePlantsToLocal ps ;;
  ret tt.

Definition uploadStart (payload : string) : Eff World unit :=
  assign (fun state => set_uploadProgress (<[payload := 0%Z]> (uploadProgress state)) state).

Definition uploadProgress (imageName : string) (progress : Z) : Eff World unit :=
  assign (fun state =>
            set_uploadProgress (<[imageName := progress]> (PlantsState.uploadProgress state))
                               state).

Definition uploadSuccess (payload : Plant.t) : Eff World unit :=
  assign (fun state => set_plants (payload :: plants state) state) ;;
  assign (fun state =>
            set_uploadProgress
              (delete (Js.to_string (Plant.imageName payload))
                      (PlantsState.uploadProgress state)) state) ;;
  persist.

Definition uploadFailure (imageName : string) (error : option string) : Eff World unit :=
  assign (fun state =>
            set_uploadProgress (delete imageName (PlantsState.uploadProgress state)) state) ;;
  assign (set_error error).

Definition batchUploadStart (payload : list string) : Eff World unit :=
  assign (set_uploadQueue payload) ;;
  assign (set_loading true).

Definition fetchPlantsStart : Eff World unit :=
  assign (set_loading true) ;;
  assign (set_error None).

Definition fetchPlantsSuccess (payload : list Plant.t) : Eff World unit :=
  assign (set_plants payload) ;;
  assign (set_loading false) ;;
  persist.

Definition fetchPlantsFailure (payload : string) : Eff World unit :=
  assign (set_loading false) ;;
  assign (set_error (Some payload)).

Definition deletePlantStart : Eff World unit :=
  assign (set_loading true).

Definition deletePlantSuccess (payload : option string) : Eff World unit :=
  assign (fun state =>
            set_plants
              (List.filter (fun p => strict_neq (Plant.id p) payload) (plants state))
              state) ;;
  assign (set_loading false) ;;
  persist.

Definition deletePlantFailure (payload : string) : Eff World unit :=
  assign (set_loading false) ;;
  assign (set_error (Some payload)).

(** [{ ...state.filters, ...action.payload }] for a payload that sets some
    of the two filter properties. *)
Definition setFilters (sortBy' searchTerm' : option string) : Eff World unit :=
  assign (fun state =>
            set_filters
              {| sortBy := default (sortBy (filters state)) sortBy';
                 searchTerm := default (searchTerm (filters state)) searchTerm' |}
              state).

Definition setSelectedPlant (payload : option Plant.t) : Eff World unit :=
  assign (set_selectedPlant payload).

Definition clearError : Eff World unit :=
  assign (set_error None).

End WithJson.

End PlantsSlice.

(* ===================================================================== *)
(** ** The callers: App.jsx, PlantCard.jsx, FarmMap.jsx, ImageUpload.jsx *)
(* ===================================================================== *)

(** The handlers are embedded with their effects on the store, the
    cache, the mirror, the console and the toasts.  React's component-local
    state ([isDeleting], [deletingId], [uploadStatuses]) only drives
    rendering and is left out.  What the browser or the environment decides
    (the answer to [window.confirm], the exchanges with the remote side, a
    generated id, the current time as text) is an argument. *)
Module Components.

Section WithJson.
Context {json : JsonCodec}.

(** [PlantCard.jsx]: [handleDelete]. *)
Definition handleDelete (plant : Plant.t) (confirmed : bool)
  (x : Http.Exchange Http.DeleteBody) : Eff World unit :=
  if negb confirmed then ret tt
  else
    PlantsSlice.deletePlantStart ;;
    try_catch
      (Api.deletePlantData (Plant.id plant) x ;;
       PlantsSlice.deletePlantSuccess (Plant.id plant) ;;
       toast_success "Plant deleted successfully")
      (fun error => toast_error "Failed to delete plant").

(** [FarmMap.jsx]: [handleDeletePlant]; the same calls in the same order. *)
Definition handleDeletePlant (plant : Plant.t) (confirmed : bool)
  (x : Http.Exchange Http.DeleteBody) : Eff World unit :=
  if negb confirmed then ret tt
  else
    PlantsSlice.deletePlantStart ;;
    try_catch
      (Api.deletePlantData (Plant.id plant) x ;;
       PlantsSlice.deletePlantSuccess (Plant.id plant) ;;
       toast_success "Plant deleted successfully")
      (fun error => toast_error "Failed to delete plant").

(** [App.jsx]: [loadFromAPI], a closure over [localPlants].  An array is
    truthy, so [localPlants || []] is [localPlants]. *)
Definition loadFromAPI (localPlants : list Plant.t) (x : Http.Exchange Http.FetchBody)
  : Eff World unit :=
  try_catch
    (PlantsSlice.fetchPlantsStart ;;
     let* apiResult := Api.fetchUserPlants false x in
     if Api.success apiResult && (0 <? length (Api.data apiResult))%nat
     then PlantsSlice.fetchPlantsSuccess (Api.data apiResult)
     else PlantsSlice.fetchPlantsSuccess localPlants)
    (fun error =>
       console_log "API fetch failed, using localStorage data" ;;
       PlantsSlice.fetchPlantsFailure "API unavailable").

(** The image hosting collaborator as [uploadSingleFile] sees it: progress
    events, then a result carrying the hosted URL, or whatever
    [uploadToCloudinary] throws: one of its own [Error]s, or the value it
    rethrows, which has no [message] when it is the event [compressImage]
    rejects with. *)
Record Hosting : Type := {
  progressEvents : list Z;
  hosted : Http.Reply (option string)      (* cloudinaryResult.url *)
}.

(** The [onProgress] callback, once per progress event. *)
Fixpoint reportProgress (fileName : string) (events : list Z) : Eff World unit :=
  match events with
  | [] => ret tt
  | progress :: rest =>
      PlantsSlice.uploadProgress fileName progress ;;
      reportProgress fileName rest
  end.

Definition uploadToCloudinary (fileName : string) (h : Hosting)
  : Eff World (option string) :=
  reportProgress fileName (progressEvents h) ;;
  match hosted h with
  | Http.Resolved url => ret url
  | Http.Rejected e => throw e
  end.

Record UploadResult : Type := {
  upload_success : bool;
  upload_data : option Plant.t;
  upload_error : option string
}.

(** The object literal [finalPlantData] of [uploadSingleFile]: the id and
    the upload time come from the saved record when it has them, from
    [generateId()] and [new Date().toISOString()] otherwise; the rest comes
    from the file, the hosting result and the extracted coordinates. *)
Definition finalPlantData (fileName : string) (url : option string)
  (coordinates : Http.Coordinates) (saved : Plant.t) (generatedId nowISO : string)
  : Plant.t :=
  {| Plant.id := Some (or_default truthy_string (Plant.id saved) generatedId);
     Plant.imageName := Some fileName;
     Plant.imageUrl := url;
     Plant.latitude := Http.latitude coordinates;
     Plant.longitude := Http.longitude coordinates;
     Plant.uploadedAt := Some (or_default truthy_string (Plant.uploadedAt saved) nowISO) |}.

(** The argument [uploadSingleFile] passes to [savePlantData]. *)
Definition plantDataOf (fileName : string) (url : option string)
  (coordinates : Http.Coordinates) : PlantData.t :=
  {| PlantData.imageName := Some fileName;
     PlantData.imageUrl := url;
     PlantData.latitude := Http.latitude coordinates;
     PlantData.longitude := Http.longitude coordinates |}.

(** [ImageUpload.jsx]: [uploadSingleFile]. *)
Definition uploadSingleFile (fileName : string) (h : Hosting)
  (xExtract : Http.Exchange Http.ExtractBody) (xSave : Http.Exchange Http.SaveBody)
  (generatedId nowISO : string) : Eff World UploadResult :=
  try_catch
    (PlantsSlice.uploadStart fileName ;;
     let* url := uploadToCloudinary fileName h in
     let* extractResult := Api.extractCoordinates (Some fileName) url xExtract in
     if negb (Api.success extractResult) then
       throw (Error (or_default truthy_string (Api.error extractResult)
                                "Failed to extract coordinates"))
     else
       match Api.data extractResult with
       | None => throw (TypeError "Cannot destructure property 'latitude' of null")
       | Some coordinates =>
           let plantData := plantDataOf fileName url coordinates in
           let* saveResult := Api.savePlantData plantData xSave in
           if negb (Api.success saveResult) then
             throw (Error (or_default truthy_string (Api.error saveResult)
                                      "Failed to save plant data"))
           else
             match Api.data saveResult with
             | None => throw (TypeError "Cannot read properties of null (reading 'id')")
             | Some saved =>
                 let final :=
                   finalPlantData fileName url coordinates saved generatedId nowISO in
                 PlantsSlice.uploadSuccess final ;;
                 toast_success (fileName ++ " uploaded successfully!") ;;
                 ret {| upload_success := true; upload_data := Some final;
                        upload_error := None |}
             end
       end)
    (fun error =>
       console_error ("Upload error for " ++ fileName ++ ":") error ;;
       PlantsSlice.uploadFailure fileName (Js.message error) ;;
       toast_error ("Failed to upload " ++ fileName ++ ": "
                    ++ Js.to_string (Js.message error)) ;;
       ret {| upload_success := false; upload_data := None;
              upload_error := Js.message error |}).

End WithJson.

End Components.

(* ===================================================================== *)
(** ** A concrete JSON reader and writer *)
(* ===================================================================== *)

(** The embedding above is parametric in the built-in [JSON] object.  This
    module is one instance, used to run the code on concrete mirrors: a
    reader for JSON texts (every form of the grammar except [\u] escapes and
    the escapes [\b] and [\f]) and a writer.  Numbers are read to the nearest
    binary64 value; the writer prints a number with all its decimal digits,
    which the reader maps back to the same number. *)
Module SampleJson.

Definition quote : ascii := "034"%char.
Definition backslash : ascii := "092"%char.

Definition is_space (c : ascii) : bool :=
  (c =? " ")%char || (c =? "009")%char || (c =? "010")%char || (c =? "013")%char.

Definition is_digit (c : ascii) : bool :=
  (48 <=? nat_of_ascii c)%nat && (nat_of_ascii c <=? 57)%nat.

Definition digit_value (c : ascii) : Z := Z.of_nat (nat_of_ascii c - 48).

Fixpoint skip_space (s : string) : string :=
  match s with
  | String c r => if is_space c then skip_space r else s
  | EmptyString => s
  end.

Fixpoint strip_prefix (p s : string) : option string :=
  match p, s with
  | EmptyString, _ => Some s
  | String a p', String b s' => if (a =? b)%char then strip_prefix p' s' else None
  | String _ _, EmptyString => None
  end.

(** Digits read so far, how many, and the rest of the text. *)
Fixpoint read_digits (s : string) (acc : Z) (count : nat) : Z * nat * string :=
  match s with
  | String c r =>
      if is_digit c then read_digits r (10 * acc + digit_value c)%Z (S count)
      else (acc, count, s)
  | EmptyString => (acc, count, s)
  end.

(** The binary64 number nearest to [n / d], for [0 <= n] and [0 < d]: the
    quotient is taken with more than 60 bits and a sticky bit, then rounded
    once (to nearest, ties to even). *)
Definition float_of_ratio (n d : Z) : float :=
  if (n =? 0)%Z then 0%float
  else
    let s := Z.max 0 (64 + Z.log2 d - Z.log2 n) in
    let q := (n * 2 ^ s / d)%Z in
    let sticky := if (n * 2 ^ s mod d =? 0)%Z then 0%Z else 1%Z in
    SF2Prim (binary_normalize prec emax (2 * q + sticky) (- s - 1) false).

Definition signed (negative : bool) (x : float) : float :=
  if negative then PrimFloat.opp x else x.

(** An optional exponent part [e], [e+] or [e-] followed by digits. *)
Definition read_exponent (s : string) : option (Z * string) :=
  match s with
  | String c r =>
      if (c =? "e")%char || (c =? "E")%char then
        let (negative, r1) :=
          match r with
          | String "-" r' => (true, r')
          | String "+" r' => (false, r')
          | _ => (false, r)
          end in
        let '(e, k, r2) := read_digits r1 0 0 in
        if (k =? 0)%nat then None
        else Some (if negative then (- e)%Z else e, r2)
      else Some (0%Z, s)
  | EmptyString => Some (0%Z, s)
  end.

Definition read_fraction (s : string) (whole : Z) : option (Z * nat * string) :=
  match s with
  | String "." r =>
      let '(digits, k, r') := read_digits r whole 0 in
      if (k =? 0)%nat then None else Some (digits, k, r')
  | _ => Some (whole, 0%nat, s)
  end.

Definition read_number (s : string) : option (float * string) :=
  let (negative, s1) :=
    match s with
    | String "-" r => (true, r)
    | _ => (false, s)
    end in
  match s1 with
  | String c r =>
      if is_digit c then
        let '(whole, _, s2) :=
          if (c =? "0")%char then (0%Z, 1%nat, r) else read_digits s1 0 0 in
        match read_fraction s2 whole with
        | Some (digits, k, s3) =>
            match read_exponent s3 with
            | Some (e, s4) =>
                let scale := (e - Z.of_nat k)%Z in
                let x :=
                  if (0 <=? scale)%Z then float_of_ratio (digits * 10 ^ scale) 1
                  else float_of_ratio digits (10 ^ (- scale)) in
                Some (signed negative x, s4)
            | None => None
            end
        | None => None
        end
      else None
  | EmptyString => None
  end.

Definition unescape (c : ascii) : option ascii :=
  if (c =? quote)%char then Some quote
  else if (c =? backslash)%char then Some backslash
  else if (c =? "/")%char then Some "/"%char
  else if (c =? "n")%char then Some "010"%char
  else if (c =? "t")%char then Some "009"%char
  else if (c =? "r")%char then Some "013"%char
  else None.

(** The characters up to the closing quote. *)
Fixpoint read_string (s : string) : option (string * string) :=
  match s with
  | EmptyString => None
  | String c r =>
      if (c =? quote)%char then Some (EmptyString, r)
      else if (c =? backslash)%char then
        match r with
        | String e r' =>
            match unescape e, read_string r' with
            | Some c', Some (t, rest) => Some (String c' t, rest)
            | _, _ => None
            end
        | EmptyString => None
        end
      else if (nat_of_ascii c <? 32)%nat then None
      else
        match read_string r with
        | Some (t, rest) => Some (String c t, rest)
        | None => None
        end
  end.

Fixpoint read_value (fuel : nat) (s : string) : option (JsValue * string) :=
  match fuel with
  | O => None
  | S fuel' =>
      match skip_space s with
      | String "n" _ as t => option_map (fun r => (JNull, r)) (strip_prefix "null" t)
      | String "t" _ as t => option_map (fun r => (JBool true, r)) (strip_prefix "true" t)
      | String "f" _ as t => option_map (fun r => (JBool false, r)) (strip_prefix "false" t)
      | String "[" r =>
          match skip_space r with
          | String "]" r' => Some (JArr [], r')
          | t => option_map (fun '(vs, r') => (JArr vs, r')) (read_elements fuel' t)
          end
      | String "{" r =>
          match skip_space r with
          | String "}" r' => Some (JObj [], r')
          | t => option_map (fun '(fs, r') => (JObj fs, r')) (read_members fuel' t)
          end
      | String c r as t =>
          if (c =? quote)%char
          then option_map (fun '(str, r') => (JStr str, r')) (read_string r)
          else option_map (fun '(x, r') => (JNum x, r')) (read_number t)
      | EmptyString => None
      end
  end
with read_elements (fuel : nat) (s : string) : option (list JsValue * string) :=
  match fuel with
  | O => None
  | S fuel' =>
      match read_value fuel' s with
      | Some (v, r) =>
          match skip_space r with
          | String "," r' =>
              option_map (fun '(vs, r'') => (v :: vs, r'')) (read_elements fuel' r')
          | String "]" r' => Some ([v], r')
          | _ => None
          end
      | None => None
      end
  end
with read_members (fuel : nat) (s : string) : option (list (string * JsValue) * string) :=
  match fuel with
  | O => None
  | S fuel' =>
      match skip_space s with
      | String c r =>
          if (c =? quote)%char then
            match read_string r with
            | Some (k, r1) =>
                match skip_space r1 with
                | String ":" r2 =>
                    match read_value fuel' r2 with
                    | Some (v, r3) =>
                        match skip_space r3 with
                        | String "," r4 =>
                            option_map (fun '(fs, r5) => ((k, v) :: fs, r5))
                                       (read_members fuel' r4)
                        | String "}" r4 => Some ([(k, v)], r4)
                        | _ => None
                        end
                    | None => None
                    end
                | _ => None
                end
            | None => None
            end
          else None
      | EmptyString => None
      end
  end.

Definition parse (s : string) : option JsValue :=
  match read_value (2 * String.length s + 2) s with
  | Some (v, r) =>
      match skip_space r with
      | EmptyString => Some v
      | _ => None
      end
  | None => None
  end.


Fixpoint escape (s : string) : string :=
  match s with
  | EmptyString => EmptyString
  | String c r =>
      if (c =? quote)%char then String backslash (String quote (escape r))
      else if (c =? backslash)%char then String backslash (String backslash (escape r))
      else if (c =? "010")%char then String backslash (String "n" (escape r))
      else if (c =? "009")%char then String backslash (String "t" (escape r))
      else if (c =? "013")%char then String backslash (String "r" (escape r))
      else String c (escape r)
  end.

Definition quoted (s : string) : string :=
  String quote (escape s) ++ String quote EmptyString.

Fixpoint join (sep : string) (l : list string) : string :=
  match l with
  | [] => ""
  | [x] => x
  | x :: rest => x ++ sep ++ join sep rest
  end.

Fixpoint zeros (n : nat) : string :=
  match n with
  | O => ""
  | S n' => String "0" (zeros n')
  end.

Fixpoint drop_zeros (l : list ascii) : list ascii :=
  match l with
  | c :: r => if (c =? "0")%char then drop_zeros r else l
  | [] => []
  end.

Definition strip_trailing_zeros (s : string) : string :=
  string_of_list_ascii (rev (drop_zeros (rev (list_ascii_of_string s)))).

(** A finite number [m * 2^e] written with all its decimal digits. *)
Definition write_number (x : float) : string :=
  match Prim2SF x with
  | S754_zero _ => "0"
  | S754_infinity _ | S754_nan => "null"
  | S754_finite negative m e =>
      let sign := if negative then "-" else "" in
      if (0 <=? e)%Z then sign ++ pretty (Z.pos m * 2 ^ e)%Z
      else
        let n := (Z.pos m * 5 ^ (- e))%Z in
        let whole := (n / 10 ^ (- e))%Z in
        let part := (n mod 10 ^ (- e))%Z in
        let text := pretty part in
        let digits :=
          strip_trailing_zeros (zeros (Z.to_nat (- e) - String.length text) ++ text) in
        match digits with
        | EmptyString => sign ++ pretty whole
        | _ => sign ++ pretty whole ++ "." ++ digits
        end
  end.

Fixpoint stringify (v : JsValue) : string :=
  match v with
  | JNull => "null"
  | JBool b => if b then "true" else "false"
  | JNum x => write_number x
  | JStr s => quoted s
  | JArr items => "[" ++ join "," (map stringify items) ++ "]"
  | JObj fields =>
      "{" ++ join "," (map (fun kv => quoted (fst kv) ++ ":" ++ stringify (snd kv)) fields)
          ++ "}"
  end.

End SampleJson.

Definition sample_json : JsonCodec :=
  {| JSON_parse := SampleJson.parse; JSON_stringify := SampleJson.stringify |}.

(* ===================================================================== *)
(** ** Observations and sample data *)
(* ===================================================================== *)

(** Running a computation in a world: how it completes, and the world it
    leaves behind. *)
Definition outcome {A : Type} (m : Eff World A) (w : World) : Completion A := fst (m w).

Definition after {A : Type} (m : Eff World A) (w : World) : World := snd (m w).

(** The in-memory collection and the persisted mirror. *)
Definition store_plants (w : World) : list Plant.t := PlantsState.plants (plantsState w).

Definition mirror (w : World) : option string :=
  LocalStorage.items (localStorage w) !! Storage.STORAGE_KEY.

Definition mirror_text {json : JsonCodec} (ps : list Plant.t) : string :=
  JSON_stringify (Plant.list_to_json ps).

(** The mirror holds the serialised in-memory collection. *)
Definition mirrors_store {json : JsonCodec} (w : World) : Prop :=
  mirror w = Some (mirror_text (store_plants w)).

(** [localStorage] takes the write of the serialised collection [ps]. *)
Definition store_accepts {json : JsonCodec} (w : World) (ps : list Plant.t) : bool :=
  LocalStorage.accepts (localStorage w) Storage.STORAGE_KEY (mirror_text ps).

(** What a write to the mirror does to [localStorage]. *)
Definition written (text : string) (ls : LocalStorage.t) : LocalStorage.t :=
  LocalStorage.mk (<[Storage.STORAGE_KEY := text]> (LocalStorage.items ls))
                  (LocalStorage.quota ls) (LocalStorage.blocked ls).

(** The request [fetchUserPlants] sends. *)
Definition fetch_request : Http.Request :=
  {| Http.method := "POST"; Http.url := "/get-plant-location-data";
     Http.payload := Http.EmailOnly |}.

(** The freshness rule in the specification's words: a refresh is served
    from the cache when it is not forced, the cache holds a collection and
    its fetch time, and [now - fetchedAt < 120000]. *)
Definition spec_serves_cache (forceRefresh : bool) (now : Z) (c : Cache.t) : bool :=
  negb forceRefresh &&
  match Cache.plants c, Cache.timestamp c with
  | Some _, Some fetchedAt => (now - fetchedAt <? 120000)%Z
  | _, _ => false
  end.

(** The result object of a refresh served from the cache. *)
Definition cached_result (ps : list Plant.t) : Api.Result (list Plant.t) :=
  {| Api.success := true; Api.data := ps; Api.error := None; Api.fromCache := Some true |}.

(** The worlds a running application can be in, with a clock that reads a
    time after the epoch.  The [cache] object is private to
    [services/api.js]: it starts empty and only the functions of the module
    write it.  Between their calls time passes and the rest of the
    application runs, which leaves the cache alone. *)
Inductive Reachable : World -> Prop :=
| reach_start (w : World) :
    cache w = Cache.initial -> (0 < clock w)%Z -> Reachable w
| reach_elsewhere (w w' : World) :
    Reachable w -> cache w' = cache w -> (clock w <= clock w')%Z -> Reachable w'
| reach_extractCoordinates (w : World) (imageName imageUrl : option string)
    (x : Http.Exchange Http.ExtractBody) :
    Reachable w -> (0 <= Http.latency x)%Z ->
    Reachable (after (Api.extractCoordinates imageName imageUrl x) w)
| reach_savePlantData (w : World) (plantData : PlantData.t)
    (x : Http.Exchange Http.SaveBody) :
    Reachable w -> (0 <= Http.latency x)%Z ->
    Reachable (after (Api.savePlantData plantData x) w)
| reach_fetchUserPlants (w : World) (forceRefresh : bool)
    (x : Http.Exchange Http.FetchBody) :
    Reachable w -> (0 <= Http.latency x)%Z ->
    Reachable (after (Api.fetchUserPlants forceRefresh x) w)
| reach_deletePlantData (w : World) (plantId : option string)
    (x : Http.Exchange Http.DeleteBody) :
    Reachable w -> (0 <= Http.latency x)%Z ->
    Reachable (after (Api.deletePlantData plantId x) w)
| reach_clearCache (w : World) :
    Reachable w -> Reachable (after Api.clearCache w).

(** The cache timestamp, when there is one, is a reading of the clock. *)
Definition timestamp_is_a_reading (w : World) : Prop :=
  (0 < clock w)%Z /\
  forall fetchedAt, Cache.timestamp (cache w) = Some fetchedAt ->
                    (0 < fetchedAt <= clock w)%Z.

(** The result object of a refresh whose request failed. *)
Definition unavailable_result : Api.Result (list Plant.t) :=
  {| Api.success := false; Api.data := []; Api.error := Some "API not available";
     Api.fromCache := None |}.

(** The result object of [savePlantData] for a draft that fails the
    validation. *)
Definition missing_fields_result : Api.Result (option Plant.t) :=
  {| Api.success := false; Api.data := None;
     Api.error := Some "Missing required plant data fields"; Api.fromCache := None |}.

(** The world once a request has been handed over and has settled. *)
Definition contacted {Body : Type} (req : Http.Request) (x : Http.Exchange Body)
  (w : World) : World :=
  advance (Http.latency x) (set_requests (requests w ++ [req]) w).

(** The state the three persisting reducers leave in the slice. *)
Definition uploaded (payload : Plant.t) (s : PlantsState.t) : PlantsState.t :=
  PlantsState.set_uploadProgress
    (delete (Js.to_string (Plant.imageName payload)) (PlantsState.uploadProgress s))
    (PlantsState.set_plants (payload :: PlantsState.plants s) s).

Definition fetched (payload : list Plant.t) (s : PlantsState.t) : PlantsState.t :=
  PlantsState.set_loading false (PlantsState.set_plants payload s).

Definition without (plantId : option string) (ps : list Plant.t) : list Plant.t :=
  List.filter (fun p => strict_neq (Plant.id p) plantId) ps.

Definition deleted (plantId : option string) (s : PlantsState.t) : PlantsState.t :=
  PlantsState.set_loading false
    (PlantsState.set_plants (without plantId (PlantsState.plants s)) s).

(** The requests [savePlantData] and [extractCoordinates] send. *)
Definition save_request (plantData : PlantData.t) : Http.Request :=
  {| Http.method := "POST"; Http.url := "/save-plant-location-data";
     Http.payload := Http.SavePayload plantData |}.

Definition extract_request (imageName imageUrl : option string) : Http.Request :=
  {| Http.method := "POST"; Http.url := "/extract-latitude-longitude";
     Http.payload := Http.ExtractPayload imageName imageUrl |}.

(** The request [deletePlantData] sends. *)
Definition delete_request (plantId : option string) : Http.Request :=
  {| Http.method := "DELETE"; Http.url := "/delete-plant/" ++ Js.to_string plantId;
     Http.payload := Http.EmailOnly |}.


Definition cache_invalidated (w : World) : Prop :=
  cache w = {| Cache.plants := None; Cache.timestamp := None |}.

(** A run of successful creations, one [uploadSuccess] per record. *)
Fixpoint dispatchUploads {json : JsonCodec} (payloads : list Plant.t) : Eff World unit :=
  match payloads with
  | [] => ret tt
  | payload :: rest => PlantsSlice.uploadSuccess payload ;; dispatchUploads rest
  end.

Module Sample.

Definition plant (id name : string) (lat lon : float) : Plant.t :=
  {| Plant.id := Some id;
     Plant.imageName := Some name;
     Plant.imageUrl := Some ("https://img.example/" ++ name);
     Plant.latitude := Some lat;
     Plant.longitude := Some lon;
     Plant.uploadedAt := Some "2024-01-01T00:00:00Z" |}.

Definition x1 : Plant.t := plant "x1" "a.jpg" 10 20.
Definition x2 : Plant.t := plant "x2" "b.jpg" 11 21.
Definition x3 : Plant.t := plant "x3" "c.jpg" 12 22.

Definition remote (id name : string) (lat lon : float) : RemotePlant.t :=
  {| RemotePlant._id := Some id;
     RemotePlant.id := None;
     RemotePlant.imageName := Some name;
     RemotePlant.imageUrl := Some ("https://img.example/" ++ name);
     RemotePlant.latitude := Some lat;
     RemotePlant.longitude := Some lon;
     RemotePlant.uploadedAt := Some "2024-01-01T00:00:00Z";
     RemotePlant.createdAt := None |}.

(** A fresh page: nothing cached, nothing stored, five megabytes of quota. *)
Definition fresh : World :=
  {| clock := 1700000000000;
     development := false;
     cache := Cache.initial;
     requests := [];
     console := [];
     localStorage := {| LocalStorage.items := ∅; LocalStorage.quota := 5242880;
                        LocalStorage.blocked := false |};
     plantsState := PlantsState.initialState;
     toasts := [] |}.

Definition with_mirror (text : string) (w : World) : World :=
  set_localStorage
    (LocalStorage.mk (<[Storage.STORAGE_KEY := text]> (LocalStorage.items (localStorage w)))
                     (LocalStorage.quota (localStorage w))
                     (LocalStorage.blocked (localStorage w))) w.

Definition with_plants (ps : list Plant.t) (w : World) : World :=
  set_plantsState (PlantsState.set_plants ps (plantsState w)) w.

Definition with_cache (ps : list Plant.t) (fetchedAt : Z) (w : World) : World :=
  set_cache {| Cache.plants := Some ps; Cache.timestamp := Some fetchedAt |} w.

Definition network_error : JsError :=
  {| Js.name := "AxiosError"; Js.message := Some "Network Error"; Js.response := None;
     Js.request := true |}.

Definition offline {Body : Type} : Http.Exchange Body :=
  {| Http.reply := Http.Rejected network_error; Http.latency := 10000 |}.

Definition answers {Body : Type} (body : Body) : Http.Exchange Body :=
  {| Http.reply := Http.Resolved body; Http.latency := 150 |}.

End Sample.

(* ===================================================================== *)
(** ** src/utils/helpers.js *)
(* ===================================================================== *)

(** A browser [File]: its name, its size in bytes and its MIME type. *)
Module File.

Record t : Type := mk {
  name : string;
  size : Z;
  type : string
}.

End File.

Module Helpers.

Definition validTypes : list string :=
  ["image/jpeg"; "image/jpg"; "image/png"; "image/heic"].

Definition maxSize : Z := 5 * 1024 * 1024.

(** [validTypes.includes(t)] *)
Definition isValidType (t : string) : bool := existsb (String.eqb t) validTypes.

Definition two_digits (d : Z) : string :=
  if (d <? 10)%Z then "0" ++ pretty d else pretty d.

(** [(bytes / 1024 / 1024).toFixed(2)] for a size in bytes: the division by
    [2^20] is exact in binary64, and [toFixed] takes the nearest number of
    hundredths, the larger one on a tie. *)
Definition megabytes (bytes : Z) : string :=
  let hundredths := ((bytes * 200 + 1048576) / 2097152)%Z in
  pretty (hundredths / 100)%Z ++ "." ++ two_digits (hundredths mod 100)%Z.

Record Validation : Type := {
  valid : bool;
  error : option string
}.

Definition validateImage (file : File.t) : Validation :=
  if negb (isValidType (File.type file)) then
    {| valid := false;
       error := Some "Invalid file type. Only JPG, PNG, and HEIC are supported." |}
  else if (maxSize <? File.size file)%Z then
    {| valid := false;
       error := Some ("File size exceeds 5MB. Current: " ++ megabytes (File.size file)
                      ++ "MB") |}
  else {| valid := true; error := None |}.

(** The numbers of [formatDate]: an integer, or [NaN], here [None].  The
    time value of a [Date] is an integer number of milliseconds, or [NaN]
    when the date is invalid, and the arithmetic below keeps [NaN]. *)
Definition Number : Type := option Z.

(** [now - date] *)
Definition minus (now : Z) (date : Number) : Number := option_map (fun d => (now - d)%Z) date.

(** [Math.floor(x / k)]: the floor division of [Z] (exact in binary64 for
    the distances between dates the function meets). *)
Definition floorDiv (x : Number) (k : Z) : Number := option_map (fun v => (v / k)%Z) x.

(** [x < k] and [x > k]: false when [x] is [NaN]. *)
Definition lessThan (x : Number) (k : Z) : bool :=
  match x with Some v => (v <? k)%Z | None => false end.

Definition greaterThan (x : Number) (k : Z) : bool :=
  match x with Some v => (k <? v)%Z | None => false end.

(** [`${x}`] *)
Definition numberText (x : Number) : string :=
  match x with Some v => pretty v | None => "NaN" end.

(** [n > 1 ? 's' : ''] *)
Definition plural (n : Number) : string := if greaterThan n 1 then "s" else "".

(** [`${n} ${unit}${n > 1 ? 's' : ''} ago`] *)
Definition ago (n : Number) (unit : string) : string :=
  numberText n ++ " " ++ unit ++ plural n ++ " ago".

Section WithDate.
(** The time value of [new Date(s)] for a string [s], a built-in: [None]
    when the string does not parse and the date is invalid. *)
Variable Date_parse : string -> Number.

(** The time value of [new Date(timestamp)]; [new Date(undefined)] is an
    invalid date. *)
Definition timeValue (timestamp : option string) : Number :=
  match timestamp with
  | Some s => Date_parse s
  | None => None
  end.

(** [formatDate]: [timestamp] is what the callers pass, [plant.uploadedAt];
    [now] is the time value of [new Date()]; [absolute] is what
    [date.toLocaleString] gives. *)
Definition formatDate (timestamp : option string) (now : Z) (relative : bool)
  (absolute : string) : string :=
  let date := timeValue timestamp in
  if relative then
    let diffMs := minus now date in
    let diffMins := floorDiv diffMs 60000 in
    let diffHours := floorDiv diffMs 3600000 in
    let diffDays := floorDiv diffMs 86400000 in
    if lessThan diffMins 1 then "Just now"
    else if lessThan diffMins 60 then ago diffMins "minute"
    else if lessThan diffHours 24 then ago diffHours "hour"
    else if lessThan diffDays 7 then ago diffDays "day"
    else if lessThan diffDays 30 then ago (floorDiv diffDays 7) "week"
    else if lessThan diffDays 365 then ago (floorDiv diffDays 30) "month"
    else ago (floorDiv diffDays 365) "year"
  else absolute.

End WithDate.

(** [s.includes(sub)] *)
Fixpoint includes (s sub : string) : bool :=
  match s with
  | EmptyString => String.prefix sub EmptyString
  | String _ r => String.prefix sub s || includes r sub
  end.

(** [s.split(sep)] for a separator that is not empty.  The text is read
    left to right; [cur] is the piece being collected, and [skip] counts
    the characters of a separator that has just been found and are still
    to be passed over. *)
Fixpoint split_from (sep s cur : string) (skip : nat) : list string :=
  match s with
  | EmptyString => [cur]
  | String c r =>
      match skip with
      | S k => split_from sep r cur k
      | O =>
          if String.prefix sep s
          then cur :: split_from sep r EmptyString (String.length sep - 1)
          else split_from sep r (cur ++ String c EmptyString) 0
      end
  end.

Definition split (s sep : string) : list string := split_from sep s EmptyString 0.

(** [`w_${width},q_${quality},f_auto,c_limit`] *)
Definition transformations (width quality : Z) : string :=
  "w_" ++ pretty width ++ ",q_" ++ pretty quality ++ ",f_auto,c_limit".

Definition getOptimizedImageUrl (url : option string) (width quality : Z)
  : option string :=
  match url with
  | None => url
  | Some u =>
      if negb (truthy_string u) || negb (includes u "cloudinary.com") then url
      else
        match split u "/upload/" with
        | [before; rest] =>
            Some (before ++ "/upload/" ++ transformations width quality ++ "/" ++ rest)
        | _ => url
        end
  end.

(** [array.filter(callback)] for a callback that may throw. *)
Fixpoint filter_throwing {A : Type} (keep : A -> Completion bool) (l : list A)
  : Completion (list A) :=
  match l with
  | [] => Normal []
  | a :: rest =>
      match keep a with
      | Throw e => Throw e
      | Normal b =>
          match filter_throwing keep rest with
          | Throw e => Throw e
          | Normal kept => Normal (if b then a :: kept else kept)
          end
      end
  end.

Section WithLowerCase.
(** [String.prototype.toLowerCase], a built-in. *)
Variable toLowerCase : string -> string.

(** Reading [plant.imageName.toLowerCase()] throws when the record has no
    [imageName]. *)
Definition nameMatches (term : string) (plant : Plant.t) : Completion bool :=
  match Plant.imageName plant with
  | Some imageName => Normal (includes (toLowerCase imageName) term)
  | None => Throw (TypeError "Cannot read properties of undefined (reading 'toLowerCase')")
  end.

Definition filterPlants (plants : list Plant.t) (searchTerm : option string)
  : Completion (list Plant.t) :=
  match searchTerm with
  | Some s =>
      if truthy_string s then filter_throwing (nameMatches (toLowerCase s)) plants
      else Normal plants
  | None => Normal plants
  end.

End WithLowerCase.

End Helpers.

(* ===================================================================== *)
(** ** src/services/cloudinary.js *)
(* ===================================================================== *)

Module Cloudinary.

Definition MAX_FILE_SIZE : Z := 5 * 1024 * 1024.

Definition validTypes : list string :=
  ["image/jpeg"; "image/jpg"; "image/png"; "image/heic"].

(** The two checks at the head of [uploadToCloudinary]: the error the
    function throws before anything is sent, if any.  (Its [catch] block
    rethrows an error that carries neither a response nor a request.) *)
Definition rejection (file : File.t) : option JsError :=
  if (MAX_FILE_SIZE <? File.size file)%Z then
    Some (Error ("File size exceeds 5MB limit. Current size: "
                 ++ Helpers.megabytes (File.size file) ++ "MB"))
  else if negb (existsb (String.eqb (File.type file)) validTypes) then
    Some (Error "Invalid file type. Only JPG, PNG, and HEIC are supported.")
  else None.

End Cloudinary.

(* ===================================================================== *)
(** ** src/components/upload/UploadZone.jsx, ImageUpload.jsx *)
(* ===================================================================== *)

Module UploadZone.

Record Rejection : Type := {
  file : string;            (* file.name *)
  error : option string
}.

(** [onDrop]: the accepted files that pass [validateImage], and one error
    entry for every other file; [rejectedFiles] carries, for each file the
    dropzone refused, the messages of its errors. *)
Definition onDrop (acceptedFiles : list File.t) (rejectedFiles : list (File.t * list string))
  : list File.t * list Rejection :=
  let validFiles :=
    List.filter (fun f => Helpers.valid (Helpers.validateImage f)) acceptedFiles in
  let invalid :=
    map (fun f => {| file := File.name f;
                     error := Helpers.error (Helpers.validateImage f) |})
        (List.filter (fun f => negb (Helpers.valid (Helpers.validateImage f)))
                     acceptedFiles) in
  let refused :=
    map (fun fr => {| file := File.name (fst fr);
                      error := Some (String.concat ", " (snd fr)) |})
        rejectedFiles in
  (validFiles, (invalid ++ refused)%list).

End UploadZone.

Module ImageUpload.

(** [f.name === newFile.name && f.size === newFile.size] *)
Definition sameFile (f newFile : File.t) : bool :=
  String.eqb (File.name f) (File.name newFile) && Z.eqb (File.size f) (File.size newFile).

(** The [newFiles] of [handleFilesSelected]: the selected files that are
    not yet in the component's [files]. *)
Definition newFiles (files selectedFiles : list File.t) : list File.t :=
  List.filter (fun newFile => negb (existsb (fun f => sameFile f newFile) files))
              selectedFiles.

(** What [handleFilesSelected] does: the new value of [files], the error
    toasts it shows, and whether it shows the notice 'Some files were
    already added'. *)
Record Selected : Type := {
  selection : list File.t;
  errorToasts : list string;
  notice : bool
}.

(** [`${file}: ${error}`] *)
Definition errorToast (r : UploadZone.Rejection) : string :=
  UploadZone.file r ++ ": "
  ++ match UploadZone.error r with Some error => error | None => "null" end.

(** [handleFilesSelected]: [files] is the list the handler was created
    with, [prev] the list [setFiles] updates. *)
Definition handleFilesSelected (files prev selectedFiles : list File.t)
  (errors : list UploadZone.Rejection) : Selected :=
  if (0 <? length selectedFiles)%nat then
    let added := newFiles files selectedFiles in
    {| selection := (prev ++ added)%list;
       errorToasts := map errorToast errors;
       notice := (length added <? length selectedFiles)%nat |}
  else
    {| selection := prev; errorToasts := map errorToast errors; notice := false |}.

(** A drop on the upload zone of a component that shows [files]: [onDrop]
    hands its two lists to [handleFilesSelected]. *)
Definition drop (files acceptedFiles : list File.t)
  (rejectedFiles : list (File.t * list string)) : Selected :=
  handleFilesSelected files files
    (fst (UploadZone.onDrop acceptedFiles rejectedFiles))
    (snd (UploadZone.onDrop acceptedFiles rejectedFiles)).

(** [handleRemoveFile] on [files]. *)
Definition handleRemoveFile (files : list File.t) (fileName : string) : list File.t :=
  List.filter (fun f => negb (String.eqb (File.name f) fileName)) files.

End ImageUpload.

(* ===================================================================== *)
(** ** src/components/plants/PlantList.jsx: pagination *)
(* ===================================================================== *)

Module PlantList.

(** [Math.ceil(length / itemsPerPage)], for the positive page sizes the
    component offers. *)
Definition totalPages (length itemsPerPage : Z) : Z := (- ((- length) / itemsPerPage))%Z.

Definition startIndex (currentPage itemsPerPage : Z) : Z :=
  ((currentPage - 1) * itemsPerPage)%Z.

Definition endIndex (currentPage itemsPerPage : Z) : Z :=
  (startIndex currentPage itemsPerPage + itemsPerPage)%Z.

(** [array.slice(start, end)]: a negative index counts from the end, and
    both indices are clamped to the array. *)
Definition slice {A : Type} (l : list A) (start stop : Z) : list A :=
  let len := Z.of_nat (length l) in
  let from := if (start <? 0)%Z then Z.max (len + start) 0 else Z.min start len in
  let to := if (stop <? 0)%Z then Z.max (len + stop) 0 else Z.min stop len in
  firstn (Z.to_nat (to - from)) (skipn (Z.to_nat from) l).

Definition paginatedPlants {A : Type} (displayedPlants : list A)
  (currentPage itemsPerPage : Z) : list A :=
  slice displayedPlants (startIndex currentPage itemsPerPage)
        (endIndex currentPage itemsPerPage).

(** The page [goToPage] sets: [Math.max(1, Math.min(page, totalPages))]. *)
Definition goToPage (page totalPages : Z) : Z := Z.max 1 (Z.min page totalPages).

(** The effect that keeps [currentPage] valid. *)
Definition ensureValid (currentPage totalPages : Z) : Z :=
  if (totalPages <? currentPage)%Z && (0 <? totalPages)%Z then totalPages else currentPage.

(** [handleJumpToPage]: [page] is what [parseInt] made of the input, [None]
    for [NaN].  The result is the page to go to, or [None] when the error
    toast is shown instead. *)
Definition handleJumpToPage (page : option Z) (totalPages : Z) : option Z :=
  match page with
  | Some p =>
      if (1 <=? p)%Z && (p <=? totalPages)%Z then Some (goToPage p totalPages) else None
  | None => None
  end.

Inductive PageItem : Type :=
| Page (n : Z)
| Ellipsis.                 (* '...' *)

(** [for (let i = first; i <= last; i++) pages.push(i)] *)
Definition pagesBetween (first last : Z) : list PageItem :=
  map (fun k => Page (first + Z.of_nat k)%Z) (seq 0 (Z.to_nat (last - first + 1))).

Definition getPageNumbers (totalPages currentPage : Z) : list PageItem :=
  let maxVisible := 5%Z in
  if (totalPages <=? maxVisible)%Z then pagesBetween 1 totalPages
  else
    let startPage := Z.max 2 (currentPage - 1) in
    let endPage := Z.min (totalPages - 1) (currentPage + 1) in
    ([Page 1]
     ++ (if (2 <? startPage)%Z then [Ellipsis] else [])
     ++ pagesBetween startPage endPage
     ++ (if (endPage <? totalPages - 1)%Z then [Ellipsis] else [])
     ++ (if (1 <? totalPages)%Z then [Page totalPages] else []))%list.

(** The numbers among the page items, in order. *)
Fixpoint pageNumbers (items : list PageItem) : list Z :=
  match items with
  | [] => []
  | Page n :: rest => n :: pageNumbers rest
  | Ellipsis :: rest => pageNumbers rest
  end.

(** Each number is smaller than the next. *)
Fixpoint increasing (l : list Z) : Prop :=
  match l with
  | a :: (b :: _) as rest => (a < b)%Z /\ increasing rest
  | _ => True
  end.

End PlantList.

(* ===================================================================== *)
(** ** Observations on uploads, searches and file selections *)
(* ===================================================================== *)

(** The error response of [e] has a [null] body. *)
Definition null_body (e : JsError) : bool :=
  match Js.response e with
  | Some r => match Js.data r with Some _ => false | None => true end
  | None => false
  end.

(** What reading the message of a [null] body throws. *)
Definition null_body_error : JsError :=
  TypeError "Cannot read properties of null (reading 'message')".

(** The message the [catch] blocks of [extractCoordinates] and
    [savePlantData] choose for an error whose response, if any, has a
    body. *)
Definition message_of (fallback : string) (e : JsError) : string :=
  match Js.response e with
  | Some r =>
      match Js.data r with
      | Some d => or_default truthy_string (Js.data_message d) fallback
      | None => fallback
      end
  | None =>
      if Js.request e
      then "Network error. Please check your connection."
      else or_default truthy_string (Js.message e) fallback
  end.

(** How these [catch] blocks end for the error [e]: with the result that
    carries the message, or with the [TypeError] of a [null] body. *)
Definition caught {D : Type} (nothing : D) (fallback : string) (e : JsError)
  : Completion (Api.Result D) :=
  if null_body e then Throw null_body_error
  else Normal {| Api.success := false; Api.data := nothing;
                 Api.error := Some (message_of fallback e); Api.fromCache := None |}.

(** The request failed with an error response whose body is [null]: the
    case in which the [catch] blocks of [extractCoordinates] and
    [savePlantData] throw. *)
Definition fails_with_null_body {Body : Type} (x : Http.Exchange Body) : bool :=
  match Http.reply x with
  | Http.Resolved _ => false
  | Http.Rejected e => null_body e
  end.

(** The draft passes the validation of [savePlantData] and the remote side
    answers the save with [success: true]. *)
Definition saved (plantData : PlantData.t) (x : Http.Exchange Http.SaveBody) : bool :=
  negb (Api.missing_fields plantData)
  && match Http.reply x with
     | Http.Resolved sb => Http.save_success sb
     | Http.Rejected _ => false
     end.

(** The error [uploadSingleFile] has in its [catch] block when the request
    of [extractCoordinates] or of [savePlantData] failed with [e]: the
    [TypeError] that came out of their [catch] block, or the [Error] made
    from the message of their result. *)
Definition api_failure (fallback : string) (e : JsError) : JsError :=
  if null_body e then null_body_error else Error (message_of fallback e).

(** What the [catch] block of [uploadSingleFile] leaves behind: the error
    is logged, [uploadFailure] is dispatched and an error toast is shown. *)
Definition upload_failed (fileName : string) (e : JsError) (w : World) : World :=
  let w1 :=
    set_console (console w ++ [ConsoleError ("Upload error for " ++ fileName ++ ":") e]) w in
  let w2 :=
    set_plantsState
      (PlantsState.set_error (Js.message e)
         (PlantsState.set_uploadProgress
            (delete fileName (PlantsState.uploadProgress (plantsState w1)))
            (plantsState w1))) w1 in
  set_toasts (toasts w2 ++ [ToastError ("Failed to upload " ++ fileName ++ ": "
                                        ++ Js.to_string (Js.message e))]) w2.

(** The result object of a failed upload. *)
Definition failure_result (e : JsError) : Components.UploadResult :=
  {| Components.upload_success := false; Components.upload_data := None;
     Components.upload_error := Js.message e |}.

(** The progress map of the store. *)
Definition progress_of (w : World) : gmap string Z :=
  PlantsState.uploadProgress (plantsState w).

(** The coordinates the extraction gives, if it gives any. *)
Definition extracted (xExtract : Http.Exchange Http.ExtractBody) : option Http.Coordinates :=
  match Http.reply xExtract with
  | Http.Resolved eb => if Http.extract_success eb then Http.extract_data eb else None
  | Http.Rejected _ => None
  end.

(** The remote side reports the save of an upload as done. *)
Definition save_confirmed (fileName : string) (h : Components.Hosting)
  (xExtract : Http.Exchange Http.ExtractBody) (xSave : Http.Exchange Http.SaveBody) : bool :=
  match Components.hosted h, extracted xExtract, Http.reply xSave with
  | Http.Resolved url, Some coordinates, Http.Resolved sb =>
      negb (Api.missing_fields (Components.plantDataOf fileName url coordinates))
      && Http.save_success sb
  | _, _, _ => false
  end.

(** The test [filterPlants] applies to a record that has a name. *)
Definition named_like (toLowerCase : string -> string) (term : string) (p : Plant.t) : bool :=
  match Plant.imageName p with
  | Some imageName => Helpers.includes (toLowerCase imageName) (toLowerCase term)
  | None => false
  end.

(** [toLowerCase] on the letters A to Z. *)
Definition lower_ascii (c : ascii) : ascii :=
  let n := nat_of_ascii c in
  if (65 <=? n)%nat && (n <=? 90)%nat then ascii_of_nat (n + 32) else c.

Fixpoint lowercase (s : string) : string :=
  match s with
  | EmptyString => EmptyString
  | String c r => String (lower_ascii c) (lowercase r)
  end.

(** No two files of the list have the same name and size. *)
Fixpoint distinct (l : list File.t) : Prop :=
  match l with
  | [] => True
  | f :: rest => (forall g, In g rest -> ImageUpload.sameFile f g = false) /\ distinct rest
  end.

(* ===================================================================== *)
(** ** The actions of the slice *)
(* ===================================================================== *)

(** The actions of the slice ([plantsSlice.actions]) with their payloads;
    dispatching one runs its reducer. *)
Inductive Action : Type :=
| UploadStart (payload : string)
| UploadProgress (imageName : string) (progress : Z)
| UploadSuccess (payload : Plant.t)
| UploadFailure (imageName : string) (error : option string)
| BatchUploadStart (payload : list string)
| FetchPlantsStart
| FetchPlantsSuccess (payload : list Plant.t)
| FetchPlantsFailure (payload : string)
| DeletePlantStart
| DeletePlantSuccess (payload : option string)
| DeletePlantFailure (payload : string)
| SetFilters (sortBy searchTerm : option string)
| SetSelectedPlant (payload : option Plant.t)
| ClearError.

Definition dispatch {json : JsonCodec} (action : Action) : Eff World unit :=
  match action with
  | UploadStart payload => PlantsSlice.uploadStart payload
  | UploadProgress imageName progress => PlantsSlice.uploadProgress imageName progress
  | UploadSuccess payload => PlantsSlice.uploadSuccess payload
  | UploadFailure imageName error => PlantsSlice.uploadFailure imageName error
  | BatchUploadStart payload => PlantsSlice.batchUploadStart payload
  | FetchPlantsStart => PlantsSlice.fetchPlantsStart
  | FetchPlantsSuccess payload => PlantsSlice.fetchPlantsSuccess payload
  | FetchPlantsFailure payload => PlantsSlice.fetchPlantsFailure payload
  | DeletePlantStart => PlantsSlice.deletePlantStart
  | DeletePlantSuccess payload => PlantsSlice.deletePlantSuccess payload
  | DeletePlantFailure payload => PlantsSlice.deletePlantFailure payload
  | SetFilters sortBy searchTerm => PlantsSlice.setFilters sortBy searchTerm
  | SetSelectedPlant payload => PlantsSlice.setSelectedPlant payload
  | ClearError => PlantsSlice.clearError
  end.

(** A run of dispatches, one after the other. *)
Fixpoint dispatchAll {json : JsonCodec} (actions : list Action) : Eff World unit :=
  match actions with
  | [] => ret tt
  | action :: rest => dispatch action ;; dispatchAll rest
  end.

(** The three actions whose reducer calls [savePlantsToLocal]. *)
Definition persists (action : Action) : bool :=
  match action with
  | UploadSuccess _ | FetchPlantsSuccess _ | DeletePlantSuccess _ => true
  | _ => false
  end.

(** The collection an action leaves, from the collection it finds. *)
Definition reduce_plants (action : Action) (ps : list Plant.t) : list Plant.t :=
  match action with
  | UploadSuccess payload => payload :: ps
  | FetchPlantsSuccess payload => payload
  | DeletePlantSuccess payload => without payload ps
  | _ => ps
  end.

(** [localStorage] takes every write of the run. *)
Fixpoint writes_taken {json : JsonCodec} (actions : list Action) (w : World) : Prop :=
  match actions with
  | [] => True
  | action :: rest =>
      (persists action = true ->
       store_accepts w (reduce_plants action (store_plants w)) = true) /\
      writes_taken rest (after (dispatch action) w)
  end.

(* ===================================================================== *)
(** ** src/services/api.js: the response interceptor *)
(* ===================================================================== *)

(** The rejection handler of the response interceptor, together with the
    call [api(config)] by which it sends the request again.  The transport
    below the interceptor is given by the outcome of each attempt; the
    retried request carries [config], and with it [config.retry], to the
    next pass through the handler. *)
Module Interceptor.

Definition MAX_RETRIES : Z := 2.

(** What one attempt of the transport gives: a response, or an error with
    its [config] (present or not) and its [code]. *)
Inductive Attempt (Body : Type) : Type :=
| Responds (body : Body)
| Fails (config : bool) (code : option string) (e : JsError).

Arguments Responds {Body} body.
Arguments Fails {Body} config code e.

(** [error.code === 'ECONNABORTED' || error.code === 'ETIMEDOUT'] *)
Definition timedOut (code : option string) : bool :=
  match code with
  | Some c => String.eqb c "ECONNABORTED" || String.eqb c "ETIMEDOUT"
  | None => false
  end.

(** [config.retry] once [if (!config || !config.retry) config.retry = 0]
    has run on a [config] that is there. *)
Definition retryCount (retry : option Z) : Z := or_default truthy_int retry 0%Z.

(** How a call settles: the reply the caller sees, the number of attempts
    made, the time spent waiting between attempts, and the lines logged by
    the handler. *)
Record Settled (Body : Type) : Type := {
  reply : Http.Reply Body;
  attempts : nat;
  waited : Z;
  logged : list LogEntry
}.

Arguments reply {Body} _.
Arguments attempts {Body} _.
Arguments waited {Body} _.
Arguments logged {Body} _.

(** Attempt number [n] of a call and what follows it; [retry] is
    [config.retry] as the attempt finds it.  [fuel] bounds the number of
    attempts the definition follows. *)
Fixpoint send {Body : Type} (fuel : nat) (transport : nat -> Attempt Body) (n : nat)
  (retry : option Z) : option (Settled Body) :=
  match fuel with
  | O => None
  | S fuel' =>
      match transport n with
      | Responds body =>
          Some {| reply := Http.Resolved body; attempts := S n; waited := 0; logged := [] |}
      | Fails false _ _ =>
          Some {| reply := Http.Rejected
                             (TypeError "Cannot set properties of undefined (setting 'retry')");
                  attempts := S n; waited := 0; logged := [] |}
      | Fails true code e =>
          let count := retryCount retry in
          if (count <? MAX_RETRIES)%Z && timedOut code then
            let count' := (count + 1)%Z in
            match send fuel' transport (S n) (Some count') with
            | Some s =>
                Some {| reply := reply s;
                        attempts := attempts s;
                        waited := (1000 * count' + waited s)%Z;
                        logged := ConsoleLog ("Retrying request... Attempt " ++ pretty count')
                                  :: logged s |}
            | None => None
            end
          else
            Some {| reply := Http.Rejected e; attempts := S n; waited := 0; logged := [] |}
      end
  end.

(** A call on the instance: the first attempt, with no [retry] in its
    [config]. *)
Definition call {Body : Type} (fuel : nat) (transport : nat -> Attempt Body)
  : option (Settled Body) :=
  send fuel transport 0 None.

(** The attempt is a failure the handler answers by sending again. *)
Definition retried {Body : Type} (a : Attempt Body) : bool :=
  match a with
  | Fails true code _ => timedOut code
  | _ => false
  end.

End Interceptor.

(* ===================================================================== *)
(** ** Truthiness and comparison *)
(* ===================================================================== *)

Lemma truthy_string_spec (s : string) : truthy_string s = true <-> s <> "".
Proof.
  unfold truthy_string. rewrite negb_true_iff.
  destruct (String.eqb_spec s ""); split; congruence.
Qed.

Lemma strict_neq_spec (a b : option string) : strict_neq a b = true <-> a <> b.
Proof.
  destruct a as [x|], b as [y|]; simpl; try (split; congruence).
  rewrite negb_true_iff. destruct (String.eqb_spec x y); split; congruence.
Qed.

Lemma strict_neq_same (a : option string) : strict_neq a a = false.
Proof.
  destruct (strict_neq a a) eqn:E; [|reflexivity].
  apply strict_neq_spec in E. congruence.
Qed.

Lemma truthy_int_spec (t : Z) : truthy_int t = true <-> t <> 0%Z.
Proof.
  unfold truthy_int. rewrite negb_true_iff. destruct (Z.eqb_spec t 0); split; congruence.
Qed.

(* ===================================================================== *)
(** ** src/utils/storage.js *)
(* ===================================================================== *)

Section StorageFacts.
Context {json : JsonCodec}.

Lemma savePlantsToLocal_accepted (ps : list Plant.t) (w : World) :
  store_accepts w ps = true ->
  Storage.savePlantsToLocal ps w
  = (Normal true, set_localStorage (written (mirror_text ps) (localStorage w)) w).
Proof.
  unfold store_accepts, LocalStorage.accepts. intros H.
  apply andb_true_iff in H as [Hb Hf]. apply negb_true_iff in Hb.
  unfold Storage.savePlantsToLocal, try_catch, bind, localStorage_setItem, mirror_text,
    written in *.
  rewrite Hb, Hf. reflexivity.
Qed.

Lemma savePlantsToLocal_refused (ps : list Plant.t) (w : World) :
  store_accepts w ps = false ->
  exists e,
    Storage.savePlantsToLocal ps w
    = (Normal false,
       set_console (console w ++ [ConsoleError "Failed to save to localStorage:" e]) w).
Proof.
  unfold store_accepts, LocalStorage.accepts. intros H.
  unfold Storage.savePlantsToLocal, try_catch, bind, localStorage_setItem, mirror_text in *.
  destruct (LocalStorage.blocked (localStorage w)); simpl in *.
  - eexists. reflexivity.
  - rewrite H. eexists. reflexivity.
Qed.

(** [savePlantsToLocal] never throws, and touches nothing but the mirror
    and the console. *)
Lemma savePlantsToLocal_frame (ps : list Plant.t) (w : World) :
  exists b ls' log',
    Storage.savePlantsToLocal ps w = (Normal b, set_console log' (set_localStorage ls' w)).
Proof.
  destruct (store_accepts w ps) eqn:E.
  - rewrite (savePlantsToLocal_accepted _ _ E).
    exists true, (written (mirror_text ps) (localStorage w)), (console w).
    destruct w; reflexivity.
  - destruct (savePlantsToLocal_refused _ _ E) as [e ->].
    exists false, (localStorage w),
      (console w ++ [ConsoleError "Failed to save to localStorage:" e])%list.
    destruct w; reflexivity.
Qed.

Lemma mirror_written (text : string) (w : World) :
  mirror (set_localStorage (written text (localStorage w)) w) = Some text.
Proof. unfold mirror, written. simpl. apply lookup_insert_eq. Qed.

(** The whole behaviour of [loadPlantsFromLocal], branch by branch. *)
Lemma loadPlantsFromLocal_run (w : World) :
  Storage.loadPlantsFromLocal w =
  if LocalStorage.blocked (localStorage w) then
    (Normal (JArr []),
     set_console
       (console w ++ [ConsoleError "Failed to load from localStorage:"
                        (DOMException "SecurityError" "The operation is insecure.")]) w)
  else
    match mirror w with
    | None => (Normal (JArr []), w)
    | Some s =>
        if truthy_string s then
          match JSON_parse s with
          | Some v => (Normal v, w)
          | None =>
              (Normal (JArr []),
               set_console
                 (console w ++ [ConsoleError "Failed to load from localStorage:"
                                  (SyntaxError "JSON.parse: unexpected character")]) w)
          end
        else (Normal (JArr []), w)
    end.
Proof.
  unfold Storage.loadPlantsFromLocal, try_catch, bind, localStorage_getItem, mirror.
  destruct (LocalStorage.blocked (localStorage w)); [reflexivity|].
  destruct (LocalStorage.items (localStorage w) !! Storage.STORAGE_KEY) as [s|];
    [|reflexivity].
  destruct (truthy_string s); [|reflexivity].
  unfold Storage.parse. destruct (JSON_parse s); reflexivity.
Qed.

End StorageFacts.

(** C7.  [loadPlantsFromLocal] never throws: in every world it returns a
    value.  When the mirror is absent, or holds text that [JSON.parse]
    rejects, the value is the empty array; a text that fails to parse is
    also reported on the console.  Nothing but the console changes. *)
Theorem loadPlantsFromLocal_never_throws {json : JsonCodec} (w : World) :
  (exists v, outcome Storage.loadPlantsFromLocal w = Normal v) /\
  (mirror w = None -> outcome Storage.loadPlantsFromLocal w = Normal (JArr [])) /\
  (forall s, mirror w = Some s -> JSON_parse s = None ->
             outcome Storage.loadPlantsFromLocal w = Normal (JArr [])) /\
  (forall s, LocalStorage.blocked (localStorage w) = false ->
             mirror w = Some s -> s <> "" -> JSON_parse s = None ->
             console (after Storage.loadPlantsFromLocal w)
             = (console w ++ [ConsoleError "Failed to load from localStorage:"
                                (SyntaxError "JSON.parse: unexpected character")])%list) /\
  after Storage.loadPlantsFromLocal w
  = set_console (console (after Storage.loadPlantsFromLocal w)) w.
Proof.
  unfold outcome, after. rewrite loadPlantsFromLocal_run.
  destruct (LocalStorage.blocked (localStorage w)) eqn:Hb.
  - simpl. repeat split; eauto; discriminate.
  - destruct (mirror w) as [s|] eqn:Hm.
    + destruct (truthy_string s) eqn:Ht.
      * destruct (JSON_parse s) as [v|] eqn:Hp; simpl.
        -- repeat split; eauto; try discriminate.
           ++ intros s' [= <-]. congruence.
           ++ intros s' _ [= <-]. congruence.
           ++ destruct w; reflexivity.
        -- repeat split; eauto.
      * apply not_true_iff_false in Ht. rewrite truthy_string_spec in Ht.
        simpl. repeat split; eauto; try discriminate.
        -- intros s' _ [= <-] Hs. tauto.
        -- destruct w; reflexivity.
    + simpl. repeat split; eauto; try discriminate. destruct w; reflexivity.
Qed.

Lemma loadPlantsFromLocal_never_throws_witness :
  let w := Sample.with_mirror "{oops" Sample.fresh in
  outcome (@Storage.loadPlantsFromLocal sample_json) w = Normal (JArr []) /\
  console (after (@Storage.loadPlantsFromLocal sample_json) w)
  = [ConsoleError "Failed to load from localStorage:"
       (SyntaxError "JSON.parse: unexpected character")].
Proof.
  intros w.
  destruct (@loadPlantsFromLocal_never_throws sample_json w) as (_ & _ & H3 & H4 & _).
  split.
  - apply (H3 "{oops"); vm_compute; reflexivity.
  - apply (H4 "{oops"); vm_compute; congruence.
Defined.

(** C9.  [loadPlantsFromLocal] returns what [JSON.parse] gives without
    looking at it: whenever the mirror holds a non-empty text that parses to
    a value [v], array or not, the function returns [v] and changes nothing.
    A value that is not an array is therefore not replaced by the empty
    collection. *)
Theorem loadPlantsFromLocal_returns_parsed_value_unchecked
  {json : JsonCodec} (w : World) (s : string) (v : JsValue) :
  LocalStorage.blocked (localStorage w) = false ->
  mirror w = Some s ->
  s <> "" ->
  JSON_parse s = Some v ->
  Storage.loadPlantsFromLocal w = (Normal v, w) /\
  (is_array v = false -> outcome Storage.loadPlantsFromLocal w <> Normal (JArr [])).
Proof.
  intros Hb Hm Hs Hp. unfold outcome.
  rewrite loadPlantsFromLocal_run, Hb, Hm, Hp.
  apply truthy_string_spec in Hs. rewrite Hs. split; [reflexivity|].
  simpl. intros Hv [= ->]. discriminate.
Qed.

Lemma loadPlantsFromLocal_returns_parsed_value_unchecked_witness :
  outcome (@Storage.loadPlantsFromLocal sample_json) (Sample.with_mirror "123" Sample.fresh)
  = Normal (JNum 123) /\
  outcome (@Storage.loadPlantsFromLocal sample_json) (Sample.with_mirror "{}" Sample.fresh)
  = Normal (JObj []) /\
  outcome (@Storage.loadPlantsFromLocal sample_json) (Sample.with_mirror "null" Sample.fresh)
  = Normal JNull.
Proof.
  unfold outcome. split; [|split].
  - rewrite (proj1 (@loadPlantsFromLocal_returns_parsed_value_unchecked sample_json
               (Sample.with_mirror "123" Sample.fresh) "123" (JNum 123)
               eq_refl eq_refl ltac:(discriminate) eq_refl)).
    reflexivity.
  - rewrite (proj1 (@loadPlantsFromLocal_returns_parsed_value_unchecked sample_json
               (Sample.with_mirror "{}" Sample.fresh) "{}" (JObj [])
               eq_refl eq_refl ltac:(discriminate) eq_refl)).
    reflexivity.
  - rewrite (proj1 (@loadPlantsFromLocal_returns_parsed_value_unchecked sample_json
               (Sample.with_mirror "null" Sample.fresh) "null" JNull
               eq_refl eq_refl ltac:(discriminate) eq_refl)).
    reflexivity.
Defined.

(* ===================================================================== *)
(** ** src/services/api.js: savePlantData *)
(* ===================================================================== *)

(** A draft that fails the validation is answered from the [catch] block:
    the thrown message becomes the error of the result, the failure is
    logged, and no request is made. *)
Lemma savePlantData_missing_fields (plantData : PlantData.t)
  (x : Http.Exchange Http.SaveBody) (w : World) :
  Api.missing_fields plantData = true ->
  Api.savePlantData plantData x w
  = (Normal missing_fields_result,
     set_console
       (console w ++ [ConsoleError "Save plant data error:"
                        (Error "Missing required plant data fields")]) w).
Proof.
  intros H. unfold Api.savePlantData, try_catch, bind. rewrite H. reflexivity.
Qed.

Lemma zero_is_falsy (x : float) : PrimFloat.eqb x 0 = true -> truthy_number x = false.
Proof.
  intros H. unfold truthy_number, PrimFloat.is_zero.
  change PrimFloat.zero with 0%float. rewrite H. reflexivity.
Qed.

(** C8.  [savePlantData] rejects a draft whose latitude or longitude is 0,
    and a draft without [imageName] or [imageUrl]: the result is
    [{ success: false, data: null, error: 'Missing required plant data
    fields' }], no request is handed to the axios instance, and the cache is
    left as it was. *)
Theorem savePlantData_rejects_zero_coordinates (plantData : PlantData.t)
  (x : Http.Exchange Http.SaveBody) (w : World) :
  (exists lat, PlantData.latitude plantData = Some lat /\ PrimFloat.eqb lat 0 = true) \/
  (exists lon, PlantData.longitude plantData = Some lon /\ PrimFloat.eqb lon 0 = true) \/
  PlantData.imageName plantData = None \/
  PlantData.imageUrl plantData = None ->
  outcome (Api.savePlantData plantData x) w = Normal missing_fields_result /\
  requests (after (Api.savePlantData plantData x) w) = requests w /\
  cache (after (Api.savePlantData plantData x) w) = cache w.
Proof.
  intros H.
  assert (Hm : Api.missing_fields plantData = true).
  { unfold Api.missing_fields.
    destruct H as [(lat & -> & Hz) | [(lon & -> & Hz) | [-> | ->]]]; simpl.
    - rewrite (zero_is_falsy _ Hz). simpl. rewrite orb_true_r. reflexivity.
    - rewrite (zero_is_falsy _ Hz). simpl. rewrite !orb_true_r. reflexivity.
    - reflexivity.
    - rewrite orb_true_r. reflexivity. }
  unfold outcome, after. rewrite (savePlantData_missing_fields _ _ _ Hm).
  repeat split.
Qed.

Lemma savePlantData_rejects_zero_coordinates_witness :
  let equator :=
    {| PlantData.imageName := Some "a.jpg";
       PlantData.imageUrl := Some "https://img.example/a.jpg";
       PlantData.latitude := Some 0%float;
       PlantData.longitude := Some 20%float |} in
  (PrimFloat.leb (-90) 0 && PrimFloat.leb 0 90 = true) /\
  outcome (Api.savePlantData equator (Sample.answers
             {| Http.save_success := true;
                Http.save_data := Some (Sample.remote "x1" "a.jpg" 0 20) |}))
          Sample.fresh
  = Normal missing_fields_result /\
  requests (after (Api.savePlantData equator (Sample.answers
             {| Http.save_success := true;
                Http.save_data := Some (Sample.remote "x1" "a.jpg" 0 20) |}))
          Sample.fresh) = [].
Proof.
  intros equator. split; [reflexivity|].
  destruct (savePlantData_rejects_zero_coordinates equator
              (Sample.answers {| Http.save_success := true;
                                 Http.save_data := Some (Sample.remote "x1" "a.jpg" 0 20) |})
              Sample.fresh) as (H1 & H2 & _).
  - left. exists 0%float. split; reflexivity.
  - split; [exact H1 | exact H2].
Defined.

(* ===================================================================== *)
(** ** src/services/api.js: fetchUserPlants *)
(* ===================================================================== *)

Lemma cacheLookup_run (forceRefresh : bool) (w : World) :
  Api.cacheLookup forceRefresh w =
  match Cache.plants (cache w), Cache.timestamp (cache w) with
  | Some ps, Some fetchedAt =>
      if negb forceRefresh && truthy_int fetchedAt
         && (clock w - fetchedAt <? Cache.CACHE_DURATION)%Z
      then (Normal (Some ps),
            set_console (console w ++ [ConsoleLog "Returning cached plants data"]) w)
      else (Normal None, w)
  | _, _ => (Normal None, w)
  end.
Proof.
  unfold Api.cacheLookup, bind, gets, Date_now. simpl.
  destruct (Cache.plants (cache w)) as [ps|]; [|reflexivity].
  destruct (Cache.timestamp (cache w)) as [ts|]; [|reflexivity].
  destruct (negb forceRefresh && truthy_int ts); [|reflexivity]. simpl.
  destruct (clock w - ts <? Cache.CACHE_DURATION)%Z; reflexivity.
Qed.

(** The code serves the cache exactly when the specification's rule says
    so and, in addition, the recorded fetch time is not 0. *)
Lemma cacheLookup_hit_iff (forceRefresh : bool) (w : World) :
  (exists ps, outcome (Api.cacheLookup forceRefresh) w = Normal (Some ps))
  <-> spec_serves_cache forceRefresh (clock w) (cache w) = true
      /\ Cache.timestamp (cache w) <> Some 0%Z.
Proof.
  unfold outcome, spec_serves_cache. rewrite cacheLookup_run.
  change Cache.CACHE_DURATION with 120000%Z.
  destruct (Cache.plants (cache w)) as [ps|], (Cache.timestamp (cache w)) as [ts|];
    simpl; try (split; [intros [? [=]] | intros [H _]; rewrite ?andb_false_r in H; discriminate]).
  destruct forceRefresh; simpl.
  - split; [intros [? [=]] | intros [[=] _]].
  - unfold truthy_int. destruct (Z.eqb_spec ts 0) as [->|Hne]; simpl.
    + split; [intros [? [=]] | intros [_ H]; congruence].
    + destruct (clock w - ts <? 120000)%Z; simpl.
      * split; [intros _; split; [reflexivity | congruence] | eauto].
      * split; [intros [? [=]] | intros [[=] _]].
Qed.

Lemma fetchUserPlants_cached (forceRefresh : bool) (x : Http.Exchange Http.FetchBody)
  (w : World) (ps : list Plant.t) :
  outcome (Api.cacheLookup forceRefresh) w = Normal (Some ps) ->
  Api.fetchUserPlants forceRefresh x w
  = (Normal (cached_result ps),
     set_console (console w ++ [ConsoleLog "Returning cached plants data"]) w).
Proof.
  unfold outcome. intros H. unfold Api.fetchUserPlants, try_catch, bind.
  rewrite cacheLookup_run in *.
  destruct (Cache.plants (cache w)) as [ps'|]; [|discriminate].
  destruct (Cache.timestamp (cache w)) as [ts|]; [|discriminate].
  destruct (negb forceRefresh && truthy_int ts && (clock w - ts <? Cache.CACHE_DURATION)%Z);
    [|discriminate].
  simpl in H. injection H as <-. reflexivity.
Qed.

(** What a refresh does once the cache check has fallen through. *)
Lemma fetchUserPlants_uncached (forceRefresh : bool) (x : Http.Exchange Http.FetchBody)
  (w : World) :
  outcome (Api.cacheLookup forceRefresh) w = Normal None ->
  Api.fetchUserPlants forceRefresh x w =
  let w1 := contacted fetch_request x w in
  match Http.reply x with
  | Http.Resolved body =>
      if Http.fetch_success body then
        let plants := map Api.fetchedPlant (default [] (Http.fetch_data body)) in
        (Normal {| Api.success := true; Api.data := plants; Api.error := None;
                   Api.fromCache := Some false |},
         set_cache {| Cache.plants := Some plants; Cache.timestamp := Some (clock w1) |} w1)
      else
        (Normal {| Api.success := false; Api.data := [];
                   Api.error := Some "Failed to fetch plants"; Api.fromCache := None |},
         w1)
  | Http.Rejected e =>
      (Normal unavailable_result,
       if development w
       then set_console (console w ++ [ConsoleLog "API not available, using localStorage"]) w1
       else w1)
  end.
Proof.
  unfold outcome. intros H. unfold Api.fetchUserPlants, try_catch, bind.
  rewrite cacheLookup_run in *.
  assert (E : match Cache.plants (cache w), Cache.timestamp (cache w) with
              | Some ps, Some fetchedAt =>
                  if negb forceRefresh && truthy_int fetchedAt
                     && (clock w - fetchedAt <? Cache.CACHE_DURATION)%Z
                  then (Normal (Some ps),
                        set_console
                          (console w ++ [ConsoleLog "Returning cached plants data"]) w)
                  else (Normal None, w)
              | _, _ => (Normal None, w)
              end = (Normal (@None (list Plant.t)), w)).
  { destruct (Cache.plants (cache w)), (Cache.timestamp (cache w)); try reflexivity.
    destruct (negb forceRefresh && truthy_int z && (clock w - z <? Cache.CACHE_DURATION)%Z);
      [discriminate | reflexivity]. }
  rewrite E. unfold api_post, api_call, contacted.
  destruct (Http.reply x) as [body|e]; simpl.
  - destruct (Http.fetch_success body); reflexivity.
  - destruct (development w); reflexivity.
Qed.

Lemma cacheLookup_cases (forceRefresh : bool) (w : World) :
  (exists ps, outcome (Api.cacheLookup forceRefresh) w = Normal (Some ps))
  \/ outcome (Api.cacheLookup forceRefresh) w = Normal None.
Proof.
  unfold outcome. rewrite cacheLookup_run.
  destruct (Cache.plants (cache w)) as [ps|], (Cache.timestamp (cache w)) as [ts|];
    simpl; auto.
  destruct (negb forceRefresh && truthy_int ts && (clock w - ts <? Cache.CACHE_DURATION)%Z);
    simpl; eauto.
Qed.

Lemma app_one_neq {A : Type} (l : list A) (a : A) : (l ++ [a])%list <> l.
Proof.
  intros H. apply (f_equal (@length A)) in H. rewrite length_app in H. simpl in H. lia.
Qed.

(** The remote side is contacted exactly when the cache check falls
    through; a contact is one request, appended to the log. *)
Lemma fetchUserPlants_requests (forceRefresh : bool) (x : Http.Exchange Http.FetchBody)
  (w : World) :
  (outcome (Api.cacheLookup forceRefresh) w = Normal None /\
   requests (after (Api.fetchUserPlants forceRefresh x) w)
   = (requests w ++ [fetch_request])%list)
  \/
  (exists ps, outcome (Api.cacheLookup forceRefresh) w = Normal (Some ps) /\
              requests (after (Api.fetchUserPlants forceRefresh x) w) = requests w /\
              outcome (Api.fetchUserPlants forceRefresh x) w = Normal (cached_result ps)).
Proof.
  destruct (cacheLookup_cases forceRefresh w) as [[ps H] | H].
  - right. exists ps. unfold after, outcome at 2.
    rewrite (fetchUserPlants_cached _ x _ _ H). auto.
  - left. split; [exact H|]. unfold after.
    rewrite (fetchUserPlants_uncached _ x _ H). unfold contacted. simpl.
    destruct (Http.reply x) as [body|e]; simpl.
    + destruct (Http.fetch_success body); reflexivity.
    + destruct (development w); reflexivity.
Qed.

Lemma spec_serves_cache_false_iff (forceRefresh : bool) (now : Z) (c : Cache.t) :
  spec_serves_cache forceRefresh now c = false
  <-> forceRefresh = true
      \/ Cache.plants c = None
      \/ Cache.timestamp c = None
      \/ exists fetchedAt, Cache.timestamp c = Some fetchedAt /\ (now - fetchedAt >= 120000)%Z.
Proof.
  unfold spec_serves_cache.
  destruct forceRefresh; simpl; [split; auto|].
  destruct (Cache.plants c) as [ps|]; [|split; auto].
  destruct (Cache.timestamp c) as [ts|]; [|split; auto].
  destruct (Z.ltb_spec (now - ts) 120000).
  - split; [discriminate|].
    intros [H0 | [H0 | [H0 | (t & [= <-] & Ht)]]]; try discriminate. lia.
  - split; [|reflexivity]. intros _. right. right. right. exists ts. split; [reflexivity|lia].
Qed.

(** When the remote side is contacted, in full: the specification's three
    reasons, and a fourth one, a cache whose fetch time is 0. *)
Lemma fetchUserPlants_contacts_remote_iff (forceRefresh : bool)
  (x : Http.Exchange Http.FetchBody) (w : World) :
  requests (after (Api.fetchUserPlants forceRefresh x) w)
  = (requests w ++ [fetch_request])%list
  <-> forceRefresh = true
      \/ Cache.plants (cache w) = None
      \/ Cache.timestamp (cache w) = None
      \/ (exists fetchedAt, Cache.timestamp (cache w) = Some fetchedAt
                            /\ (clock w - fetchedAt >= 120000)%Z)
      \/ Cache.timestamp (cache w) = Some 0%Z.
Proof.
  pose proof (cacheLookup_hit_iff forceRefresh w) as Hhit.
  pose proof (spec_serves_cache_false_iff forceRefresh (clock w) (cache w)) as Hspec.
  destruct (fetchUserPlants_requests forceRefresh x w) as [[Hmiss Hreq] | (ps & Hcache & Hreq & _)].
  - rewrite Hreq. split; [intros _ | reflexivity].
    destruct (spec_serves_cache forceRefresh (clock w) (cache w)) eqn:E.
    + destruct (Cache.timestamp (cache w)) as [ts|] eqn:Et; [|tauto].
      destruct (Z.eq_dec ts 0%Z) as [->|Hne]; [tauto|].
      exfalso. destruct (proj2 Hhit) as [ps Hps]; [split; congruence|]. congruence.
    + destruct (proj1 Hspec eq_refl) as [H | [H | [H | H]]]; tauto.
  - rewrite Hreq. split; [intros H; symmetry in H; apply app_one_neq in H; tauto|].
    destruct (proj1 Hhit (ex_intro _ ps Hcache)) as [Hs Hz].
    intros [H | [H | [H | [H | H]]]]; try congruence;
      exfalso; (assert (Hf : spec_serves_cache forceRefresh (clock w) (cache w) = false)
                 by (apply Hspec; tauto)); congruence.
Qed.

(** The freshness rule of the specification, on every cache whose fetch
    time is not 0: the remote side is contacted if and only if the refresh
    is forced, or the cache is empty, or its age is at least 120000 ms;
    otherwise the cached collection is returned and no request is made. *)
Lemma fetchUserPlants_follows_spec_off_zero (forceRefresh : bool)
  (x : Http.Exchange Http.FetchBody) (w : World) :
  Cache.timestamp (cache w) <> Some 0%Z ->
  (requests (after (Api.fetchUserPlants forceRefresh x) w)
   = (requests w ++ [fetch_request])%list
   <-> spec_serves_cache forceRefresh (clock w) (cache w) = false) /\
  (spec_serves_cache forceRefresh (clock w) (cache w) = true ->
   requests (after (Api.fetchUserPlants forceRefresh x) w) = requests w /\
   exists ps, Cache.plants (cache w) = Some ps /\
              outcome (Api.fetchUserPlants forceRefresh x) w = Normal (cached_result ps)).
Proof.
  intros Hz. split.
  - rewrite fetchUserPlants_contacts_remote_iff, spec_serves_cache_false_iff. tauto.
  - intros Hs.
    destruct (proj2 (cacheLookup_hit_iff forceRefresh w) (conj Hs Hz)) as [ps Hps].
    destruct (fetchUserPlants_requests forceRefresh x w)
      as [[Hmiss _] | (ps' & Hcache & Hreq & Hout)]; [congruence|].
    split; [exact Hreq|]. exists ps'. split; [|exact Hout].
    unfold outcome in Hcache. rewrite cacheLookup_run in Hcache.
    destruct (Cache.plants (cache w)) as [qs|]; [|discriminate].
    destruct (Cache.timestamp (cache w)) as [ts|]; [|discriminate].
    destruct (negb forceRefresh && truthy_int ts && (clock w - ts <? Cache.CACHE_DURATION)%Z);
      [|discriminate].
    simpl in Hcache. congruence.
Qed.

Lemma fetchUserPlants_follows_spec_off_zero_witness :
  let w := Sample.with_cache [Sample.x1; Sample.x2; Sample.x3] 1700000000000
             (set_clock 1700000030000 Sample.fresh) in
  requests (after (Api.fetchUserPlants false Sample.offline) w) = [] /\
  requests (after (Api.fetchUserPlants false Sample.offline) (advance 90000 w))
  = [fetch_request] /\
  requests (after (Api.fetchUserPlants true Sample.offline) w) = [fetch_request].
Proof.
  intros w. split; [|split].
  - apply (fetchUserPlants_follows_spec_off_zero false Sample.offline w);
      [discriminate | reflexivity].
  - apply (fetchUserPlants_follows_spec_off_zero false Sample.offline (advance 90000 w));
      [discriminate | reflexivity].
  - apply (fetchUserPlants_follows_spec_off_zero true Sample.offline w);
      [discriminate | reflexivity].
Defined.

(** The truthiness test on a cache object built by hand.  It holds three
    records with fetch time 0 and the clock reads 1000: [fetchUserPlants]
    tests [cache.timestamp] for truthiness, finds 0 falsy, and sends a
    request.  No running application is in such a world, see
    [reachable_timestamp] below. *)
Lemma fetchUserPlants_zero_timestamp_refetches (x : Http.Exchange Http.FetchBody) :
  let w := Sample.with_cache [Sample.x1; Sample.x2; Sample.x3] 0
             (set_clock 1000 Sample.fresh) in
  spec_serves_cache false (clock w) (cache w) = true /\
  requests w = [] /\
  requests (after (Api.fetchUserPlants false x) w) = [fetch_request].
Proof.
  intros w. split; [reflexivity|]. split; [reflexivity|].
  apply (fetchUserPlants_contacts_remote_iff false x w). do 4 right. reflexivity.
Qed.

(** A refresh that reached the remote side and succeeded, followed by a
    second, unforced refresh [gap] milliseconds after the first one
    settled: within the window the second one makes no request, from
    120000 ms on it makes one.  (The first fetch is taken to settle at a
    time other than 0.) *)
Lemma refresh_twice (w : World) (x x2 : Http.Exchange Http.FetchBody)
  (body : Http.FetchBody) (gap : Z) :
  outcome (Api.cacheLookup false) w = Normal None ->
  Http.reply x = Http.Resolved body ->
  Http.fetch_success body = true ->
  (clock w + Http.latency x)%Z <> 0%Z ->
  let w1 := after (Api.fetchUserPlants false x) w in
  ((gap < 120000)%Z ->
   requests (after (Api.fetchUserPlants false x2) (advance gap w1)) = requests w1) /\
  ((gap >= 120000)%Z ->
   requests (after (Api.fetchUserPlants false x2) (advance gap w1))
   = (requests w1 ++ [fetch_request])%list).
Proof.
  intros Hmiss Hx Hok Hz w1.
  assert (Hw1 : cache w1 = {| Cache.plants :=
                                 Some (map Api.fetchedPlant (default [] (Http.fetch_data body)));
                               Cache.timestamp := Some (clock w + Http.latency x)%Z |}
                /\ clock w1 = (clock w + Http.latency x)%Z).
  { unfold w1, after. rewrite (fetchUserPlants_uncached _ x _ Hmiss), Hx, Hok.
    split; reflexivity. }
  destruct Hw1 as [Hc Hk].
  assert (Hnz : Cache.timestamp (cache (advance gap w1)) <> Some 0%Z).
  { simpl. rewrite Hc. simpl. congruence. }
  destruct (fetchUserPlants_follows_spec_off_zero false x2 (advance gap w1) Hnz) as [Hiff Hhit].
  assert (Hs : spec_serves_cache false (clock (advance gap w1)) (cache (advance gap w1))
               = (gap <? 120000)%Z).
  { unfold spec_serves_cache. simpl. rewrite Hc, Hk. simpl. f_equal. lia. }
  split; intros Hgap.
  - apply Hhit. rewrite Hs. apply Z.ltb_lt. lia.
  - apply Hiff. rewrite Hs. apply Z.ltb_ge. lia.
Qed.

Lemma refresh_twice_witness :
  let x := Sample.answers {| Http.fetch_success := true;
                             Http.fetch_data := Some [Sample.remote "x1" "a.jpg" 10 20] |} in
  let w1 := after (Api.fetchUserPlants false x) Sample.fresh in
  requests w1 = [fetch_request] /\
  requests (after (Api.fetchUserPlants false x) (advance 119999 w1)) = [fetch_request] /\
  requests (after (Api.fetchUserPlants false x) (advance 120000 w1))
  = [fetch_request; fetch_request].
Proof.
  intros x w1.
  pose proof (fun gap => refresh_twice Sample.fresh x x
                           {| Http.fetch_success := true;
                              Http.fetch_data := Some [Sample.remote "x1" "a.jpg" 10 20] |}
                           gap eq_refl eq_refl eq_refl ltac:(discriminate)) as H.
  split; [reflexivity|]. split.
  - apply (proj1 (H 119999%Z)). reflexivity.
  - apply (proj2 (H 120000%Z)). discriminate.
Defined.

(* ===================================================================== *)
(** ** src/services/api.js: deletePlantData *)
(* ===================================================================== *)

Lemma deletePlantData_run (plantId : option string) (x : Http.Exchange Http.DeleteBody)
  (w : World) :
  Api.deletePlantData plantId x w =
  let w1 := contacted (delete_request plantId) x w in
  match Http.reply x with
  | Http.Resolved body =>
      if Http.delete_success body then
        (Normal {| Api.success := true; Api.data := Some body; Api.error := None;
                   Api.fromCache := None |},
         set_cache {| Cache.plants := None; Cache.timestamp := None |} w1)
      else
        (Normal {| Api.success := false; Api.data := None;
                   Api.error := Some "Failed to delete plant"; Api.fromCache := None |},
         w1)
  | Http.Rejected e =>
      (Normal {| Api.success := true; Api.data := None; Api.error := None;
                 Api.fromCache := None |},
       set_cache {| Cache.plants := None; Cache.timestamp := None |}
                 (set_console (console w ++ [ConsoleError "Delete plant error:" e]) w1))
  end.
Proof.
  unfold Api.deletePlantData, try_catch, bind, api_delete, api_call, contacted, delete_request.
  destruct (Http.reply x) as [body|e]; simpl.
  - destruct (Http.delete_success body); reflexivity.
  - reflexivity.
Qed.

(** [deletePlantData] never throws and leaves the store, the mirror and
    the toasts alone. *)
Lemma deletePlantData_frame (plantId : option string) (x : Http.Exchange Http.DeleteBody)
  (w : World) :
  exists r w',
    Api.deletePlantData plantId x w = (Normal r, w') /\
    plantsState w' = plantsState w /\
    localStorage w' = localStorage w /\
    toasts w' = toasts w.
Proof.
  rewrite deletePlantData_run.
  destruct (Http.reply x) as [body|e]; simpl.
  - destruct (Http.delete_success body); eexists _, _; repeat split.
  - eexists _, _; repeat split.
Qed.

(** When the cache survives a delete: exactly when the remote side answers
    the request and the answer carries [success: false]. *)
Lemma deletePlantData_cache (plantId : option string) (x : Http.Exchange Http.DeleteBody)
  (w : World) :
  cache (after (Api.deletePlantData plantId x) w) =
  match Http.reply x with
  | Http.Resolved body =>
      if Http.delete_success body
      then {| Cache.plants := None; Cache.timestamp := None |}
      else cache w
  | Http.Rejected _ => {| Cache.plants := None; Cache.timestamp := None |}
  end.
Proof.
  unfold after. rewrite deletePlantData_run.
  destruct (Http.reply x) as [body|e]; simpl; [|reflexivity].
  destruct (Http.delete_success body); reflexivity.
Qed.

(** C4, at the input where the code leaves the claim.  The cache holds two
    records; the remote side answers the delete request with a 2xx response
    whose body says [success: false].  [deletePlantData] returns
    [{ success: false, error: 'Failed to delete plant' }] and the cache is
    as before: not invalidated.  On a body with [success: true], and on a
    request that fails, the same call with the same cache invalidates it. *)
Theorem deletePlantData_refused_keeps_cache :
  let w := Sample.with_cache [Sample.x1; Sample.x2] 1700000000000
             (set_clock 1700000030000 Sample.fresh) in
  let refused := Sample.answers {| Http.delete_success := false |} in
  let done := Sample.answers {| Http.delete_success := true |} in
  outcome (Api.deletePlantData (Some "x1") refused) w
  = Normal {| Api.success := false; Api.data := None;
              Api.error := Some "Failed to delete plant"; Api.fromCache := None |} /\
  cache (after (Api.deletePlantData (Some "x1") refused) w)
  = {| Cache.plants := Some [Sample.x1; Sample.x2];
       Cache.timestamp := Some 1700000000000%Z |} /\
  ~ cache_invalidated (after (Api.deletePlantData (Some "x1") refused) w) /\
  cache_invalidated (after (Api.deletePlantData (Some "x1") done) w) /\
  cache_invalidated (after (Api.deletePlantData (Some "x1") Sample.offline) w).
Proof.
  intros w refused done. unfold cache_invalidated.
  rewrite !deletePlantData_cache. unfold outcome. rewrite deletePlantData_run.
  simpl. repeat split. discriminate.
Qed.

(* ===================================================================== *)
(** ** src/redux/slices/plantsSlice.js *)
(* ===================================================================== *)

Section SliceFacts.
Context {json : JsonCodec}.

Lemma persist_accepted (w : World) :
  store_accepts w (store_plants w) = true ->
  PlantsSlice.persist w
  = (Normal tt,
     set_localStorage (written (mirror_text (store_plants w)) (localStorage w)) w).
Proof.
  intros H. unfold PlantsSlice.persist, PlantsSlice.state_plants, bind, gets.
  fold (store_plants w). rewrite (savePlantsToLocal_accepted _ _ H). reflexivity.
Qed.

Lemma persist_refused (w : World) :
  store_accepts w (store_plants w) = false ->
  exists e,
    PlantsSlice.persist w
    = (Normal tt,
       set_console (console w ++ [ConsoleError "Failed to save to localStorage:" e]) w).
Proof.
  intros H. unfold PlantsSlice.persist, PlantsSlice.state_plants, bind, gets.
  fold (store_plants w). destruct (savePlantsToLocal_refused _ _ H) as [e ->].
  exists e. reflexivity.
Qed.

(** The write to the mirror completes normally whatever [localStorage]
    does, and changes nothing but the mirror and the console. *)
Lemma persist_frame (w : World) :
  exists ls' log',
    PlantsSlice.persist w = (Normal tt, set_console log' (set_localStorage ls' w)) /\
    (store_accepts w (store_plants w) = true ->
     ls' = written (mirror_text (store_plants w)) (localStorage w)) /\
    (store_accepts w (store_plants w) = false -> ls' = localStorage w).
Proof.
  destruct (store_accepts w (store_plants w)) eqn:E.
  - rewrite (persist_accepted _ E).
    exists (written (mirror_text (store_plants w)) (localStorage w)), (console w).
    split; [destruct w; reflexivity|]. split; [reflexivity | discriminate].
  - destruct (persist_refused _ E) as [e ->].
    exists (localStorage w),
      (console w ++ [ConsoleError "Failed to save to localStorage:" e])%list.
    split; [destruct w; reflexivity|]. split; [discriminate | reflexivity].
Qed.

Lemma uploadSuccess_run (payload : Plant.t) (w : World) :
  PlantsSlice.uploadSuccess payload w
  = PlantsSlice.persist (set_plantsState (uploaded payload (plantsState w)) w).
Proof. reflexivity. Qed.

Lemma fetchPlantsSuccess_run (payload : list Plant.t) (w : World) :
  PlantsSlice.fetchPlantsSuccess payload w
  = PlantsSlice.persist (set_plantsState (fetched payload (plantsState w)) w).
Proof. reflexivity. Qed.

Lemma deletePlantSuccess_run (plantId : option string) (w : World) :
  PlantsSlice.deletePlantSuccess plantId w
  = PlantsSlice.persist (set_plantsState (deleted plantId (plantsState w)) w).
Proof. reflexivity. Qed.

(** A reducer that assigns to the slice and then persists it: it completes
    normally, leaves the assigned slice in the store, and the mirror holds
    the serialised collection whenever [localStorage] takes the write. *)
Lemma assign_then_persist (s : PlantsState.t) (w : World) :
  let w1 := set_plantsState s w in
  outcome PlantsSlice.persist w1 = Normal tt /\
  plantsState (after PlantsSlice.persist w1) = s /\
  cache (after PlantsSlice.persist w1) = cache w /\
  requests (after PlantsSlice.persist w1) = requests w /\
  toasts (after PlantsSlice.persist w1) = toasts w /\
  clock (after PlantsSlice.persist w1) = clock w /\
  (store_accepts w (PlantsState.plants s) = true ->
   mirrors_store (after PlantsSlice.persist w1)) /\
  (store_accepts w (PlantsState.plants s) = false ->
   localStorage (after PlantsSlice.persist w1) = localStorage w).
Proof.
  intros w1. unfold outcome, after.
  destruct (persist_frame w1) as (ls' & log' & -> & Hyes & Hno). simpl.
  repeat split.
  - intros H. unfold mirrors_store, mirror, store_plants. simpl.
    rewrite (Hyes H). unfold written. simpl. apply lookup_insert_eq.
  - intros H. rewrite (Hno H). reflexivity.
Qed.

End SliceFacts.

Lemma without_absent (plantId : option string) (ps : list Plant.t) :
  (forall p, In p ps -> Plant.id p <> plantId) -> without plantId ps = ps.
Proof.
  unfold without. induction ps as [|p ps IH]; intros H; [reflexivity|].
  simpl. destruct (strict_neq (Plant.id p) plantId) eqn:E.
  - f_equal. apply IH. intros q Hq. apply H. right. exact Hq.
  - exfalso. apply (H p); [left; reflexivity|].
    destruct (option_eq_dec (Plant.id p) plantId) as [Heq|Hne]; [exact Heq|].
    apply strict_neq_spec in Hne. congruence.
Qed.

Lemma without_idempotent (plantId : option string) (ps : list Plant.t) :
  without plantId (without plantId ps) = without plantId ps.
Proof.
  unfold without. induction ps as [|p ps IH]; [reflexivity|].
  simpl. destruct (strict_neq (Plant.id p) plantId) eqn:E; [|exact IH].
  simpl. rewrite E. f_equal. exact IH.
Qed.


Lemma without_keeps (plantId : option string) (ps : list Plant.t) :
  forall p, In p ps -> Plant.id p <> plantId -> In p (without plantId ps).
Proof.
  intros p Hin Hneq. unfold without. apply filter_In.
  split; [exact Hin | apply strict_neq_spec; exact Hneq].
Qed.

(** What [deletePlantSuccess] leaves behind, whatever [localStorage] does. *)
Lemma deletePlantSuccess_spec {json : JsonCodec} (plantId : option string) (w : World) :
  outcome (PlantsSlice.deletePlantSuccess plantId) w = Normal tt /\
  store_plants (after (PlantsSlice.deletePlantSuccess plantId) w)
  = without plantId (store_plants w) /\
  (store_accepts w (without plantId (store_plants w)) = true ->
   mirrors_store (after (PlantsSlice.deletePlantSuccess plantId) w)) /\
  localStorage (after (PlantsSlice.deletePlantSuccess plantId) w)
  = (if store_accepts w (without plantId (store_plants w))
     then written (mirror_text (without plantId (store_plants w))) (localStorage w)
     else localStorage w).
Proof.
  unfold outcome, after. rewrite deletePlantSuccess_run.
  destruct (assign_then_persist (deleted plantId (plantsState w)) w)
    as (H1 & H2 & _ & _ & _ & _ & H3 & H4).
  unfold outcome, after in *. split; [exact H1|]. split.
  - unfold store_plants. rewrite H2. reflexivity.
  - split; [exact H3|].
    change (PlantsState.plants (deleted plantId (plantsState w)))
      with (without plantId (store_plants w)) in *.
    destruct (store_accepts w (without plantId (store_plants w))) eqn:E.
    + specialize (H3 eq_refl). unfold mirrors_store, mirror in H3.
      destruct (persist_frame (set_plantsState (deleted plantId (plantsState w)) w))
        as (ls' & log' & -> & Hyes & _). simpl.
      apply Hyes. exact E.
    + apply H4. reflexivity.
Qed.

(** C10.  [deletePlantSuccess] is total and idempotent on the collection:
    it always completes; deleting an id that no record carries leaves the
    collection as it was, and the mirror is written all the same; deleting
    the same id a second time gives the collection the first deletion
    gave. *)
Theorem deletePlantSuccess_idempotent {json : JsonCodec} (w : World)
  (plantId : option string) :
  outcome (PlantsSlice.deletePlantSuccess plantId) w = Normal tt /\
  ((forall p, In p (store_plants w) -> Plant.id p <> plantId) ->
   store_plants (after (PlantsSlice.deletePlantSuccess plantId) w) = store_plants w /\
   (store_accepts w (store_plants w) = true ->
    mirror (after (PlantsSlice.deletePlantSuccess plantId) w)
    = Some (mirror_text (store_plants w)))) /\
  outcome (PlantsSlice.deletePlantSuccess plantId)
          (after (PlantsSlice.deletePlantSuccess plantId) w) = Normal tt /\
  store_plants (after (PlantsSlice.deletePlantSuccess plantId)
                      (after (PlantsSlice.deletePlantSuccess plantId) w))
  = store_plants (after (PlantsSlice.deletePlantSuccess plantId) w).
Proof.
  destruct (deletePlantSuccess_spec plantId w) as (H1 & H2 & H3 & _).
  destruct (deletePlantSuccess_spec plantId
              (after (PlantsSlice.deletePlantSuccess plantId) w)) as (K1 & K2 & _).
  split; [exact H1|]. split; [|split; [exact K1|]].
  - intros Habsent. rewrite H2, (without_absent _ _ Habsent).
    split; [reflexivity|]. intros Hacc.
    rewrite (without_absent _ _ Habsent) in H3. specialize (H3 Hacc).
    unfold mirrors_store in H3. rewrite H3, H2, (without_absent _ _ Habsent). reflexivity.
  - rewrite K2, H2. apply without_idempotent.
Qed.

Lemma deletePlantSuccess_idempotent_witness :
  let w := Sample.with_mirror "stale" (Sample.with_plants [Sample.x2; Sample.x1] Sample.fresh) in
  store_plants (after (@PlantsSlice.deletePlantSuccess sample_json (Some "x9")) w)
  = [Sample.x2; Sample.x1] /\
  mirror (after (@PlantsSlice.deletePlantSuccess sample_json (Some "x9")) w)
  = Some (@mirror_text sample_json [Sample.x2; Sample.x1]).
Proof.
  intros w.
  destruct (@deletePlantSuccess_idempotent sample_json w (Some "x9")) as (_ & H & _).
  destruct H as [H1 H2].
  - intros p [<- | [<- | []]]; discriminate.
  - split; [exact H1|]. apply H2. vm_compute. reflexivity.
Defined.

Lemma uploadSuccess_spec {json : JsonCodec} (payload : Plant.t) (w : World) :
  outcome (PlantsSlice.uploadSuccess payload) w = Normal tt /\
  store_plants (after (PlantsSlice.uploadSuccess payload) w) = payload :: store_plants w /\
  cache (after (PlantsSlice.uploadSuccess payload) w) = cache w /\
  localStorage (after (PlantsSlice.uploadSuccess payload) w)
  = (if store_accepts w (payload :: store_plants w)
     then written (mirror_text (payload :: store_plants w)) (localStorage w)
     else localStorage w) /\
  (store_accepts w (payload :: store_plants w) = true ->
   mirrors_store (after (PlantsSlice.uploadSuccess payload) w)).
Proof.
  unfold outcome, after. rewrite uploadSuccess_run.
  destruct (assign_then_persist (uploaded payload (plantsState w)) w)
    as (H1 & H2 & H3 & _ & _ & _ & H4 & H5).
  unfold outcome, after in *.
  change (PlantsState.plants (uploaded payload (plantsState w)))
    with (payload :: store_plants w) in *.
  split; [exact H1|]. split; [unfold store_plants; rewrite H2; reflexivity|].
  split; [exact H3|]. split; [|exact H4].
  destruct (store_accepts w (payload :: store_plants w)) eqn:E; [|apply H5; reflexivity].
  destruct (persist_frame (set_plantsState (uploaded payload (plantsState w)) w))
    as (ls' & log' & -> & Hyes & _). simpl.
  apply Hyes. exact E.
Qed.

Lemma fetchPlantsSuccess_spec {json : JsonCodec} (payload : list Plant.t) (w : World) :
  outcome (PlantsSlice.fetchPlantsSuccess payload) w = Normal tt /\
  plantsState (after (PlantsSlice.fetchPlantsSuccess payload) w)
  = fetched payload (plantsState w) /\
  cache (after (PlantsSlice.fetchPlantsSuccess payload) w) = cache w /\
  requests (after (PlantsSlice.fetchPlantsSuccess payload) w) = requests w /\
  toasts (after (PlantsSlice.fetchPlantsSuccess payload) w) = toasts w /\
  (store_accepts w payload = true ->
   mirrors_store (after (PlantsSlice.fetchPlantsSuccess payload) w)) /\
  (store_accepts w payload = false ->
   localStorage (after (PlantsSlice.fetchPlantsSuccess payload) w) = localStorage w).
Proof.
  unfold outcome, after. rewrite fetchPlantsSuccess_run.
  destruct (assign_then_persist (fetched payload (plantsState w)) w)
    as (H1 & H2 & H3 & H4 & H5 & _ & H6 & H7).
  unfold outcome, after in *. auto 10.
Qed.

(** C6.  Each of the three mutations of the collection ends by writing the
    mirror: after [uploadSuccess], [fetchPlantsSuccess] and
    [deletePlantSuccess] the store holds the new collection and, when
    [localStorage] takes the write, the mirror holds exactly the serialised
    new collection. *)
Theorem mutations_write_mirror {json : JsonCodec} (w : World) :
  (forall payload,
     store_plants (after (PlantsSlice.uploadSuccess payload) w) = payload :: store_plants w /\
     (store_accepts w (payload :: store_plants w) = true ->
      mirror (after (PlantsSlice.uploadSuccess payload) w)
      = Some (mirror_text (payload :: store_plants w)))) /\
  (forall payload,
     store_plants (after (PlantsSlice.fetchPlantsSuccess payload) w) = payload /\
     (store_accepts w payload = true ->
      mirror (after (PlantsSlice.fetchPlantsSuccess payload) w)
      = Some (mirror_text payload))) /\
  (forall plantId,
     store_plants (after (PlantsSlice.deletePlantSuccess plantId) w)
     = without plantId (store_plants w) /\
     (store_accepts w (without plantId (store_plants w)) = true ->
      mirror (after (PlantsSlice.deletePlantSuccess plantId) w)
      = Some (mirror_text (without plantId (store_plants w))))).
Proof.
  split; [|split].
  - intros payload. destruct (uploadSuccess_spec payload w) as (_ & H2 & _ & _ & H5).
    split; [exact H2|]. intros Hacc. specialize (H5 Hacc).
    unfold mirrors_store in H5. rewrite H5, H2. reflexivity.
  - intros payload.
    destruct (fetchPlantsSuccess_spec payload w) as (_ & H2 & _ & _ & _ & H6 & _).
    assert (Hp : store_plants (after (PlantsSlice.fetchPlantsSuccess payload) w) = payload).
    { unfold store_plants. rewrite H2. reflexivity. }
    split; [exact Hp|]. intros Hacc. specialize (H6 Hacc).
    unfold mirrors_store in H6. rewrite H6, Hp. reflexivity.
  - intros plantId. destruct (deletePlantSuccess_spec plantId w) as (_ & H2 & H3 & _).
    split; [exact H2|]. intros Hacc. specialize (H3 Hacc).
    unfold mirrors_store in H3. rewrite H3, H2. reflexivity.
Qed.

Lemma mutations_write_mirror_witness :
  let w := Sample.with_plants [Sample.x1] Sample.fresh in
  mirror (after (@PlantsSlice.uploadSuccess sample_json Sample.x2) w)
  = Some (@mirror_text sample_json [Sample.x2; Sample.x1]) /\
  mirror (after (@PlantsSlice.fetchPlantsSuccess sample_json [Sample.x3; Sample.x2]) w)
  = Some (@mirror_text sample_json [Sample.x3; Sample.x2]) /\
  mirror (after (@PlantsSlice.deletePlantSuccess sample_json (Some "x1")) w)
  = Some (@mirror_text sample_json []).
Proof.
  intros w.
  destruct (@mutations_write_mirror sample_json w) as (H1 & H2 & H3).
  split; [|split].
  - apply (H1 Sample.x2). vm_compute. reflexivity.
  - apply (H2 [Sample.x3; Sample.x2]). vm_compute. reflexivity.
  - apply (H3 (Some "x1")). vm_compute. reflexivity.
Defined.

(** The other side of C6: when [localStorage] refuses the write, the
    mutation still completes and the store holds the new collection; the
    mirror keeps what it held, and the failure is logged. *)
Lemma uploadSuccess_when_storage_is_full :
  let w := set_localStorage
             {| LocalStorage.items := {[ Storage.STORAGE_KEY := "[]" ]};
                LocalStorage.quota := 30; LocalStorage.blocked := false |}
             Sample.fresh in
  outcome (@PlantsSlice.uploadSuccess sample_json Sample.x1) w = Normal tt /\
  store_plants (after (@PlantsSlice.uploadSuccess sample_json Sample.x1) w) = [Sample.x1] /\
  mirror (after (@PlantsSlice.uploadSuccess sample_json Sample.x1) w) = Some "[]" /\
  console (after (@PlantsSlice.uploadSuccess sample_json Sample.x1) w)
  = [ConsoleError "Failed to save to localStorage:"
       (DOMException "QuotaExceededError" "The quota has been exceeded.")].
Proof. vm_compute. repeat split. Qed.

(* ===================================================================== *)
(** ** PlantCard.jsx and FarmMap.jsx: deleting a record *)
(* ===================================================================== *)

Lemma handleDeletePlant_is_handleDelete {json : JsonCodec} :
  Components.handleDeletePlant = Components.handleDelete.
Proof. reflexivity. Qed.

Lemma handleDelete_declined {json : JsonCodec} (plant : Plant.t)
  (x : Http.Exchange Http.DeleteBody) (w : World) :
  Components.handleDelete plant false x w = (Normal tt, w).
Proof. reflexivity. Qed.





(* ===================================================================== *)
(** ** ImageUpload.jsx: creating a record *)
(* ===================================================================== *)

Lemma savePlantData_sent (plantData : PlantData.t) (x : Http.Exchange Http.SaveBody)
  (w : World) :
  Api.missing_fields plantData = false ->
  Api.savePlantData plantData x w =
  let w1 := contacted (save_request plantData) x w in
  match Http.reply x with
  | Http.Resolved body =>
      if Http.save_success body then
        (Normal {| Api.success := true;
                   Api.data := option_map Api.savedPlant (Http.save_data body);
                   Api.error := None; Api.fromCache := None |},
         set_cache {| Cache.plants := None; Cache.timestamp := None |} w1)
      else
        (Normal {| Api.success := false; Api.data := None;
                   Api.error := Some "Failed to save plant data"; Api.fromCache := None |},
         w1)
  | Http.Rejected e =>
      (caught None "Failed to save plant data" e,
       set_console (console w ++ [ConsoleError "Save plant data error:" e]) w1)
  end.
Proof.
  intros H. unfold Api.savePlantData, try_catch, bind. rewrite H.
  unfold api_post, api_call, contacted, save_request.
  destruct (Http.reply x) as [body|e]; simpl.
  - destruct (Http.save_success body); reflexivity.
  - unfold Api.errorMessage, caught, null_body, message_of.
    destruct (Js.response e) as [r|]; [destruct (Js.data r)|destruct (Js.request e)];
      reflexivity.
Qed.

Lemma extractCoordinates_run (imageName imageUrl : option string)
  (x : Http.Exchange Http.ExtractBody) (w : World) :
  Api.extractCoordinates imageName imageUrl x w =
  let w1 := contacted (extract_request imageName imageUrl) x w in
  match Http.reply x with
  | Http.Resolved body =>
      if Http.extract_success body then
        (Normal {| Api.success := true; Api.data := Http.extract_data body;
                   Api.error := None; Api.fromCache := None |}, w1)
      else
        (Normal {| Api.success := false; Api.data := None;
                   Api.error := Some "Failed to extract coordinates from image";
                   Api.fromCache := None |}, w1)
  | Http.Rejected e =>
      (caught None "Failed to extract coordinates" e,
       set_console (console w ++ [ConsoleError "Extract coordinates error:" e]) w1)
  end.
Proof.
  unfold Api.extractCoordinates, try_catch, bind, api_post, api_call, contacted,
    extract_request.
  destruct (Http.reply x) as [body|e]; simpl.
  - destruct (Http.extract_success body); reflexivity.
  - unfold Api.errorMessage, caught, null_body, message_of.
    destruct (Js.response e) as [r|]; [destruct (Js.data r)|destruct (Js.request e)];
      reflexivity.
Qed.

(** The progress events only touch the progress map of the slice. *)
Lemma reportProgress_run {json : JsonCodec} (fileName : string) (events : list Z)
  (w : World) :
  exists progress,
    Components.reportProgress fileName events w
    = (Normal tt,
       set_plantsState (PlantsState.set_uploadProgress progress (plantsState w)) w).
Proof.
  revert w. induction events as [|p events IH]; intros w.
  - exists (PlantsState.uploadProgress (plantsState w)).
    destruct w as [? ? ? ? ? ? [] ?]; reflexivity.
  - simpl Components.reportProgress. unfold bind.
    unfold PlantsSlice.uploadProgress, PlantsSlice.assign, modify.
    destruct (IH (set_plantsState
                    (PlantsState.set_uploadProgress
                       (<[fileName := p]> (PlantsState.uploadProgress (plantsState w)))
                       (plantsState w)) w)) as [progress ->].
    exists progress. destruct w as [? ? ? ? ? ? [] ?]; reflexivity.
Qed.

Lemma uploadToCloudinary_run {json : JsonCodec} (fileName : string)
  (h : Components.Hosting) (w : World) :
  exists progress,
    Components.uploadToCloudinary fileName h w
    = (match Components.hosted h with
       | Http.Resolved url => Normal url
       | Http.Rejected e => Throw e
       end,
       set_plantsState (PlantsState.set_uploadProgress progress (plantsState w)) w).
Proof.
  unfold Components.uploadToCloudinary, bind.
  destruct (reportProgress_run fileName (Components.progressEvents h) w) as [progress ->].
  exists progress. destruct (Components.hosted h); reflexivity.
Qed.

Lemma finalPlantData_id (fileName : string) (url : option string)
  (coordinates : Http.Coordinates) (d : RemotePlant.t) (generatedId nowISO rid : string) :
  or_else truthy_string (RemotePlant._id d) (RemotePlant.id d) = Some rid ->
  rid <> "" ->
  Plant.id (Components.finalPlantData fileName url coordinates (Api.savedPlant d)
                                      generatedId nowISO) = Some rid.
Proof.
  intros Hid Hne. simpl. rewrite Hid. simpl.
  apply truthy_string_spec in Hne. rewrite Hne. reflexivity.
Qed.

(** The whole upload when every collaborator succeeds, up to the dispatch
    of [uploadSuccess]: the world [w4] the action is dispatched in has the
    collection and the mirror of the start, and an invalidated cache. *)
Lemma uploadSingleFile_reaches_dispatch {json : JsonCodec} (fileName : string)
  (h : Components.Hosting) (xExtract : Http.Exchange Http.ExtractBody)
  (xSave : Http.Exchange Http.SaveBody) (generatedId nowISO : string) (w : World)
  (url : option string) (eb : Http.ExtractBody) (coordinates : Http.Coordinates)
  (sb : Http.SaveBody) (d : RemotePlant.t) :
  Components.hosted h = Http.Resolved url ->
  Http.reply xExtract = Http.Resolved eb ->
  Http.extract_success eb = true ->
  Http.extract_data eb = Some coordinates ->
  Api.missing_fields (Components.plantDataOf fileName url coordinates) = false ->
  Http.reply xSave = Http.Resolved sb ->
  Http.save_success sb = true ->
  Http.save_data sb = Some d ->
  let final := Components.finalPlantData fileName url coordinates (Api.savedPlant d)
                                         generatedId nowISO in
  exists w4,
    store_plants w4 = store_plants w /\
    localStorage w4 = localStorage w /\
    cache_invalidated w4 /\
    forall w5,
      PlantsSlice.uploadSuccess final w4 = (Normal tt, w5) ->
      Components.uploadSingleFile fileName h xExtract xSave generatedId nowISO w
      = (Normal {| Components.upload_success := true;
                   Components.upload_data := Some final;
                   Components.upload_error := None |},
         set_toasts (toasts w5 ++ [ToastSuccess (fileName ++ " uploaded successfully!")]) w5).
Proof.
  intros Hh He Hes Hed Hm Hs Hss Hsd final.
  unfold Components.uploadSingleFile, try_catch.
  unfold bind at 1. unfold PlantsSlice.uploadStart, PlantsSlice.assign, modify.
  set (w1 := set_plantsState _ w).
  unfold bind at 1.
  destruct (uploadToCloudinary_run fileName h w1) as [progress ->]. rewrite Hh.
  set (w2 := set_plantsState _ w1).
  unfold bind at 1. rewrite extractCoordinates_run, He. cbv zeta. rewrite Hes.
  cbn [Api.success Api.data negb]. rewrite Hed.
  set (w3 := contacted _ xExtract w2).
  unfold bind at 1. rewrite (savePlantData_sent _ xSave w3 Hm), Hs. cbv zeta. rewrite Hss.
  cbn [Api.success Api.data negb]. rewrite Hsd. cbn [option_map].
  fold final.
  set (w4 := set_cache _ (contacted _ xSave w3)).
  exists w4. split; [|split; [|split]].
  - destruct w as [? ? ? ? ? ? [] ?]; reflexivity.
  - reflexivity.
  - reflexivity.
  - intros w5 E. unfold bind at 1. rewrite E. reflexivity.
Qed.

Lemma uploadSingleFile_success {json : JsonCodec} (fileName : string)
  (h : Components.Hosting) (xExtract : Http.Exchange Http.ExtractBody)
  (xSave : Http.Exchange Http.SaveBody) (generatedId nowISO : string) (w : World)
  (url : option string) (eb : Http.ExtractBody) (coordinates : Http.Coordinates)
  (sb : Http.SaveBody) (d : RemotePlant.t) :
  Components.hosted h = Http.Resolved url ->
  Http.reply xExtract = Http.Resolved eb ->
  Http.extract_success eb = true ->
  Http.extract_data eb = Some coordinates ->
  Api.missing_fields (Components.plantDataOf fileName url coordinates) = false ->
  Http.reply xSave = Http.Resolved sb ->
  Http.save_success sb = true ->
  Http.save_data sb = Some d ->
  let final := Components.finalPlantData fileName url coordinates (Api.savedPlant d)
                                         generatedId nowISO in
  let run := Components.uploadSingleFile fileName h xExtract xSave generatedId nowISO in
  outcome run w
  = Normal {| Components.upload_success := true; Components.upload_data := Some final;
              Components.upload_error := None |} /\
  store_plants (after run w) = final :: store_plants w /\
  cache_invalidated (after run w) /\
  (store_accepts w (final :: store_plants w) = true ->
   mirror (after run w) = Some (mirror_text (final :: store_plants w))).
Proof.
  intros Hh He Hes Hed Hm Hs Hss Hsd final run.
  destruct (uploadSingleFile_reaches_dispatch fileName h xExtract xSave generatedId nowISO
              w url eb coordinates sb d Hh He Hes Hed Hm Hs Hss Hsd)
    as (w4 & P4 & L4 & C4 & Hrun).
  fold final in Hrun.
  destruct (uploadSuccess_spec final w4) as (U1 & U2 & U3 & _ & U5).
  unfold outcome, after in U1, U2, U3, U5.
  destruct (PlantsSlice.uploadSuccess final w4) as [c w5] eqn:E.
  simpl in U1, U2, U3, U5. subst c.
  subst run. unfold outcome, after. rewrite (Hrun w5 eq_refl). simpl.
  split; [reflexivity|]. split.
  { change (store_plants w5 = final :: store_plants w). rewrite U2, P4. reflexivity. }
  split.
  { unfold cache_invalidated in *. simpl. rewrite U3. exact C4. }
  intros Hacc.
  change (mirror w5 = Some (mirror_text (final :: store_plants w))).
  assert (A4 : store_accepts w4 (final :: store_plants w4)
               = store_accepts w (final :: store_plants w)).
  { unfold store_accepts. rewrite L4, P4. reflexivity. }
  rewrite A4 in U5. specialize (U5 Hacc). unfold mirrors_store in U5.
  rewrite U5, U2, P4. reflexivity.
Qed.

(** A run of successful creations puts the records in the store most
    recent first, in front of what was there. *)
Lemma dispatchUploads_spec {json : JsonCodec} (payloads : list Plant.t) (w : World) :
  outcome (dispatchUploads payloads) w = Normal tt /\
  store_plants (after (dispatchUploads payloads) w) = (rev payloads ++ store_plants w)%list.
Proof.
  revert w. induction payloads as [|p ps IH]; intros w; [split; reflexivity|].
  unfold outcome, after. simpl dispatchUploads. unfold bind.
  destruct (uploadSuccess_spec p w) as (U1 & U2 & _).
  unfold outcome, after in U1, U2.
  destruct (PlantsSlice.uploadSuccess p w) as [c w1]. simpl in U1, U2. subst c.
  destruct (IH w1) as [I1 I2]. unfold outcome, after in I1, I2.
  split; [exact I1|]. rewrite I2, U2. simpl. rewrite <- app_assoc. reflexivity.
Qed.

Lemma refresh_after_invalidation (x : Http.Exchange Http.FetchBody) (w : World) :
  cache_invalidated w ->
  requests (after (Api.fetchUserPlants false x) w) = (requests w ++ [fetch_request])%list.
Proof.
  unfold cache_invalidated. intros H.
  apply fetchUserPlants_contacts_remote_iff. right. left. rewrite H. reflexivity.
Qed.

(** C3.  A successful creation: when hosting, extraction and
    [savePlantData] all succeed and the remote side has assigned the id
    [rid], [uploadSingleFile] dispatches [uploadSuccess] with a record
    carrying [rid]; the record is put at the front of the in-memory
    collection, the cache is invalidated, so that the next unforced refresh
    sends a request, and the mirror holds the serialised new collection when
    [localStorage] takes the write.  The reducer [uploadSuccess] puts any
    record at the front, and so a run of successful creations leaves its
    records most recent first. *)
Theorem createRecord_inserts_at_front {json : JsonCodec} :
  (forall (fileName : string) (h : Components.Hosting)
          (xExtract : Http.Exchange Http.ExtractBody) (xSave : Http.Exchange Http.SaveBody)
          (generatedId nowISO : string) (w : World) (url : option string)
          (eb : Http.ExtractBody) (coordinates : Http.Coordinates)
          (sb : Http.SaveBody) (d : RemotePlant.t) (rid : string),
     Components.hosted h = Http.Resolved url ->
     Http.reply xExtract = Http.Resolved eb ->
     Http.extract_success eb = true ->
     Http.extract_data eb = Some coordinates ->
     Api.missing_fields (Components.plantDataOf fileName url coordinates) = false ->
     Http.reply xSave = Http.Resolved sb ->
     Http.save_success sb = true ->
     Http.save_data sb = Some d ->
     or_else truthy_string (RemotePlant._id d) (RemotePlant.id d) = Some rid ->
     rid <> "" ->
     let w' := after (Components.uploadSingleFile fileName h xExtract xSave
                                                  generatedId nowISO) w in
     exists record,
       Plant.id record = Some rid /\
       store_plants w' = record :: store_plants w /\
       cache_invalidated w' /\
       (forall x, requests (after (Api.fetchUserPlants false x) w')
                  = (requests w' ++ [fetch_request])%list) /\
       (store_accepts w (record :: store_plants w) = true ->
        mirror w' = Some (mirror_text (record :: store_plants w)))) /\
  (forall (payload : Plant.t) (w : World),
     outcome (PlantsSlice.uploadSuccess payload) w = Normal tt /\
     store_plants (after (PlantsSlice.uploadSuccess payload) w) = payload :: store_plants w /\
     (store_accepts w (payload :: store_plants w) = true ->
      mirror (after (PlantsSlice.uploadSuccess payload) w)
      = Some (mirror_text (payload :: store_plants w)))) /\
  (forall (payloads : list Plant.t) (w : World),
     outcome (dispatchUploads payloads) w = Normal tt /\
     store_plants (after (dispatchUploads payloads) w)
     = (rev payloads ++ store_plants w)%list).
Proof.
  split; [|split].
  - intros fileName h xExtract xSave generatedId nowISO w url eb coordinates sb d rid
           Hh He Hes Hed Hm Hs Hss Hsd Hid Hne w'.
    destruct (uploadSingleFile_success fileName h xExtract xSave generatedId nowISO w
                url eb coordinates sb d Hh He Hes Hed Hm Hs Hss Hsd)
      as (_ & H2 & H3 & H4).
    eexists. split; [exact (finalPlantData_id fileName url coordinates d generatedId
                              nowISO rid Hid Hne)|].
    split; [exact H2|]. split; [exact H3|]. split; [|exact H4].
    intros x. apply refresh_after_invalidation. exact H3.
  - intros payload w. destruct (uploadSuccess_spec payload w) as (U1 & U2 & _ & _ & U5).
    split; [exact U1|]. split; [exact U2|].
    intros Hacc. specialize (U5 Hacc). unfold mirrors_store in U5.
    rewrite U5, U2. reflexivity.
  - intros payloads w. apply dispatchUploads_spec.
Qed.

Lemma createRecord_inserts_at_front_witness :
  let h := {| Components.progressEvents := [50%Z; 100%Z];
              Components.hosted := Http.Resolved (Some "https://img.example/a.jpg") |} in
  let xExtract := Sample.answers
                    {| Http.extract_success := true;
                       Http.extract_data := Some {| Http.latitude := Some 10%float;
                                                    Http.longitude := Some 20%float |} |} in
  let xSave := Sample.answers
                 {| Http.save_success := true;
                    Http.save_data := Some (Sample.remote "x1" "a.jpg" 10 20) |} in
  let w := Sample.with_plants [Sample.x2] Sample.fresh in
  let w' := after (@Components.uploadSingleFile sample_json "a.jpg" h xExtract xSave
                     "generated" "2024-06-01T00:00:00Z") w in
  store_plants w' = [Sample.x1; Sample.x2] /\
  cache_invalidated w' /\
  mirror w' = Some (@mirror_text sample_json [Sample.x1; Sample.x2]) /\
  store_plants (after (@dispatchUploads sample_json [Sample.x1; Sample.x2; Sample.x3])
                      Sample.fresh)
  = [Sample.x3; Sample.x2; Sample.x1].
Proof.
  intros h xExtract xSave w w'.
  destruct (@createRecord_inserts_at_front sample_json) as (H1 & _ & H3).
  destruct (H1 "a.jpg" h xExtract xSave "generated" "2024-06-01T00:00:00Z" w
               (Some "https://img.example/a.jpg") _ _ _ _ "x1"
               eq_refl eq_refl eq_refl eq_refl eq_refl eq_refl eq_refl eq_refl eq_refl
               ltac:(discriminate))
    as (record & Hid & Hplants & Hcache & _ & Hmirror).
  fold w' in Hplants, Hcache, Hmirror.
  assert (Hrecord : record = Sample.x1).
  { assert (Hhead : hd_error (store_plants w') = Some record) by (rewrite Hplants; reflexivity).
    vm_compute in Hhead. injection Hhead as <-. reflexivity. }
  subst record.
  split; [exact Hplants|]. split; [exact Hcache|]. split.
  - apply Hmirror. vm_compute. reflexivity.
  - destruct (H3 [Sample.x1; Sample.x2; Sample.x3] Sample.fresh) as [_ H]. exact H.
Defined.

(* ===================================================================== *)
(** ** App.jsx: a refresh whose request fails *)
(* ===================================================================== *)

(** [fetchUserPlants] on a failed request: it does not throw, it returns
    the failure result with an empty [data], and it leaves the cache, the
    store and the mirror alone. *)
Lemma fetchUserPlants_unavailable (forceRefresh : bool) (x : Http.Exchange Http.FetchBody)
  (e : JsError) (w : World) :
  Http.reply x = Http.Rejected e ->
  outcome (Api.cacheLookup forceRefresh) w = Normal None ->
  let w' := after (Api.fetchUserPlants forceRefresh x) w in
  outcome (Api.fetchUserPlants forceRefresh x) w = Normal unavailable_result /\
  cache w' = cache w /\
  plantsState w' = plantsState w /\
  localStorage w' = localStorage w /\
  toasts w' = toasts w.
Proof.
  intros Hx Hmiss w'. subst w'. unfold outcome, after.
  rewrite (fetchUserPlants_uncached _ x _ Hmiss), Hx. cbv zeta.
  destruct (development w); repeat split.
Qed.

(** The cache check only looks at the cache and the clock. *)
Lemma cacheLookup_outcome_ext (forceRefresh : bool) (w w1 : World) :
  cache w1 = cache w ->
  clock w1 = clock w ->
  outcome (Api.cacheLookup forceRefresh) w1 = outcome (Api.cacheLookup forceRefresh) w.
Proof.
  intros Hc Hk. unfold outcome. rewrite !cacheLookup_run, Hc, Hk.
  destruct (Cache.plants (cache w)) as [ps|]; [|reflexivity].
  destruct (Cache.timestamp (cache w)) as [ts|]; [|reflexivity].
  destruct (negb forceRefresh && truthy_int ts && (clock w - ts <? Cache.CACHE_DURATION)%Z);
    reflexivity.
Qed.

Lemma fetchPlantsFailure_spec {json : JsonCodec} (payload : string) (w : World) :
  PlantsSlice.fetchPlantsFailure payload w
  = (Normal tt,
     set_plantsState
       (PlantsState.set_error (Some payload)
          (PlantsState.set_loading false (plantsState w))) w).
Proof. reflexivity. Qed.

(** [loadFromAPI] when the request fails: the failure result of
    [fetchUserPlants] takes the [else] branch, which dispatches
    [fetchPlantsSuccess] with the snapshot [localPlants]. *)
Lemma loadFromAPI_unavailable {json : JsonCodec} (localPlants : list Plant.t)
  (x : Http.Exchange Http.FetchBody) (e : JsError) (w : World) :
  Http.reply x = Http.Rejected e ->
  outcome (Api.cacheLookup false) w = Normal None ->
  let w' := after (Components.loadFromAPI localPlants x) w in
  outcome (Components.loadFromAPI localPlants x) w = Normal tt /\
  plantsState w'
  = fetched localPlants
      (PlantsState.set_error None (PlantsState.set_loading true (plantsState w))) /\
  cache w' = cache w /\
  toasts w' = toasts w /\
  (store_accepts w localPlants = true -> mirror w' = Some (mirror_text localPlants)) /\
  (store_accepts w localPlants = false -> localStorage w' = localStorage w).
Proof.
  intros Hx Hmiss w'. subst w'. unfold outcome, after.
  destruct (Components.loadFromAPI localPlants x w) as [c w3] eqn:E. simpl.
  unfold Components.loadFromAPI, try_catch in E.
  unfold bind at 1 in E.
  unfold PlantsSlice.fetchPlantsStart, bind at 1, PlantsSlice.assign, modify in E.
  set (w1 := set_plantsState _ (set_plantsState _ w)) in E.
  assert (Hmiss1 : outcome (Api.cacheLookup false) w1 = Normal None).
  { rewrite (cacheLookup_outcome_ext false w w1); [exact Hmiss | reflexivity | reflexivity]. }
  unfold bind in E.
  destruct (fetchUserPlants_unavailable false x e w1 Hx Hmiss1) as (F1 & F2 & F3 & F4 & F5).
  unfold outcome, after in F1, F2, F3, F4, F5.
  destruct (Api.fetchUserPlants false x w1) as [r w2]. simpl in F1, F2, F3, F4, F5.
  subst r. cbn [Api.success unavailable_result andb] in E.
  destruct (fetchPlantsSuccess_spec localPlants w2) as (S1 & S2 & S3 & _ & S5 & S6 & S7).
  unfold outcome, after in S1, S2, S3, S5, S6, S7.
  destruct (PlantsSlice.fetchPlantsSuccess localPlants w2) as [c' w3'].
  simpl in S1, S2, S3, S5, S6, S7. subst c'. cbv beta iota in E. injection E as <- <-.
  assert (A : store_accepts w2 localPlants = store_accepts w localPlants).
  { unfold store_accepts. rewrite F4. reflexivity. }
  rewrite A in S6, S7.
  split; [reflexivity|]. split; [rewrite S2, F3; reflexivity|].
  split; [rewrite S3, F2; reflexivity|]. split; [rewrite S5, F5; reflexivity|].
  split.
  - intros H. specialize (S6 H). unfold mirrors_store, store_plants in S6.
    rewrite S6, S2. reflexivity.
  - intros H. rewrite (S7 H), F4. reflexivity.
Qed.

(** C1 as it stands does not hold.  The store and the cache hold one
    record, fetched long ago; the request of the refresh fails.
    [fetchUserPlants] returns [data: []], not the record it held, and after
    [loadFromAPI] has handled the result the store carries no error. *)
Lemma refresh_failure_returns_empty_data :
  let w := Sample.with_cache [Sample.x1] 1600000000000
             (Sample.with_plants [Sample.x1] Sample.fresh) in
  let w' := after (@Components.loadFromAPI sample_json [Sample.x1] Sample.offline) w in
  (exists res,
     outcome (Api.fetchUserPlants false Sample.offline) w = Normal res /\
     Api.success res = false /\
     Api.data res = [] /\
     Api.data res <> store_plants w /\
     Some (Api.data res) <> Cache.plants (cache w)) /\
  store_plants w' = [Sample.x1] /\
  PlantsState.error (plantsState w') = None /\
  toasts w' = [].
Proof.
  intros w w'. split.
  - eexists. split; [reflexivity|]. repeat split; discriminate.
  - vm_compute. repeat split.
Qed.

(** C1, amended.  When the request of a refresh fails, [fetchUserPlants]
    does not throw: it leaves the cache, the in-memory collection and the
    mirror as they were and returns [{ success: false, data: [], error:
    'API not available' }].  Its caller [loadFromAPI] then dispatches
    [fetchPlantsSuccess] with the collection it read from the mirror at
    startup: the store holds that collection, and so does the mirror when
    [localStorage] takes the write (it is left as it was otherwise).  The
    reducer [fetchPlantsFailure] leaves the collection and the mirror
    unchanged and records its error message. *)
Theorem refresh_failure_keeps_local_data {json : JsonCodec} (localPlants : list Plant.t)
  (x : Http.Exchange Http.FetchBody) (e : JsError) (w : World) :
  Http.reply x = Http.Rejected e ->
  outcome (Api.cacheLookup false) w = Normal None ->
  (outcome (Api.fetchUserPlants false x) w = Normal unavailable_result /\
   cache (after (Api.fetchUserPlants false x) w) = cache w /\
   store_plants (after (Api.fetchUserPlants false x) w) = store_plants w /\
   mirror (after (Api.fetchUserPlants false x) w) = mirror w) /\
  (outcome (Components.loadFromAPI localPlants x) w = Normal tt /\
   store_plants (after (Components.loadFromAPI localPlants x) w) = localPlants /\
   cache (after (Components.loadFromAPI localPlants x) w) = cache w /\
   (store_accepts w localPlants = true ->
    mirror (after (Components.loadFromAPI localPlants x) w) = Some (mirror_text localPlants)) /\
   (store_accepts w localPlants = false ->
    mirror (after (Components.loadFromAPI localPlants x) w) = mirror w)) /\
  (forall message,
     outcome (PlantsSlice.fetchPlantsFailure message) w = Normal tt /\
     store_plants (after (PlantsSlice.fetchPlantsFailure message) w) = store_plants w /\
     mirror (after (PlantsSlice.fetchPlantsFailure message) w) = mirror w /\
     PlantsState.error (plantsState (after (PlantsSlice.fetchPlantsFailure message) w))
     = Some message).
Proof.
  intros Hx Hmiss. split; [|split].
  - destruct (fetchUserPlants_unavailable false x e w Hx Hmiss) as (F1 & F2 & F3 & F4 & _).
    split; [exact F1|]. split; [exact F2|].
    unfold store_plants, mirror. rewrite F3, F4. split; reflexivity.
  - destruct (loadFromAPI_unavailable localPlants x e w Hx Hmiss)
      as (L1 & L2 & L3 & _ & L5 & L6).
    split; [exact L1|]. split; [unfold store_plants; rewrite L2; reflexivity|].
    split; [exact L3|]. split; [exact L5|].
    intros H. unfold mirror. rewrite (L6 H). reflexivity.
  - intros message. unfold outcome, after. rewrite fetchPlantsFailure_spec.
    repeat split.
Qed.

Lemma refresh_failure_keeps_local_data_witness :
  let w := Sample.with_mirror (@mirror_text sample_json [Sample.x2; Sample.x1])
             (Sample.with_plants [Sample.x2; Sample.x1] Sample.fresh) in
  outcome (Api.fetchUserPlants false Sample.offline) w = Normal unavailable_result /\
  store_plants (after (@Components.loadFromAPI sample_json [Sample.x2; Sample.x1]
                         Sample.offline) w) = [Sample.x2; Sample.x1] /\
  mirror (after (@Components.loadFromAPI sample_json [Sample.x2; Sample.x1]
                   Sample.offline) w)
  = Some (@mirror_text sample_json [Sample.x2; Sample.x1]).
Proof.
  intros w.
  destruct (@refresh_failure_keeps_local_data sample_json [Sample.x2; Sample.x1]
              Sample.offline Sample.network_error w eq_refl eq_refl)
    as ((F1 & _) & (_ & L2 & _ & L4 & _) & _).
  split; [exact F1|]. split; [exact L2|].
  apply L4. vm_compute. reflexivity.
Defined.

(** [fetchUserPlants] never throws and never touches the store, the mirror
    or the toasts. *)
Lemma fetchUserPlants_frame (forceRefresh : bool) (x : Http.Exchange Http.FetchBody)
  (w : World) :
  exists r w',
    Api.fetchUserPlants forceRefresh x w = (Normal r, w') /\
    plantsState w' = plantsState w /\
    localStorage w' = localStorage w /\
    toasts w' = toasts w.
Proof.
  destruct (cacheLookup_cases forceRefresh w) as [[ps H] | H].
  - rewrite (fetchUserPlants_cached _ x _ _ H). eexists _, _. repeat split.
  - rewrite (fetchUserPlants_uncached _ x _ H). cbv zeta.
    destruct (Http.reply x) as [body|e].
    + destruct (Http.fetch_success body); eexists _, _; repeat split.
    + destruct (development w); eexists _, _; repeat split.
Qed.

(** X17.  Since [fetchUserPlants] catches every failure itself, the [catch]
    block of [loadFromAPI] is never entered: whatever the remote side does,
    [loadFromAPI] ends with a [fetchPlantsSuccess], and the error of the
    store, cleared by [fetchPlantsStart], stays [null]. *)
Lemma loadFromAPI_never_reports_failure {json : JsonCodec} (localPlants : list Plant.t)
  (x : Http.Exchange Http.FetchBody) (w : World) :
  outcome (Components.loadFromAPI localPlants x) w = Normal tt /\
  PlantsState.error (plantsState (after (Components.loadFromAPI localPlants x) w)) = None /\
  toasts (after (Components.loadFromAPI localPlants x) w) = toasts w.
Proof.
  unfold outcome, after.
  destruct (Components.loadFromAPI localPlants x w) as [c w3] eqn:E. simpl.
  unfold Components.loadFromAPI, try_catch in E.
  unfold bind at 1 in E.
  unfold PlantsSlice.fetchPlantsStart, bind at 1, PlantsSlice.assign, modify in E.
  set (w1 := set_plantsState _ (set_plantsState _ w)) in E.
  unfold bind in E.
  destruct (fetchUserPlants_frame false x w1) as (r & w2 & Hrun & F1 & F2 & F3).
  rewrite Hrun in E.
  set (payload := if Api.success r && (0 <? length (Api.data r))%nat
                  then Api.data r else localPlants).
  assert (Hpick : (if Api.success r && (0 <? length (Api.data r))%nat
                   then PlantsSlice.fetchPlantsSuccess (Api.data r)
                   else PlantsSlice.fetchPlantsSuccess localPlants) w2
                  = PlantsSlice.fetchPlantsSuccess payload w2).
  { subst payload. destruct (Api.success r && (0 <? length (Api.data r))%nat); reflexivity. }
  rewrite Hpick in E.
  destruct (fetchPlantsSuccess_spec payload w2) as (S1 & S2 & _ & _ & S5 & _).
  unfold outcome, after in S1, S2, S5.
  destruct (PlantsSlice.fetchPlantsSuccess payload w2) as [c' w3'].
  simpl in S1, S2, S5. subst c'. injection E as <- <-.
  split; [reflexivity|]. split.
  - rewrite S2, F1. reflexivity.
  - rewrite S5, F3. reflexivity.
Qed.

(** What the surviving cache of C4 leads to: the user deletes [x1], the
    remote side answers [success: false]; the store and the mirror no
    longer hold [x1], the cache still does, and a refresh within the window
    is served from it and puts [x1] back. *)
Lemma deleted_record_returns_from_kept_cache :
  let w := Sample.with_cache [Sample.x2; Sample.x1] 1700000000000
             (Sample.with_plants [Sample.x2; Sample.x1]
                (set_clock 1700000030000 Sample.fresh)) in
  let w1 := after (@Components.handleDelete sample_json Sample.x1 true
                     (Sample.answers {| Http.delete_success := false |})) w in
  let w2 := after (@Components.loadFromAPI sample_json [Sample.x2] Sample.offline)
                  (advance 30000 w1) in
  store_plants w1 = [Sample.x2] /\
  Cache.plants (cache w1) = Some [Sample.x2; Sample.x1] /\
  requests w2 = requests w1 /\
  store_plants w2 = [Sample.x2; Sample.x1].
Proof. vm_compute. repeat split. Qed.

(** The scenario of the specification: the cache holds three records
    fetched 30 s ago, and an unforced refresh returns them without a
    request; 130 s later an unforced refresh sends a request and, the remote
    side answering with four records, returns four. *)
Lemma refresh_scenario :
  let w := Sample.with_cache [Sample.x1; Sample.x2; Sample.x3] 1700000000000
             (set_clock 1700000030000 Sample.fresh) in
  let four := Sample.answers
                {| Http.fetch_success := true;
                   Http.fetch_data :=
                     Some [Sample.remote "x1" "a.jpg" 10 20; Sample.remote "x2" "b.jpg" 11 21;
                           Sample.remote "x3" "c.jpg" 12 22; Sample.remote "x4" "d.jpg" 13 23] |} in
  Api.fetchUserPlants false four w
  = (Normal (cached_result [Sample.x1; Sample.x2; Sample.x3]),
     set_console [ConsoleLog "Returning cached plants data"] w) /\
  let w1 := advance 130000 (after (Api.fetchUserPlants false four) w) in
  requests (after (Api.fetchUserPlants false four) w1) = [fetch_request] /\
  option_map (fun r => length (Api.data r))
             (match outcome (Api.fetchUserPlants false four) w1 with
              | Normal r => Some r
              | Throw _ => None
              end) = Some 4%nat.
Proof. vm_compute. repeat split. Qed.

(** An absent mirror is not a failure: the empty array is returned and
    nothing is logged. *)
Lemma loadPlantsFromLocal_absent_is_silent {json : JsonCodec} (w : World) :
  LocalStorage.blocked (localStorage w) = false ->
  mirror w = None ->
  Storage.loadPlantsFromLocal w = (Normal (JArr []), w).
Proof. intros Hb Hm. rewrite loadPlantsFromLocal_run, Hb, Hm. reflexivity. Qed.

Lemma loadPlantsFromLocal_absent_is_silent_witness :
  @Storage.loadPlantsFromLocal sample_json Sample.fresh = (Normal (JArr []), Sample.fresh).
Proof. apply (@loadPlantsFromLocal_absent_is_silent sample_json); reflexivity. Defined.

(** What [savePlantsToLocal] writes, [loadPlantsFromLocal] reads back: on
    the sample reader and writer, the mirror of a collection parses to its
    JSON view. *)
Lemma mirror_round_trip :
  let ps := [Sample.x2; Sample.x1] in
  outcome (@Storage.loadPlantsFromLocal sample_json)
          (after (@Storage.savePlantsToLocal sample_json ps) Sample.fresh)
  = Normal (Plant.list_to_json ps).
Proof. vm_compute. reflexivity. Qed.

(* ===================================================================== *)
(** ** PlantList.jsx: pagination *)
(* ===================================================================== *)

Lemma totalPages_covers (n k : Z) :
  (0 < k)%Z -> (0 <= n)%Z ->
  (0 <= PlantList.totalPages n k)%Z /\
  (n <= PlantList.totalPages n k * k)%Z /\
  ((PlantList.totalPages n k - 1) * k < n \/ PlantList.totalPages n k = 0)%Z.
Proof.
  intros Hk Hn. unfold PlantList.totalPages.
  pose proof (Z.div_mod (- n) k ltac:(lia)) as Hdm.
  pose proof (Z.mod_pos_bound (- n) k Hk) as Hmod.
  nia.
Qed.

(** A page with a positive number, as a chunk of the list. *)
Lemma paginatedPlants_chunk {A : Type} (l : list A) (p : nat) (k : Z) :
  (0 < k)%Z ->
  PlantList.paginatedPlants l (Z.of_nat (S p)) k
  = firstn (Z.to_nat k) (skipn (p * Z.to_nat k) l).
Proof.
  intros Hk. unfold PlantList.paginatedPlants, PlantList.slice, PlantList.endIndex,
               PlantList.startIndex.
  set (len := Z.of_nat (length l)).
  assert (Hs : ((Z.of_nat (S p) - 1) * k = Z.of_nat (p * Z.to_nat k))%Z).
  { rewrite Nat2Z.inj_mul, Z2Nat.id, Nat2Z.inj_succ by lia. ring. }
  rewrite Hs.
  destruct (Z.ltb_spec (Z.of_nat (p * Z.to_nat k)) 0); [lia|].
  destruct (Z.ltb_spec (Z.of_nat (p * Z.to_nat k) + k) 0); [lia|].
  destruct (Z.le_gt_cases len (Z.of_nat (p * Z.to_nat k))) as [Hout|Hin].
  - rewrite Z.min_r by lia. rewrite Z.min_r by lia.
    replace (Z.to_nat (len - len)) with 0%nat by lia.
    rewrite (skipn_all2 (n := p * Z.to_nat k)) by (subst len; lia).
    rewrite firstn_nil. reflexivity.
  - rewrite (Z.min_l (Z.of_nat (p * Z.to_nat k)) len) by lia. rewrite Nat2Z.id.
    destruct (Z.le_gt_cases (Z.of_nat (p * Z.to_nat k) + k) len) as [Hfull|Hlast].
    + rewrite Z.min_l by lia. f_equal. lia.
    + rewrite Z.min_r by lia.
      rewrite !firstn_all2; [reflexivity | | ]; rewrite length_skipn; subst len; lia.
Qed.

Lemma chunks_concat {A : Type} (k m : nat) (l : list A) :
  (length l <= m * k)%nat ->
  concat (map (fun i => firstn k (skipn (i * k) l)) (seq 0 m)) = l.
Proof.
  revert l. induction m as [|m IH]; intros l Hlen.
  - destruct l; [reflexivity | simpl in Hlen; lia].
  - simpl seq. simpl map. simpl concat. rewrite <- seq_shift, map_map.
    rewrite (map_ext _ (fun i => firstn k (skipn (i * k) (skipn k l)))).
    + rewrite IH; [apply firstn_skipn|]. rewrite length_skipn. lia.
    + intros i. rewrite skipn_skipn. do 2 f_equal. lia.
Qed.

Lemma paginatedPlants_in_range {A : Type} (l : list A) (itemsPerPage p : Z) :
  (0 < itemsPerPage)%Z ->
  (1 <= p <= PlantList.totalPages (Z.of_nat (length l)) itemsPerPage)%Z ->
  PlantList.paginatedPlants l p itemsPerPage <> [] /\
  (Z.of_nat (length (PlantList.paginatedPlants l p itemsPerPage)) <= itemsPerPage)%Z.
Proof.
  intros Hk Hp.
  destruct (totalPages_covers (Z.of_nat (length l)) itemsPerPage Hk ltac:(lia))
    as (H0 & Hcover & Htight).
  replace p with (Z.of_nat (S (Z.to_nat (p - 1)))) by lia.
  rewrite paginatedPlants_chunk by exact Hk.
  split.
  - intros Hnil. apply (f_equal (@length A)) in Hnil.
    rewrite length_firstn, length_skipn in Hnil. simpl in Hnil.
    assert (Hq : Z.of_nat (Z.to_nat (p - 1) * Z.to_nat itemsPerPage)
                 = ((p - 1) * itemsPerPage)%Z).
    { rewrite Nat2Z.inj_mul, !Z2Nat.id by lia. reflexivity. }
    assert (Hlt : ((p - 1) * itemsPerPage < Z.of_nat (length l))%Z) by nia.
    lia.
  - rewrite length_firstn. lia.
Qed.

(** X1.  The pages [1 .. totalPages] of a list, one after the other, are the
    list: no record is left out and none is shown twice.  Every one of these
    pages holds at least one record and at most [itemsPerPage]; every later
    page is empty. *)
Theorem pages_partition_the_list {A : Type} (l : list A) (itemsPerPage : Z) :
  (0 < itemsPerPage)%Z ->
  let total := PlantList.totalPages (Z.of_nat (length l)) itemsPerPage in
  concat (map (fun p => PlantList.paginatedPlants l (Z.of_nat p) itemsPerPage)
              (seq 1 (Z.to_nat total))) = l /\
  (forall p, (1 <= p <= total)%Z ->
             PlantList.paginatedPlants l p itemsPerPage <> [] /\
             (Z.of_nat (length (PlantList.paginatedPlants l p itemsPerPage))
              <= itemsPerPage)%Z) /\
  (forall p, (total < p)%Z -> PlantList.paginatedPlants l p itemsPerPage = []).
Proof.
  intros Hk total.
  destruct (totalPages_covers (Z.of_nat (length l)) itemsPerPage Hk ltac:(lia))
    as (H0 & Hcover & Htight).
  fold total in H0, Hcover, Htight.
  split; [|split].
  - rewrite <- seq_shift, map_map.
    rewrite (map_ext _ (fun i => firstn (Z.to_nat itemsPerPage)
                                        (skipn (i * Z.to_nat itemsPerPage) l))).
    + apply chunks_concat.
      assert (Hq : Z.of_nat (Z.to_nat total * Z.to_nat itemsPerPage)
                   = (total * itemsPerPage)%Z).
      { rewrite Nat2Z.inj_mul, !Z2Nat.id by lia. reflexivity. }
      lia.
    + intros p. apply paginatedPlants_chunk. exact Hk.
  - intros p Hp. apply paginatedPlants_in_range; assumption.
  - intros p Hp.
    replace p with (Z.of_nat (S (Z.to_nat (p - 1)))) by lia.
    rewrite paginatedPlants_chunk by exact Hk.
    assert (Hq : Z.of_nat (Z.to_nat (p - 1) * Z.to_nat itemsPerPage)
                 = ((p - 1) * itemsPerPage)%Z).
    { rewrite Nat2Z.inj_mul, !Z2Nat.id by lia. reflexivity. }
    assert (Hge : (Z.of_nat (length l) <= (p - 1) * itemsPerPage)%Z) by nia.
    rewrite skipn_all2; [apply firstn_nil | lia].
Qed.

Lemma pages_partition_the_list_witness :
  let l := [1; 2; 3; 4; 5; 6; 7; 8; 9; 10; 11; 12; 13; 14]%nat in
  PlantList.totalPages 14 6 = 3%Z /\
  (PlantList.paginatedPlants l 1 6 ++ PlantList.paginatedPlants l 2 6
   ++ PlantList.paginatedPlants l 3 6)%list = l /\
  PlantList.paginatedPlants l 3 6 = [13; 14]%nat /\
  PlantList.paginatedPlants l 4 6 = [].
Proof.
  intros l.
  destruct (pages_partition_the_list l 6 ltac:(lia)) as (H1 & _ & H3).
  split; [reflexivity|]. split; [|split; [reflexivity|]].
  - exact H1.
  - apply H3. vm_compute. reflexivity.
Defined.

(** X2.  Page navigation never leaves the pages: while there is something to
    show, [goToPage] (and with it the first, last, previous and next
    buttons, and the effect that keeps [currentPage] valid) sets a page
    between 1 and [totalPages], that page is not empty, and a page already
    in range is kept.  With nothing to show there are no pages and
    [goToPage] sets page 1. *)
Theorem goToPage_lands_on_a_page {A : Type} (l : list A) (itemsPerPage page : Z) :
  (0 < itemsPerPage)%Z ->
  let total := PlantList.totalPages (Z.of_nat (length l)) itemsPerPage in
  (l <> [] ->
   (1 <= PlantList.goToPage page total <= total)%Z /\
   PlantList.paginatedPlants l (PlantList.goToPage page total) itemsPerPage <> [] /\
   ((1 <= page)%Z ->
    (1 <= PlantList.ensureValid page total <= total)%Z)) /\
  ((1 <= page <= total)%Z ->
   PlantList.goToPage page total = page /\ PlantList.ensureValid page total = page) /\
  (l = [] -> total = 0%Z /\ PlantList.goToPage page total = 1%Z).
Proof.
  intros Hk total.
  destruct (totalPages_covers (Z.of_nat (length l)) itemsPerPage Hk ltac:(lia))
    as (H0 & Hcover & Htight).
  fold total in H0, Hcover, Htight.
  split; [|split].
  - intros Hl.
    assert (Hlen : (0 < Z.of_nat (length l))%Z) by (destruct l; [congruence | simpl; lia]).
    assert (Hone : (1 <= total)%Z) by nia.
    assert (Hrange : (1 <= PlantList.goToPage page total <= total)%Z)
      by (unfold PlantList.goToPage; lia).
    split; [exact Hrange|]. split.
    + apply (paginatedPlants_in_range l itemsPerPage _ Hk Hrange).
    + intros Hp. unfold PlantList.ensureValid.
      destruct (Z.ltb_spec total page), (Z.ltb_spec 0 total); simpl; lia.
  - intros Hp. unfold PlantList.goToPage, PlantList.ensureValid.
    destruct (Z.ltb_spec total page), (Z.ltb_spec 0 total); simpl; lia.
  - intros ->. simpl in Htight.
    assert (Hz : total = 0%Z) by nia.
    split; [exact Hz|]. rewrite Hz. unfold PlantList.goToPage. lia.
Qed.

Lemma goToPage_lands_on_a_page_witness :
  let l := [1; 2; 3; 4; 5; 6; 7; 8; 9; 10; 11; 12; 13; 14]%nat in
  PlantList.goToPage 9 (PlantList.totalPages 14 6) = 3%Z /\
  PlantList.goToPage (-2) (PlantList.totalPages 14 6) = 1%Z /\
  PlantList.paginatedPlants l (PlantList.goToPage 9 (PlantList.totalPages 14 6)) 6 <> [].
Proof.
  intros l.
  destruct (goToPage_lands_on_a_page l 6 9 ltac:(lia)) as (H1 & _ & _).
  destruct (H1 ltac:(discriminate)) as (_ & H & _).
  split; [reflexivity|]. split; [reflexivity|]. exact H.
Defined.

Lemma pagesBetween_empty (first last : Z) :
  (last < first)%Z -> PlantList.pagesBetween first last = [].
Proof.
  intros H. unfold PlantList.pagesBetween.
  replace (Z.to_nat (last - first + 1)) with 0%nat by lia. reflexivity.
Qed.

Lemma pagesBetween_unfold (first last : Z) :
  (first <= last)%Z ->
  PlantList.pagesBetween first last
  = PlantList.Page first :: PlantList.pagesBetween (first + 1) last.
Proof.
  intros H. unfold PlantList.pagesBetween.
  replace (Z.to_nat (last - first + 1)) with (S (Z.to_nat (last - (first + 1) + 1))) by lia.
  simpl seq. simpl map. rewrite Z.add_0_r. f_equal.
  rewrite <- seq_shift, map_map. apply map_ext. intros k. f_equal. lia.
Qed.

(** X3.  The page buttons [getPageNumbers] offers, for a current page among
    the pages: the numbers shown are exactly the first page, the last page
    and the current page with its neighbours (every page when there are at
    most five); they are listed in increasing order, so no page appears
    twice; and with the ellipses there are never more than seven items. *)
Theorem getPageNumbers_shows_first_last_and_neighbours (totalPages currentPage : Z) :
  (1 <= currentPage <= totalPages)%Z ->
  let items := PlantList.getPageNumbers totalPages currentPage in
  (forall n, In n (PlantList.pageNumbers items)
             <-> (1 <= n <= totalPages)%Z /\
                 (totalPages <= 5 \/ n = 1 \/ n = totalPages
                  \/ currentPage - 1 <= n <= currentPage + 1)%Z) /\
  PlantList.increasing (PlantList.pageNumbers items) /\
  (length items <= 7)%nat.
Proof.
  intros Hc items. subst items. unfold PlantList.getPageNumbers.
  destruct (Z.leb_spec totalPages 5) as [Hsmall|Hbig].
  - assert (Ht : (totalPages = 1 \/ totalPages = 2 \/ totalPages = 3
                  \/ totalPages = 4 \/ totalPages = 5)%Z) by lia.
    destruct Ht as [-> | [-> | [-> | [-> | ->]]]]; simpl;
      (split; [intros n; lia | split; [lia | lia]]).
  - remember (Z.max 2 (currentPage - 1)) as startPage eqn:Hs.
    remember (Z.min (totalPages - 1) (currentPage + 1)) as endPage eqn:He.
    assert (Hspan : (endPage = startPage \/ endPage = startPage + 1
                     \/ endPage = startPage + 2)%Z) by lia.
    destruct Hspan as [E | [E | E]];
      repeat (rewrite pagesBetween_unfold by lia);
      rewrite pagesBetween_empty by lia;
      destruct (Z.ltb_spec 2 startPage), (Z.ltb_spec endPage (totalPages - 1)),
               (Z.ltb_spec 1 totalPages);
      simpl; (split; [intros n; lia | split; [lia | lia]]).
Qed.

Lemma getPageNumbers_shows_first_last_and_neighbours_witness :
  PlantList.getPageNumbers 10 5
  = [PlantList.Page 1; PlantList.Ellipsis; PlantList.Page 4; PlantList.Page 5;
     PlantList.Page 6; PlantList.Ellipsis; PlantList.Page 10] /\
  PlantList.increasing (PlantList.pageNumbers (PlantList.getPageNumbers 10 5)) /\
  In 5%Z (PlantList.pageNumbers (PlantList.getPageNumbers 10 5)).
Proof.
  destruct (getPageNumbers_shows_first_last_and_neighbours 10 5 ltac:(lia))
    as (H1 & H2 & _).
  split; [reflexivity|]. split; [exact H2|]. apply H1. lia.
Defined.

(* ===================================================================== *)
(** ** helpers.js: formatDate *)
(* ===================================================================== *)

(** X4.  The relative label of [formatDate].  For a record without
    [uploadedAt], or with one that does not parse as a date, the label is
    'NaN year ago'.  For a valid date less than a minute old, and any valid
    date in the future, it is 'Just now'.  Every other valid date reads
    'n unit(s) ago' with a count of at least 1 that stays inside its unit:
    at most 59 minutes, 23 hours, 6 days, 4 weeks and 12 months; 360 to 364
    days are '12 months ago', and years start at 365 days. *)
Theorem formatDate_relative_counts_stay_in_range (Date_parse : string -> Helpers.Number)
  (timestamp : option string) (now : Z) (absolute : string) :
  let text := Helpers.formatDate Date_parse timestamp now true absolute in
  (Helpers.timeValue Date_parse timestamp = None -> text = "NaN year ago") /\
  (forall date,
     Helpers.timeValue Date_parse timestamp = Some date ->
     let age := (now - date)%Z in
     ((age < 60000)%Z -> text = "Just now") /\
     ((60000 <= age)%Z ->
      exists n,
        (1 <= n)%Z /\
        ((text = Helpers.ago (Some n) "minute" /\ n = age / 60000 /\ n <= 59)%Z \/
         (text = Helpers.ago (Some n) "hour" /\ n = age / 3600000 /\ n <= 23)%Z \/
         (text = Helpers.ago (Some n) "day" /\ n = age / 86400000 /\ n <= 6)%Z \/
         (text = Helpers.ago (Some n) "week" /\ n = age / 86400000 / 7 /\ n <= 4)%Z \/
         (text = Helpers.ago (Some n) "month" /\ n = age / 86400000 / 30 /\ n <= 12)%Z \/
         (text = Helpers.ago (Some n) "year" /\ n = age / 86400000 / 365
          /\ 365 * 86400000 <= age)%Z))).
Proof.
  intros text. subst text. unfold Helpers.formatDate. split.
  { intros ->. reflexivity. }
  intros date Hd. rewrite Hd. cbv zeta.
  cbn [Helpers.minus Helpers.floorDiv Helpers.lessThan option_map].
  set (age := (now - date)%Z). clearbody age.
  split.
  - intros H. destruct (Z.ltb_spec (age / 60000) 1); [reflexivity|].
    exfalso. Z.div_mod_to_equations. lia.
  - intros H.
    destruct (Z.ltb_spec (age / 60000) 1); [exfalso; Z.div_mod_to_equations; lia|].
    destruct (Z.ltb_spec (age / 60000) 60).
    { exists (age / 60000)%Z. split; [lia|]. left. split; [reflexivity|]. lia. }
    destruct (Z.ltb_spec (age / 3600000) 24).
    { exists (age / 3600000)%Z. split; [Z.div_mod_to_equations; lia|].
      right; left. split; [reflexivity|]. lia. }
    destruct (Z.ltb_spec (age / 86400000) 7).
    { exists (age / 86400000)%Z. split; [Z.div_mod_to_equations; lia|].
      do 2 right; left. split; [reflexivity|]. lia. }
    destruct (Z.ltb_spec (age / 86400000) 30).
    { exists (age / 86400000 / 7)%Z. split; [Z.div_mod_to_equations; lia|].
      do 3 right; left. split; [reflexivity|]. Z.div_mod_to_equations. lia. }
    destruct (Z.ltb_spec (age / 86400000) 365).
    { exists (age / 86400000 / 30)%Z. split; [Z.div_mod_to_equations; lia|].
      do 4 right; left. split; [reflexivity|]. Z.div_mod_to_equations. lia. }
    exists (age / 86400000 / 365)%Z. split; [Z.div_mod_to_equations; lia|].
    do 5 right. split; [reflexivity|]. Z.div_mod_to_equations. lia.
Qed.

Lemma formatDate_relative_counts_stay_in_range_witness :
  let Date_parse := fun s : string =>
    if String.eqb s "2023-11-14T22:13:20.000Z" then Some 1700000000000%Z else None in
  let uploadedAt := Some "2023-11-14T22:13:20.000Z" in
  Helpers.formatDate Date_parse uploadedAt (1700000000000 + 364 * 86400000) true ""
  = "12 months ago" /\
  Helpers.formatDate Date_parse uploadedAt (1700000000000 + 60000) true "" = "1 minute ago" /\
  Helpers.formatDate Date_parse uploadedAt 1600000000000 true "" = "Just now" /\
  Helpers.formatDate Date_parse None 1700000000000 true "" = "NaN year ago" /\
  Helpers.formatDate Date_parse (Some "yesterday") 1700000000000 true "" = "NaN year ago".
Proof.
  intros Date_parse uploadedAt.
  destruct (formatDate_relative_counts_stay_in_range Date_parse uploadedAt 1600000000000 "")
    as [_ H].
  destruct (formatDate_relative_counts_stay_in_range Date_parse None 1700000000000 "")
    as [Hnone _].
  destruct (formatDate_relative_counts_stay_in_range Date_parse (Some "yesterday")
              1700000000000 "") as [Hbad _].
  split; [vm_compute; reflexivity|]. split; [vm_compute; reflexivity|].
  split; [apply (H 1700000000000%Z eq_refl); lia|].
  split; [apply Hnone; reflexivity | apply Hbad; reflexivity].
Defined.

(* ===================================================================== *)
(** ** UploadZone.jsx, helpers.js, cloudinary.js: which files get through *)
(* ===================================================================== *)

Lemma validateImage_valid_iff (file : File.t) :
  Helpers.valid (Helpers.validateImage file) = true
  <-> In (File.type file) Helpers.validTypes /\ (File.size file <= 5242880)%Z.
Proof.
  unfold Helpers.validateImage, Helpers.isValidType, Helpers.maxSize.
  destruct (existsb (String.eqb (File.type file)) Helpers.validTypes) eqn:E; simpl.
  - apply existsb_exists in E as (t & Hin & Heq). apply String.eqb_eq in Heq. subst t.
    destruct (Z.ltb_spec (5 * 1024 * 1024) (File.size file)); simpl;
      split; try discriminate; try tauto; lia.
  - split; [discriminate|]. intros [Hin _]. exfalso.
    assert (existsb (String.eqb (File.type file)) Helpers.validTypes = true).
    { apply existsb_exists. exists (File.type file). split; [exact Hin|].
      apply String.eqb_refl. }
    congruence.
Qed.

Lemma rejection_none_iff (file : File.t) :
  Cloudinary.rejection file = None
  <-> In (File.type file) Cloudinary.validTypes /\ (File.size file <= 5242880)%Z.
Proof.
  unfold Cloudinary.rejection, Cloudinary.MAX_FILE_SIZE.
  destruct (Z.ltb_spec (5 * 1024 * 1024) (File.size file)).
  - split; [discriminate | lia].
  - destruct (existsb (String.eqb (File.type file)) Cloudinary.validTypes) eqn:E; simpl.
    + apply existsb_exists in E as (t & Hin & Heq). apply String.eqb_eq in Heq. subst t.
      split; [intros _; split; [exact Hin | lia] | reflexivity].
    + split; [discriminate|]. intros [Hin _]. exfalso.
      assert (existsb (String.eqb (File.type file)) Cloudinary.validTypes = true).
      { apply existsb_exists. exists (File.type file). split; [exact Hin|].
        apply String.eqb_refl. }
      congruence.
Qed.

Lemma filter_split_length {A : Type} (p : A -> bool) (l : list A) :
  (length (List.filter p l) + length (List.filter (fun a => negb (p a)) l))%nat = length l.
Proof.
  induction l as [|a l IH]; [reflexivity|]. simpl. destruct (p a); simpl; lia.
Qed.

(** X5.  What [onDrop] hands on.  A dropped file is passed to the upload list
    exactly when its type is one of the four accepted types and its size is
    at most 5242880 bytes; such a file passes the checks at the head of
    [uploadToCloudinary] too, so those never throw for a file selected this
    way.  Every other dropped file gets one error entry: no file is lost
    and none is reported twice. *)
Theorem onDrop_passes_exactly_the_uploadable_files (acceptedFiles : list File.t)
  (rejectedFiles : list (File.t * list string)) :
  let validFiles := fst (UploadZone.onDrop acceptedFiles rejectedFiles) in
  let errors := snd (UploadZone.onDrop acceptedFiles rejectedFiles) in
  (forall f, In f validFiles
             <-> In f acceptedFiles /\ In (File.type f) Helpers.validTypes
                 /\ (File.size f <= 5242880)%Z) /\
  (forall f, In f validFiles -> Cloudinary.rejection f = None) /\
  (length validFiles + length errors = length acceptedFiles + length rejectedFiles)%nat /\
  (forall r, In r errors -> UploadZone.error r <> None).
Proof.
  intros validFiles errors. subst validFiles errors. unfold UploadZone.onDrop. simpl.
  assert (Hiff : forall f,
             In f (List.filter (fun f => Helpers.valid (Helpers.validateImage f))
                               acceptedFiles)
             <-> In f acceptedFiles /\ In (File.type f) Helpers.validTypes
                 /\ (File.size f <= 5242880)%Z).
  { intros f. rewrite filter_In, validateImage_valid_iff. tauto. }
  split; [exact Hiff|]. split; [|split].
  - intros f Hf. apply rejection_none_iff. apply Hiff in Hf. tauto.
  - rewrite length_app, !length_map.
    pose proof (filter_split_length (fun f => Helpers.valid (Helpers.validateImage f))
                                    acceptedFiles).
    lia.
  - intros r Hr. apply in_app_or in Hr as [Hr | Hr]; apply in_map_iff in Hr.
    + destruct Hr as (f & <- & Hf). apply filter_In in Hf as [_ Hf]. simpl.
      unfold Helpers.validateImage in *.
      destruct (negb (Helpers.isValidType (File.type f))); [discriminate|].
      destruct (Helpers.maxSize <? File.size f)%Z; [discriminate | discriminate].
    + destruct Hr as (fr & <- & _). discriminate.
Qed.

Lemma onDrop_passes_exactly_the_uploadable_files_witness :
  let exact := {| File.name := "a.jpg"; File.size := 5242880; File.type := "image/jpeg" |} in
  let over := {| File.name := "b.png"; File.size := 5242881; File.type := "image/png" |} in
  let gif := {| File.name := "c.gif"; File.size := 10; File.type := "image/gif" |} in
  UploadZone.onDrop [exact; over; gif] []
  = ([exact],
     [{| UploadZone.file := "b.png";
         UploadZone.error := Some "File size exceeds 5MB. Current: 5.00MB" |};
      {| UploadZone.file := "c.gif";
         UploadZone.error :=
           Some "Invalid file type. Only JPG, PNG, and HEIC are supported." |}]) /\
  Cloudinary.rejection exact = None.
Proof.
  intros exact over gif. split; [vm_compute; reflexivity|].
  destruct (onDrop_passes_exactly_the_uploadable_files [exact; over; gif] [])
    as (_ & H & _).
  apply H. left. reflexivity.
Defined.

(* ===================================================================== *)
(** ** helpers.js: getOptimizedImageUrl *)
(* ===================================================================== *)

Lemma append_cons (c : ascii) (s t : string) : String c s ++ t = String c (s ++ t).
Proof. reflexivity. Qed.

Lemma append_nil_r (s : string) : s ++ EmptyString = s.
Proof.
  induction s as [|c s IH]; [reflexivity|].
  rewrite append_cons, IH. reflexivity.
Qed.

Lemma append_assoc (a b c : string) : (a ++ b) ++ c = a ++ (b ++ c).
Proof.
  induction a as [|x a IH]; [reflexivity|].
  rewrite !append_cons, IH. reflexivity.
Qed.

Lemma length_append (a b : string) :
  String.length (a ++ b) = (String.length a + String.length b)%nat.
Proof.
  induction a as [|x a IH]; [reflexivity|].
  rewrite append_cons. simpl. rewrite IH. reflexivity.
Qed.

Lemma prefix_append (p s : string) :
  String.prefix p s = true -> exists rest, s = p ++ rest.
Proof.
  revert s. induction p as [|a p IH]; intros s H.
  - exists s. reflexivity.
  - destruct s as [|b s]; [discriminate|]. simpl in H.
    destruct (Ascii.ascii_dec a b) as [->|]; [|discriminate].
    destruct (IH s H) as [rest ->]. exists rest. reflexivity.
Qed.

Lemma split_from_skips (sep pre s cur : string) :
  Helpers.split_from sep (pre ++ s) cur (String.length pre) = Helpers.split_from sep s cur 0.
Proof.
  induction pre as [|c pre IH]; [reflexivity|]. simpl. exact IH.
Qed.

Lemma split_from_cons (sep cur : string) (c : ascii) (r : string) :
  Helpers.split_from sep (String c r) cur 0
  = if String.prefix sep (String c r)
    then cur :: Helpers.split_from sep r EmptyString (String.length sep - 1)
    else Helpers.split_from sep r (cur ++ String c EmptyString) 0.
Proof. reflexivity. Qed.

Lemma split_from_not_nil (sep s cur : string) (skip : nat) :
  Helpers.split_from sep s cur skip <> [].
Proof.
  revert cur skip. induction s as [|c s IH]; intros cur skip.
  - intro H. discriminate H.
  - destruct skip as [|k]; [|apply IH].
    rewrite split_from_cons.
    destruct (String.prefix sep (String c s)); [intro H; discriminate H | apply IH].
Qed.

Lemma concat_cons (sep cur : string) (pieces : list string) :
  pieces <> [] -> String.concat sep (cur :: pieces) = cur ++ sep ++ String.concat sep pieces.
Proof. destruct pieces; [congruence | reflexivity]. Qed.

(** Joining the pieces of a split with the separator gives the text
    back. *)
Lemma split_join (sep : string) (n : nat) :
  sep <> "" ->
  forall s cur, (String.length s <= n)%nat ->
    String.concat sep (Helpers.split_from sep s cur 0) = cur ++ s.
Proof.
  intros Hsep. induction n as [|n IH]; intros s cur Hlen.
  - destruct s; [simpl; symmetry; apply append_nil_r | simpl in Hlen; lia].
  - destruct s as [|c r]; [simpl; symmetry; apply append_nil_r|].
    rewrite split_from_cons.
    destruct (String.prefix sep (String c r)) eqn:E.
    + destruct (prefix_append _ _ E) as [rest Hrest].
      destruct sep as [|a sep']; [congruence|].
      rewrite append_cons in Hrest. injection Hrest as -> ->.
      change (String.length (String a sep') - 1)%nat with (String.length sep' - 0)%nat.
      rewrite Nat.sub_0_r, split_from_skips.
      rewrite concat_cons by apply split_from_not_nil.
      rewrite IH.
      * reflexivity.
      * simpl in Hlen. rewrite length_append in Hlen. lia.
    + rewrite IH by (simpl in Hlen; lia).
      rewrite append_assoc. reflexivity.
Qed.

(** X6.  [getOptimizedImageUrl] never rewrites a URL: it returns the URL it was
    given, or that URL with the transformation segment put right after one
    '/upload/' of it.  A missing URL, and a URL that does not mention
    'cloudinary.com', are returned as they are. *)
Theorem getOptimizedImageUrl_only_inserts (url : option string) (width quality : Z) :
  (Helpers.getOptimizedImageUrl url width quality = url \/
   exists u before rest,
     url = Some u /\
     u = before ++ "/upload/" ++ rest /\
     Helpers.getOptimizedImageUrl url width quality
     = Some (before ++ "/upload/" ++ Helpers.transformations width quality ++ "/" ++ rest)) /\
  (forall u, url = Some u -> Helpers.includes u "cloudinary.com" = false ->
             Helpers.getOptimizedImageUrl url width quality = url) /\
  (url = None -> Helpers.getOptimizedImageUrl url width quality = None).
Proof.
  split; [|split].
  - unfold Helpers.getOptimizedImageUrl.
    destruct url as [u|]; [|left; reflexivity].
    destruct (negb (truthy_string u) || negb (Helpers.includes u "cloudinary.com"));
      [left; reflexivity|].
    pose proof (split_join "/upload/" (String.length u) ltac:(discriminate) u ""
                           (Nat.le_refl _)) as Hjoin.
    fold (Helpers.split u "/upload/") in Hjoin.
    destruct (Helpers.split u "/upload/") as [|before [|rest [|third more]]];
      try (left; reflexivity).
    right. exists u, before, rest. simpl in Hjoin. auto.
  - intros u -> H. unfold Helpers.getOptimizedImageUrl. rewrite H.
    rewrite orb_true_r. reflexivity.
  - intros ->. reflexivity.
Qed.

Lemma getOptimizedImageUrl_only_inserts_witness :
  Helpers.getOptimizedImageUrl
    (Some "https://res.cloudinary.com/demo/image/upload/v1/farm-geotag/a.jpg") 400 80
  = Some "https://res.cloudinary.com/demo/image/upload/w_400,q_80,f_auto,c_limit/v1/farm-geotag/a.jpg" /\
  Helpers.getOptimizedImageUrl (Some "https://img.example/upload/a.jpg") 400 80
  = Some "https://img.example/upload/a.jpg".
Proof.
  destruct (getOptimizedImageUrl_only_inserts (Some "https://img.example/upload/a.jpg")
              400 80) as (_ & H & _).
  split; [vm_compute; reflexivity|].
  apply (H "https://img.example/upload/a.jpg"); reflexivity.
Defined.

(* ===================================================================== *)
(** ** ImageUpload.jsx: one upload, whatever the collaborators do *)
(* ===================================================================== *)


Lemma or_default_truthy (o : option string) (fallback : string) :
  truthy_string fallback = true -> truthy_string (or_default truthy_string o fallback) = true.
Proof.
  intros Hf. unfold or_default. destruct o as [m|]; [|exact Hf].
  destruct (truthy_string m) eqn:E; [exact E | exact Hf].
Qed.

Lemma message_of_truthy (fallback : string) (e : JsError) :
  fallback <> "" -> truthy_string (message_of fallback e) = true.
Proof.
  intros Hf. apply truthy_string_spec in Hf.
  unfold message_of.
  destruct (Js.response e) as [r|].
  - destruct (Js.data r); [apply or_default_truthy, Hf | exact Hf].
  - destruct (Js.request e); [reflexivity | apply or_default_truthy, Hf].
Qed.

Lemma reportProgress_others {json : JsonCodec} (fileName : string) (events : list Z)
  (w : World) :
  exists progress,
    (forall k, k <> fileName -> progress !! k = progress_of w !! k) /\
    (events = [] -> progress = progress_of w) /\
    Components.reportProgress fileName events w
    = (Normal tt,
       set_plantsState (PlantsState.set_uploadProgress progress (plantsState w)) w).
Proof.
  revert w. induction events as [|p events IH]; intros w.
  - exists (progress_of w). split; [reflexivity|]. split; [reflexivity|].
    destruct w as [? ? ? ? ? ? [] ?]; reflexivity.
  - simpl Components.reportProgress. unfold bind.
    unfold PlantsSlice.uploadProgress, PlantsSlice.assign, modify.
    destruct (IH (set_plantsState
                    (PlantsState.set_uploadProgress
                       (<[fileName := p]> (PlantsState.uploadProgress (plantsState w)))
                       (plantsState w)) w)) as (progress & Hk & _ & ->).
    exists progress. split; [|split; [discriminate|]].
    + intros k Hne. rewrite (Hk k Hne). unfold progress_of. simpl.
      apply lookup_insert_ne. congruence.
    + destruct w as [? ? ? ? ? ? [] ?]; reflexivity.
Qed.

Lemma uploadSingleFile_run {json : JsonCodec} (fileName : string)
  (h : Components.Hosting) (xExtract : Http.Exchange Http.ExtractBody)
  (xSave : Http.Exchange Http.SaveBody) (generatedId nowISO : string) (w : World) :
  exists progress,
    (forall k, k <> fileName -> progress !! k = progress_of w !! k) /\
    let w1 := set_plantsState (PlantsState.set_uploadProgress progress (plantsState w)) w in
    Components.uploadSingleFile fileName h xExtract xSave generatedId nowISO w =
    match Components.hosted h with
    | Http.Rejected e => (Normal (failure_result e), upload_failed fileName e w1)
    | Http.Resolved url =>
        let w2 := contacted (extract_request (Some fileName) url) xExtract w1 in
        match Http.reply xExtract with
        | Http.Rejected e' =>
            let e := api_failure "Failed to extract coordinates" e' in
            (Normal (failure_result e),
             upload_failed fileName e
               (set_console (console w2 ++ [ConsoleError "Extract coordinates error:" e']) w2))
        | Http.Resolved eb =>
            if Http.extract_success eb then
              match Http.extract_data eb with
              | None =>
                  let e := TypeError "Cannot destructure property 'latitude' of null" in
                  (Normal (failure_result e), upload_failed fileName e w2)
              | Some coordinates =>
                  let plantData := Components.plantDataOf fileName url coordinates in
                  if Api.missing_fields plantData then
                    let e := Error "Missing required plant data fields" in
                    (Normal (failure_result e),
                     upload_failed fileName e
                       (set_console (console w2 ++ [ConsoleError "Save plant data error:" e])
                                    w2))
                  else
                    let w3 := contacted (save_request plantData) xSave w2 in
                    match Http.reply xSave with
                    | Http.Rejected e' =>
                        let e := api_failure "Failed to save plant data" e' in
                        (Normal (failure_result e),
                         upload_failed fileName e
                           (set_console
                              (console w3 ++ [ConsoleError "Save plant data error:" e']) w3))
                    | Http.Resolved sb =>
                        if Http.save_success sb then
                          let w4 := set_cache {| Cache.plants := None;
                                                 Cache.timestamp := None |} w3 in
                          match Http.save_data sb with
                          | None =>
                              let e := TypeError
                                         "Cannot read properties of null (reading 'id')" in
                              (Normal (failure_result e), upload_failed fileName e w4)
                          | Some d =>
                              let final :=
                                Components.finalPlantData fileName url coordinates
                                  (Api.savedPlant d) generatedId nowISO in
                              let w5 := after (PlantsSlice.uploadSuccess final) w4 in
                              (Normal {| Components.upload_success := true;
                                         Components.upload_data := Some final;
                                         Components.upload_error := None |},
                               set_toasts
                                 (toasts w5
                                  ++ [ToastSuccess (fileName ++ " uploaded successfully!")])
                                 w5)
                          end
                        else
                          let e := Error "Failed to save plant data" in
                          (Normal (failure_result e), upload_failed fileName e w3)
                    end
              end
            else
              let e := Error "Failed to extract coordinates from image" in
              (Normal (failure_result e), upload_failed fileName e w2)
        end
    end.
Proof.
  unfold Components.uploadSingleFile, try_catch.
  unfold bind at 1. unfold PlantsSlice.uploadStart, PlantsSlice.assign, modify.
  set (w0 := set_plantsState _ w).
  unfold bind at 1. unfold Components.uploadToCloudinary. unfold bind at 1.
  destruct (reportProgress_others fileName (Components.progressEvents h) w0)
    as (progress & Hk & _ & ->).
  exists progress. split.
  { intros k Hne. rewrite (Hk k Hne). unfold progress_of, w0. simpl.
    apply lookup_insert_ne. congruence. }
  set (w1 := set_plantsState (PlantsState.set_uploadProgress progress (plantsState w)) w).
  assert (E01 : set_plantsState (PlantsState.set_uploadProgress progress (plantsState w0)) w0
                = w1).
  { subst w0 w1. destruct w as [? ? ? ? ? ? [] ?]; reflexivity. }
  rewrite E01. clearbody w1. clear E01 Hk w0.
  destruct (Components.hosted h) as [url|e].
  2:{ reflexivity. }
  unfold ret at 1.
  unfold bind at 1. rewrite extractCoordinates_run. cbv zeta.
  set (w2 := contacted _ xExtract w1).
  destruct (Http.reply xExtract) as [eb|e'].
  2:{ unfold caught, api_failure. destruct (null_body e'); [reflexivity|].
      cbn [Api.success negb]. unfold throw. cbn [Api.error].
      unfold or_default. rewrite message_of_truthy by discriminate. reflexivity. }
  destruct (Http.extract_success eb).
  2:{ reflexivity. }
  cbn [Api.success Api.data negb].
  destruct (Http.extract_data eb) as [coordinates|].
  2:{ reflexivity. }
  destruct (Api.missing_fields (Components.plantDataOf fileName url coordinates)) eqn:Hm.
  { unfold bind at 1. rewrite (savePlantData_missing_fields _ xSave w2 Hm). reflexivity. }
  unfold bind at 1. rewrite (savePlantData_sent _ xSave w2 Hm). cbv zeta.
  set (w3 := contacted _ xSave w2).
  destruct (Http.reply xSave) as [sb|e'].
  2:{ unfold caught, api_failure. destruct (null_body e'); [reflexivity|].
      cbn [Api.success negb]. unfold throw. cbn [Api.error].
      unfold or_default. rewrite message_of_truthy by discriminate. reflexivity. }
  destruct (Http.save_success sb).
  2:{ reflexivity. }
  cbn [Api.success Api.data negb].
  destruct (Http.save_data sb) as [d|].
  2:{ reflexivity. }
  cbn [option_map]. unfold bind at 1. unfold after.
  destruct (uploadSuccess_spec
              (Components.finalPlantData fileName url coordinates (Api.savedPlant d)
                 generatedId nowISO)
              (set_cache {| Cache.plants := None; Cache.timestamp := None |} w3))
    as (U1 & _).
  unfold outcome in U1.
  destruct (PlantsSlice.uploadSuccess _ _) as [c w5]. simpl in U1. subst c.
  reflexivity.
Qed.

Lemma upload_failed_spec (fileName : string) (e : JsError) (w : World) :
  store_plants (upload_failed fileName e w) = store_plants w /\
  localStorage (upload_failed fileName e w) = localStorage w /\
  cache (upload_failed fileName e w) = cache w /\
  requests (upload_failed fileName e w) = requests w /\
  PlantsState.error (plantsState (upload_failed fileName e w)) = Js.message e /\
  toasts (upload_failed fileName e w)
  = (toasts w ++ [ToastError ("Failed to upload " ++ fileName ++ ": "
                              ++ Js.to_string (Js.message e))])%list /\
  progress_of (upload_failed fileName e w) = delete fileName (progress_of w).
Proof. repeat split. Qed.

Lemma uploadSuccess_state {json : JsonCodec} (payload : Plant.t) (w : World) :
  plantsState (after (PlantsSlice.uploadSuccess payload) w) = uploaded payload (plantsState w) /\
  toasts (after (PlantsSlice.uploadSuccess payload) w) = toasts w /\
  requests (after (PlantsSlice.uploadSuccess payload) w) = requests w /\
  cache (after (PlantsSlice.uploadSuccess payload) w) = cache w.
Proof.
  unfold after. rewrite uploadSuccess_run.
  destruct (assign_then_persist (uploaded payload (plantsState w)) w)
    as (_ & H2 & H3 & H4 & H5 & _).
  unfold after in H2, H3, H4, H5. auto.
Qed.

(** The branches of [uploadSingleFile] that end in its [catch] block. *)
Ltac upload_fails Hk :=
  match goal with
  | |- context [upload_failed ?f ?e ?W] =>
      let F1 := fresh "F" in
      let F2 := fresh "F" in
      let F5 := fresh "F" in
      let F6 := fresh "F" in
      let F7 := fresh "F" in
      destruct (upload_failed_spec f e W) as (F1 & F2 & _ & _ & F5 & F6 & F7);
      exists (failure_result e); cbn [fst snd];
      split; [reflexivity|];
      split; [rewrite F7; apply lookup_delete_eq|];
      split; [intros k Hne; rewrite F7, lookup_delete_ne by congruence; apply Hk, Hne|];
      split; [|intros Hs; discriminate Hs];
      intros _; split; [exact F1|]; split; [exact F2|]; split; [reflexivity|];
      split; [exact F5|]; split; [exact F6|];
      let Hnone := fresh "Hnone" in
      intros Hnone; cbn [Components.upload_error failure_result] in Hnone;
      first [ discriminate Hnone
            | unfold api_failure in Hnone; destruct (null_body _); discriminate Hnone
            | eexists; split; [reflexivity | exact Hnone] ]
  end.

(** X7.  An upload never throws, and it is all or nothing for the collection:
    a failed upload leaves the collection and the mirror as they were,
    puts the message of the error it caught in its result and in the store,
    and shows one error toast; a successful one puts the new record, named
    after the file and carrying an id, at the front and invalidates the
    cache.  The message of a failed upload is undefined only when the
    hosting step threw a value without a message, as it does with the
    event [compressImage] rejects with; the toast then reads 'undefined'.
    Either way the progress entry of the file is gone afterwards and the
    entries of other files are as before. *)
Theorem uploadSingleFile_all_or_nothing {json : JsonCodec} (fileName : string)
  (h : Components.Hosting) (xExtract : Http.Exchange Http.ExtractBody)
  (xSave : Http.Exchange Http.SaveBody) (generatedId nowISO : string) (w : World) :
  let run := Components.uploadSingleFile fileName h xExtract xSave generatedId nowISO in
  exists r,
    outcome run w = Normal r /\
    progress_of (after run w) !! fileName = None /\
    (forall k, k <> fileName -> progress_of (after run w) !! k = progress_of w !! k) /\
    (Components.upload_success r = false ->
     store_plants (after run w) = store_plants w /\
     localStorage (after run w) = localStorage w /\
     Components.upload_data r = None /\
     PlantsState.error (plantsState (after run w)) = Components.upload_error r /\
     toasts (after run w)
     = (toasts w ++ [ToastError ("Failed to upload " ++ fileName ++ ": "
                                 ++ Js.to_string (Components.upload_error r))])%list /\
     (Components.upload_error r = None ->
      exists e, Components.hosted h = Http.Rejected e /\ Js.message e = None)) /\
    (Components.upload_success r = true ->
     exists final id,
       Components.upload_data r = Some final /\
       Plant.imageName final = Some fileName /\
       Plant.id final = Some id /\
       (generatedId <> "" -> id <> "") /\
       store_plants (after run w) = final :: store_plants w /\
       cache_invalidated (after run w) /\
       toasts (after run w)
       = (toasts w ++ [ToastSuccess (fileName ++ " uploaded successfully!")])%list).
Proof.
  intros run. subst run.
  destruct (uploadSingleFile_run fileName h xExtract xSave generatedId nowISO w)
    as (progress & Hk & Hrun).
  unfold outcome, after. rewrite Hrun. clear Hrun.
  set (w1 := set_plantsState _ w).
  destruct (Components.hosted h) as [url|e]; [|upload_fails Hk].
  cbv zeta.
  destruct (Http.reply xExtract) as [eb|e']; [|upload_fails Hk].
  destruct (Http.extract_success eb); [|upload_fails Hk].
  destruct (Http.extract_data eb) as [coordinates|]; [|upload_fails Hk].
  destruct (Api.missing_fields _); [upload_fails Hk|].
  destruct (Http.reply xSave) as [sb|e']; [|upload_fails Hk].
  destruct (Http.save_success sb); [|upload_fails Hk].
  destruct (Http.save_data sb) as [d|]; [|upload_fails Hk].
  set (final := Components.finalPlantData fileName url coordinates (Api.savedPlant d)
                                          generatedId nowISO).
  set (w4 := set_cache _ _).
  destruct (uploadSuccess_state final w4) as (S1 & S2 & S3 & S4).
  set (w5 := after (PlantsSlice.uploadSuccess final) w4) in *.
  eexists. cbn [fst snd]. split; [reflexivity|].
  split.
  { unfold progress_of. cbn [plantsState set_toasts]. rewrite S1. apply lookup_delete_eq. }
  split.
  { intros k Hne. unfold progress_of. cbn [plantsState set_toasts]. rewrite S1.
    unfold uploaded. cbn [PlantsState.uploadProgress PlantsState.set_uploadProgress].
    rewrite lookup_delete_ne by (cbn; congruence).
    apply Hk, Hne. }
  split; [intros Hs; discriminate Hs|].
  intros _. exists final.
  exists (or_default truthy_string (Plant.id (Api.savedPlant d)) generatedId).
  split; [reflexivity|]. split; [reflexivity|]. split; [reflexivity|].
  split.
  { intros Hg. unfold or_default. destruct (Plant.id (Api.savedPlant d)) as [i|]; [|exact Hg].
    destruct (truthy_string i) eqn:E; [apply truthy_string_spec, E | exact Hg]. }
  split.
  { unfold store_plants. cbn [plantsState set_toasts]. rewrite S1. reflexivity. }
  split.
  { unfold cache_invalidated. cbn [cache set_toasts]. rewrite S4. reflexivity. }
  cbn [toasts set_toasts]. rewrite S2. reflexivity.
Qed.

(** X8.  The requests of an upload follow its stages: nothing is sent when the
    hosting fails, only the extraction request when no coordinates come
    back or the draft fails the validation of [savePlantData], and the
    extraction request followed by the save request otherwise.  The cache
    is invalidated exactly when the remote side reports the save as
    done. *)
Theorem uploadSingleFile_sends_requests_stage_by_stage {json : JsonCodec}
  (fileName : string) (h : Components.Hosting) (xExtract : Http.Exchange Http.ExtractBody)
  (xSave : Http.Exchange Http.SaveBody) (generatedId nowISO : string) (w : World) :
  let w' := after (Components.uploadSingleFile fileName h xExtract xSave generatedId nowISO)
                  w in
  requests w'
  = (requests w ++
     match Components.hosted h with
     | Http.Rejected _ => []
     | Http.Resolved url =>
         extract_request (Some fileName) url ::
         match extracted xExtract with
         | None => []
         | Some coordinates =>
             let plantData := Components.plantDataOf fileName url coordinates in
             if Api.missing_fields plantData then [] else [save_request plantData]
         end
     end)%list /\
  cache w'
  = (if save_confirmed fileName h xExtract xSave
     then {| Cache.plants := None; Cache.timestamp := None |}
     else cache w).
Proof.
  intros w'. subst w'.
  destruct (uploadSingleFile_run fileName h xExtract xSave generatedId nowISO w)
    as (progress & _ & Hrun).
  unfold after. rewrite Hrun. clear Hrun.
  unfold save_confirmed, extracted.
  destruct (Components.hosted h) as [url|e].
  2:{ split; [symmetry; apply app_nil_r | reflexivity]. }
  cbv zeta.
  destruct (Http.reply xExtract) as [eb|e']; [|split; reflexivity].
  destruct (Http.extract_success eb); [|split; reflexivity].
  destruct (Http.extract_data eb) as [coordinates|]; [|split; reflexivity].
  destruct (Api.missing_fields _);
    [split; [reflexivity | destruct (Http.reply xSave); reflexivity]|].
  destruct (Http.reply xSave) as [sb|e'];
    [|split; [cbn; rewrite <- app_assoc; reflexivity | reflexivity]].
  destruct (Http.save_success sb);
    [|split; [cbn; rewrite <- app_assoc; reflexivity | reflexivity]].
  destruct (Http.save_data sb) as [d|];
    [|split; [cbn; rewrite <- app_assoc; reflexivity | reflexivity]].
  set (final := Components.finalPlantData _ _ _ _ _ _).
  set (w4 := set_cache _ _).
  destruct (uploadSuccess_state final w4) as (_ & _ & S3 & S4).
  cbn [snd requests cache set_toasts]. rewrite S3, S4. split; [|reflexivity].
  cbn. rewrite <- app_assoc. reflexivity.
Qed.

(** X9.  A photo taken on the equator or on the prime meridian cannot be
    uploaded: when the extraction gives a latitude or a longitude of 0, the
    draft fails the validation of [savePlantData], the upload ends with
    'Missing required plant data fields', no save request is sent and the
    collection is as before. *)
Theorem uploadSingleFile_fails_on_zero_coordinates {json : JsonCodec}
  (fileName : string) (h : Components.Hosting) (xExtract : Http.Exchange Http.ExtractBody)
  (xSave : Http.Exchange Http.SaveBody) (generatedId nowISO : string) (w : World)
  (url : option string) (coordinates : Http.Coordinates) :
  Components.hosted h = Http.Resolved url ->
  extracted xExtract = Some coordinates ->
  (exists lat, Http.latitude coordinates = Some lat /\ PrimFloat.eqb lat 0 = true) \/
  (exists lon, Http.longitude coordinates = Some lon /\ PrimFloat.eqb lon 0 = true) ->
  let run := Components.uploadSingleFile fileName h xExtract xSave generatedId nowISO in
  outcome run w = Normal (failure_result (Error "Missing required plant data fields")) /\
  store_plants (after run w) = store_plants w /\
  localStorage (after run w) = localStorage w /\
  cache (after run w) = cache w /\
  requests (after run w) = (requests w ++ [extract_request (Some fileName) url])%list.
Proof.
  intros Hh He Hzero run. subst run.
  assert (Hm : Api.missing_fields (Components.plantDataOf fileName url coordinates) = true).
  { unfold Api.missing_fields, Components.plantDataOf. cbn [PlantData.latitude
      PlantData.longitude PlantData.imageName PlantData.imageUrl].
    destruct Hzero as [(lat & -> & Hz)|(lon & -> & Hz)];
      cbn [truthy_opt]; rewrite (zero_is_falsy _ Hz); cbn [negb];
      rewrite ?orb_true_r; reflexivity. }
  destruct (uploadSingleFile_run fileName h xExtract xSave generatedId nowISO w)
    as (progress & _ & Hrun).
  unfold outcome, after. rewrite Hrun. clear Hrun. rewrite Hh. cbv zeta.
  unfold extracted in He.
  destruct (Http.reply xExtract) as [eb|e']; [|discriminate He].
  destruct (Http.extract_success eb); [|discriminate He].
  rewrite He, Hm. repeat split.
Qed.

Lemma uploadSingleFile_fails_on_zero_coordinates_witness :
  let h := {| Components.progressEvents := [100%Z];
              Components.hosted := Http.Resolved (Some "https://img.example/a.jpg") |} in
  let xExtract := Sample.answers
                    {| Http.extract_success := true;
                       Http.extract_data := Some {| Http.latitude := Some 0%float;
                                                    Http.longitude := Some 20%float |} |} in
  let xSave := Sample.answers
                 {| Http.save_success := true;
                    Http.save_data := Some (Sample.remote "x1" "a.jpg" 0 20) |} in
  let run := @Components.uploadSingleFile sample_json "a.jpg" h xExtract xSave
               "generated" "2024-06-01T00:00:00Z" in
  outcome run Sample.fresh
  = Normal (failure_result (Error "Missing required plant data fields")) /\
  store_plants (after run Sample.fresh) = [] /\
  requests (after run Sample.fresh)
  = [extract_request (Some "a.jpg") (Some "https://img.example/a.jpg")].
Proof.
  intros h xExtract xSave run.
  destruct (@uploadSingleFile_fails_on_zero_coordinates sample_json "a.jpg" h xExtract xSave
              "generated" "2024-06-01T00:00:00Z" Sample.fresh
              (Some "https://img.example/a.jpg")
              {| Http.latitude := Some 0%float; Http.longitude := Some 20%float |}
              eq_refl eq_refl
              (or_introl (ex_intro _ 0%float (conj eq_refl eq_refl))))
    as (H1 & H2 & _ & _ & H5).
  split; [exact H1|]. split; [exact H2 | exact H5].
Defined.

(* ===================================================================== *)
(** ** services/api.js: failures become results, and the cache *)
(* ===================================================================== *)

Lemma extractCoordinates_frame (imageName imageUrl : option string)
  (x : Http.Exchange Http.ExtractBody) (w : World) :
  exists c w',
    Api.extractCoordinates imageName imageUrl x w = (c, w') /\
    plantsState w' = plantsState w /\
    localStorage w' = localStorage w /\
    toasts w' = toasts w /\
    cache w' = cache w /\
    requests w' = (requests w ++ [extract_request imageName imageUrl])%list /\
    (fails_with_null_body x = true -> c = Throw null_body_error) /\
    (fails_with_null_body x = false ->
     exists r, c = Normal r /\
               (Api.success r = false ->
                Api.data r = None /\
                exists message, Api.error r = Some message /\ message <> "")).
Proof.
  rewrite extractCoordinates_run. cbv zeta. unfold fails_with_null_body, caught.
  destruct (Http.reply x) as [body|e];
    [destruct (Http.extract_success body)|destruct (null_body e)];
    eexists _, _; (split; [reflexivity|]); repeat split; try discriminate;
    intros _; eexists; (split; [reflexivity|]); try discriminate;
    intros _; (split; [reflexivity|]); eexists; (split; [reflexivity|]); try discriminate.
  apply truthy_string_spec, message_of_truthy. discriminate.
Qed.

Lemma savePlantData_frame (plantData : PlantData.t) (x : Http.Exchange Http.SaveBody)
  (w : World) :
  exists c w',
    Api.savePlantData plantData x w = (c, w') /\
    plantsState w' = plantsState w /\
    localStorage w' = localStorage w /\
    toasts w' = toasts w /\
    cache w' = (if saved plantData x
                then {| Cache.plants := None; Cache.timestamp := None |}
                else cache w) /\
    requests w' = (if Api.missing_fields plantData then requests w
                   else (requests w ++ [save_request plantData])%list) /\
    (Api.missing_fields plantData = false -> fails_with_null_body x = true ->
     c = Throw null_body_error) /\
    (Api.missing_fields plantData = true \/ fails_with_null_body x = false ->
     exists r, c = Normal r /\
               Api.success r = saved plantData x /\
               (Api.success r = false ->
                Api.data r = None /\
                exists message, Api.error r = Some message /\ message <> "")).
Proof.
  unfold saved. destruct (Api.missing_fields plantData) eqn:Hm.
  - rewrite (savePlantData_missing_fields _ x w Hm).
    eexists _, _. split; [reflexivity|]. repeat split; try discriminate.
    intros _. eexists. split; [reflexivity|]. split; [reflexivity|].
    intros _. split; [reflexivity|]. eexists. split; [reflexivity | discriminate].
  - rewrite (savePlantData_sent _ x w Hm). cbv zeta. unfold fails_with_null_body, caught.
    destruct (Http.reply x) as [sb|e];
      [destruct (Http.save_success sb) eqn:Hs|destruct (null_body e)];
      eexists _, _; (split; [reflexivity|]); repeat split; try discriminate;
      try (intros [H|H]; discriminate H);
      intros _; eexists; (split; [reflexivity|]); (split; [reflexivity|]);
      try discriminate;
      intros _; (split; [reflexivity|]); eexists; (split; [reflexivity|]);
      try discriminate.
    apply truthy_string_spec, message_of_truthy. discriminate.
Qed.

Lemma fetchUserPlants_result (forceRefresh : bool) (x : Http.Exchange Http.FetchBody)
  (w : World) :
  exists r w',
    Api.fetchUserPlants forceRefresh x w = (Normal r, w') /\
    (Api.success r = true ->
     Cache.plants (cache w') = Some (Api.data r) /\
     ((Api.fromCache r = Some true /\ cache w' = cache w /\ requests w' = requests w /\
       outcome (Api.cacheLookup forceRefresh) w = Normal (Some (Api.data r)))
      \/
      (Api.fromCache r = Some false /\
       Cache.timestamp (cache w') = Some (clock w + Http.latency x)%Z /\
       clock w' = (clock w + Http.latency x)%Z /\
       requests w' = (requests w ++ [fetch_request])%list /\
       outcome (Api.cacheLookup forceRefresh) w = Normal None /\
       exists body, Http.reply x = Http.Resolved body /\ Http.fetch_success body = true /\
                    Api.data r = map Api.fetchedPlant (default [] (Http.fetch_data body))))) /\
    (Api.success r = false ->
     cache w' = cache w /\ Api.data r = [] /\
     (exists message, Api.error r = Some message /\ message <> "") /\
     requests w' = (requests w ++ [fetch_request])%list).
Proof.
  destruct (cacheLookup_cases forceRefresh w) as [(ps & Hhit)|Hmiss].
  - rewrite (fetchUserPlants_cached forceRefresh x w ps Hhit).
    eexists _, _. split; [reflexivity|]. split; [|intros H; discriminate H].
    intros _. split.
    + unfold outcome in Hhit. rewrite cacheLookup_run in Hhit. simpl.
      destruct (Cache.plants (cache w)) as [qs|]; [|discriminate Hhit].
      destruct (Cache.timestamp (cache w)) as [t|]; [|discriminate Hhit].
      destruct (_ && _); [|discriminate Hhit]. simpl in Hhit. congruence.
    + left. repeat split. exact Hhit.
  - rewrite (fetchUserPlants_uncached forceRefresh x w Hmiss). cbv zeta.
    destruct (Http.reply x) as [body|e]; [destruct (Http.fetch_success body) eqn:Hs|].
    + eexists _, _. split; [reflexivity|]. split; [|intros H; discriminate H].
      intros _. split; [reflexivity|]. right. repeat split; try exact Hmiss.
      exists body. repeat split. exact Hs.
    + eexists _, _. split; [reflexivity|]. split; [intros H; discriminate H|].
      intros _. repeat split. eexists. split; [reflexivity | discriminate].
    + eexists _, _. split; [reflexivity|]. split; [intros H; discriminate H|].
      intros _. destruct (development w); repeat split;
        eexists; (split; [reflexivity | discriminate]).
Qed.

(** X10.  The calls of [services/api.js] turn failures into results, with
    one exception.  [fetchUserPlants] and [deletePlantData] never throw,
    whatever the remote side does.  [extractCoordinates] and
    [savePlantData] throw in exactly one case: the request fails with an
    error response whose body is [null], and reading its message in the
    [catch] block throws a [TypeError] out of the function.  In every other
    case they return a result, and a result with [success: false] carries
    an error message that is not empty.  None of the four touches the store
    or the mirror, also when it throws. *)
Theorem api_calls_throw_only_on_null_error_body :
  (forall imageName imageUrl x w,
     (fails_with_null_body x = true ->
      outcome (Api.extractCoordinates imageName imageUrl x) w = Throw null_body_error) /\
     (fails_with_null_body x = false ->
      exists r,
        outcome (Api.extractCoordinates imageName imageUrl x) w = Normal r /\
        (Api.success r = false ->
         Api.data r = None /\ exists message, Api.error r = Some message /\ message <> "")) /\
     plantsState (after (Api.extractCoordinates imageName imageUrl x) w) = plantsState w /\
     localStorage (after (Api.extractCoordinates imageName imageUrl x) w)
     = localStorage w /\
     cache (after (Api.extractCoordinates imageName imageUrl x) w) = cache w) /\
  (forall plantData x w,
     (Api.missing_fields plantData = false -> fails_with_null_body x = true ->
      outcome (Api.savePlantData plantData x) w = Throw null_body_error) /\
     (Api.missing_fields plantData = true \/ fails_with_null_body x = false ->
      exists r,
        outcome (Api.savePlantData plantData x) w = Normal r /\
        (Api.success r = false ->
         Api.data r = None /\ exists message, Api.error r = Some message /\ message <> "")) /\
     plantsState (after (Api.savePlantData plantData x) w) = plantsState w /\
     localStorage (after (Api.savePlantData plantData x) w) = localStorage w) /\
  (forall forceRefresh x w,
     exists r,
       outcome (Api.fetchUserPlants forceRefresh x) w = Normal r /\
       (Api.success r = false ->
        Api.data r = [] /\ exists message, Api.error r = Some message /\ message <> "") /\
       plantsState (after (Api.fetchUserPlants forceRefresh x) w) = plantsState w /\
       localStorage (after (Api.fetchUserPlants forceRefresh x) w) = localStorage w) /\
  (forall plantId x w,
     exists r,
       outcome (Api.deletePlantData plantId x) w = Normal r /\
       (Api.success r = false ->
        exists message, Api.error r = Some message /\ message <> "") /\
       plantsState (after (Api.deletePlantData plantId x) w) = plantsState w /\
       localStorage (after (Api.deletePlantData plantId x) w) = localStorage w).
Proof.
  split; [|split; [|split]].
  - intros imageName imageUrl x w.
    destruct (extractCoordinates_frame imageName imageUrl x w)
      as (c & w' & E & F1 & F2 & _ & F4 & _ & F6 & F7).
    unfold outcome, after. rewrite E. cbn [fst snd].
    split; [exact F6|]. split; [|auto].
    intros H. destruct (F7 H) as (r & -> & Hr). exists r. auto.
  - intros plantData x w.
    destruct (savePlantData_frame plantData x w)
      as (c & w' & E & F1 & F2 & _ & _ & _ & F6 & F7).
    unfold outcome, after. rewrite E. cbn [fst snd].
    split; [exact F6|]. split; [|auto].
    intros H. destruct (F7 H) as (r & -> & _ & Hr). exists r. auto.
  - intros forceRefresh x w.
    destruct (fetchUserPlants_frame forceRefresh x w) as (r & w' & E & F1 & F2 & _).
    destruct (fetchUserPlants_result forceRefresh x w) as (r' & w'' & E' & _ & Hf).
    rewrite E in E'. injection E' as <- <-.
    exists r. unfold outcome, after. rewrite E. simpl.
    split; [reflexivity|]. split; [|auto].
    intros Hs. destruct (Hf Hs) as (_ & H2 & H3 & _). auto.
  - intros plantId x w.
    destruct (deletePlantData_frame plantId x w) as (r & w' & E & F1 & F2 & _).
    exists r. unfold outcome, after. rewrite E. simpl.
    split; [reflexivity|]. split; [|auto].
    rewrite deletePlantData_run in E. cbv zeta in E.
    destruct (Http.reply x) as [body|e]; [destruct (Http.delete_success body)|];
      injection E as <- _; simpl; intros H; try discriminate H.
    eexists. split; [reflexivity | discriminate].
Qed.

Lemma api_calls_throw_only_on_null_error_body_witness :
  let bad_gateway :=
    {| Js.name := "AxiosError"; Js.message := Some "Request failed with status code 502";
       Js.response := Some {| Js.status := 502; Js.data := None |}; Js.request := true |} in
  let xExtract : Http.Exchange Http.ExtractBody :=
    {| Http.reply := Http.Rejected bad_gateway; Http.latency := 150 |} in
  let xSave : Http.Exchange Http.SaveBody :=
    {| Http.reply := Http.Rejected bad_gateway; Http.latency := 150 |} in
  let draft := {| PlantData.imageName := Some "a.jpg";
                  PlantData.imageUrl := Some "https://img.example/a.jpg";
                  PlantData.latitude := Some 10%float;
                  PlantData.longitude := Some 20%float |} in
  outcome (Api.extractCoordinates (Some "a.jpg") (Some "https://img.example/a.jpg") xExtract)
          Sample.fresh
  = Throw (TypeError "Cannot read properties of null (reading 'message')") /\
  outcome (Api.savePlantData draft xSave) Sample.fresh
  = Throw (TypeError "Cannot read properties of null (reading 'message')") /\
  exists r, outcome (Api.savePlantData draft Sample.offline) Sample.fresh = Normal r.
Proof.
  intros bad_gateway xExtract xSave draft.
  destruct api_calls_throw_only_on_null_error_body as (H1 & H2 & _).
  split; [|split].
  - apply (H1 (Some "a.jpg") (Some "https://img.example/a.jpg") xExtract Sample.fresh).
    reflexivity.
  - apply (H2 draft xSave Sample.fresh); reflexivity.
  - destruct (H2 draft Sample.offline Sample.fresh) as (_ & H & _).
    destruct (H (or_intror eq_refl)) as (r & Hr & _). exists r. exact Hr.
Defined.

(** X11.  [savePlantData] clears the cache exactly when the draft passes the
    validation and the remote side answers the save with [success: true];
    a draft that fails the validation, a refused save and a failed request
    all leave the cache as it was, also when the call throws.  A result
    reports success exactly in that case.  The request is sent exactly when
    the draft passes the validation.  The call returns a result unless the
    request fails with an error response whose body is [null]; it then
    throws the [TypeError] of reading the message of that body. *)
Theorem savePlantData_clears_cache_iff_saved (plantData : PlantData.t)
  (x : Http.Exchange Http.SaveBody) (w : World) :
  let w' := after (Api.savePlantData plantData x) w in
  (saved plantData x = true -> cache_invalidated w') /\
  (saved plantData x = false -> cache w' = cache w) /\
  (Api.missing_fields plantData = false ->
   requests w' = (requests w ++ [save_request plantData])%list) /\
  (Api.missing_fields plantData = true -> requests w' = requests w) /\
  (forall r, outcome (Api.savePlantData plantData x) w = Normal r ->
             Api.success r = saved plantData x) /\
  (Api.missing_fields plantData = true \/ fails_with_null_body x = false ->
   exists r, outcome (Api.savePlantData plantData x) w = Normal r) /\
  (Api.missing_fields plantData = false -> fails_with_null_body x = true ->
   outcome (Api.savePlantData plantData x) w = Throw null_body_error).
Proof.
  intros w'. subst w'.
  destruct (savePlantData_frame plantData x w)
    as (c & w' & E & _ & _ & _ & F4 & F5 & F6 & F7).
  unfold outcome, after, cache_invalidated. rewrite E. cbn [fst snd].
  split; [intros Hs; rewrite F4, Hs; reflexivity|].
  split; [intros Hs; rewrite F4, Hs; reflexivity|].
  split; [intros Hm; rewrite F5, Hm; reflexivity|].
  split; [intros Hm; rewrite F5, Hm; reflexivity|].
  split.
  { intros r ->.
    destruct (Api.missing_fields plantData) eqn:Hm.
    - destruct (F7 (or_introl eq_refl)) as (r' & Hr & Hs & _). congruence.
    - destruct (fails_with_null_body x) eqn:Hn.
      + specialize (F6 eq_refl eq_refl). discriminate F6.
      + destruct (F7 (or_intror eq_refl)) as (r' & Hr & Hs & _). congruence. }
  split; [|exact F6].
  intros H. destruct (F7 H) as (r & -> & _). exists r. reflexivity.
Qed.

Lemma savePlantData_clears_cache_iff_saved_witness :
  let w := Sample.with_cache [Sample.x1] 1700000000000 Sample.fresh in
  let draft := {| PlantData.imageName := Some "a.jpg";
                  PlantData.imageUrl := Some "https://img.example/a.jpg";
                  PlantData.latitude := Some 10%float;
                  PlantData.longitude := Some 20%float |} in
  let done := Sample.answers {| Http.save_success := true;
                                Http.save_data := Some (Sample.remote "x1" "a.jpg" 10 20) |} in
  cache_invalidated (after (Api.savePlantData draft done) w) /\
  cache (after (Api.savePlantData draft Sample.offline) w) = cache w.
Proof.
  intros w draft done.
  destruct (savePlantData_clears_cache_iff_saved draft done w) as (H1 & _).
  destruct (savePlantData_clears_cache_iff_saved draft Sample.offline w) as (_ & H2 & _).
  split; [apply H1; reflexivity | apply H2; reflexivity].
Defined.

(** X12.  After a successful refresh the cache holds exactly the collection the
    call returned; a refresh that fails returns an empty collection and
    leaves the cache as it was. *)
Theorem fetchUserPlants_caches_what_it_returns (forceRefresh : bool)
  (x : Http.Exchange Http.FetchBody) (w : World) :
  let w' := after (Api.fetchUserPlants forceRefresh x) w in
  exists r,
    outcome (Api.fetchUserPlants forceRefresh x) w = Normal r /\
    (Api.success r = true -> Cache.plants (cache w') = Some (Api.data r)) /\
    (Api.success r = true -> Api.fromCache r = Some true ->
     cache w' = cache w /\ requests w' = requests w) /\
    (Api.success r = true -> Api.fromCache r <> Some true ->
     Cache.timestamp (cache w') = Some (clock w') /\
     clock w' = (clock w + Http.latency x)%Z /\
     requests w' = (requests w ++ [fetch_request])%list) /\
    (Api.success r = false -> Api.data r = [] /\ cache w' = cache w).
Proof.
  intros w'. subst w'.
  destruct (fetchUserPlants_result forceRefresh x w) as (r & w' & E & Hs & Hf).
  exists r. unfold outcome, after. rewrite E. simpl.
  split; [reflexivity|].
  split; [intros H; apply (Hs H)|].
  split.
  { intros H Hc. destruct (Hs H) as (_ & [(_ & H2 & H3 & _)|(H1 & _)]); [auto|congruence]. }
  split.
  { intros H Hc. destruct (Hs H) as (_ & [(H1 & _)|(_ & H2 & H3 & H4 & _)]);
      [congruence|]. rewrite H2, H3. auto. }
  intros H. destruct (Hf H) as (H1 & H2 & _). auto.
Qed.

(** X13.  A refresh within the freshness window answers with the collection the
    last successful refresh returned, without a request, whatever has
    happened to the store in between. *)
Theorem refresh_within_window_repeats_last_answer (forceRefresh : bool)
  (x x2 : Http.Exchange Http.FetchBody) (w : World) (r : Api.Result (list Plant.t))
  (fetchedAt gap : Z) :
  outcome (Api.fetchUserPlants forceRefresh x) w = Normal r ->
  Api.success r = true ->
  let w1 := after (Api.fetchUserPlants forceRefresh x) w in
  Cache.timestamp (cache w1) = Some fetchedAt ->
  fetchedAt <> 0%Z ->
  (clock w1 + gap - fetchedAt < 120000)%Z ->
  forall w2,
    cache w2 = cache w1 ->
    clock w2 = (clock w1 + gap)%Z ->
    outcome (Api.fetchUserPlants false x2) w2 = Normal (cached_result (Api.data r)) /\
    requests (after (Api.fetchUserPlants false x2) w2) = requests w2.
Proof.
  intros Hr Hs w1 Ht Hz Hage w2 Hc Hk.
  destruct (fetchUserPlants_result forceRefresh x w) as (r' & w' & E & Hs' & _).
  unfold outcome in Hr. subst w1. unfold after in *. rewrite E in *. simpl in *.
  injection Hr as ->. destruct (Hs' Hs) as (Hp & _).
  assert (Hhit : outcome (Api.cacheLookup false) w2 = Normal (Some (Api.data r))).
  { unfold outcome. rewrite cacheLookup_run, Hc, Hp, Ht.
    apply truthy_int_spec in Hz. rewrite Hz, Hk. cbn [negb andb].
    assert (Hlt : (clock w' + gap - fetchedAt <? Cache.CACHE_DURATION)%Z = true).
    { apply Z.ltb_lt. unfold Cache.CACHE_DURATION. lia. }
    rewrite Hlt. reflexivity. }
  unfold outcome, after.
  rewrite (fetchUserPlants_cached false x2 w2 _ Hhit). split; reflexivity.
Qed.

Lemma refresh_within_window_repeats_last_answer_witness :
  let x := Sample.answers
             {| Http.fetch_success := true;
                Http.fetch_data := Some [Sample.remote "x1" "a.jpg" 10 20] |} in
  let w1 := after (Api.fetchUserPlants false x) Sample.fresh in
  let w2 := Sample.with_plants [] (advance 119999 w1) in
  outcome (Api.fetchUserPlants false Sample.offline) w2 = Normal (cached_result [Sample.x1]) /\
  requests (after (Api.fetchUserPlants false Sample.offline) w2) = [fetch_request].
Proof.
  intros x w1 w2.
  apply (refresh_within_window_repeats_last_answer false x Sample.offline Sample.fresh
           {| Api.success := true; Api.data := [Sample.x1]; Api.error := None;
              Api.fromCache := Some false |}
           1700000000150 119999 eq_refl eq_refl eq_refl ltac:(discriminate) eq_refl
           w2 eq_refl eq_refl).
Defined.

(** X14.  [clearCache] empties the cache whatever it held, and the next refresh
    contacts the remote side even when it is not forced. *)
Theorem clearCache_forces_next_refresh (x : Http.Exchange Http.FetchBody) (w : World) :
  outcome Api.clearCache w = Normal tt /\
  cache_invalidated (after Api.clearCache w) /\
  plantsState (after Api.clearCache w) = plantsState w /\
  localStorage (after Api.clearCache w) = localStorage w /\
  console (after Api.clearCache w) = (console w ++ [ConsoleLog "API cache cleared"])%list /\
  requests (after (Api.fetchUserPlants false x) (after Api.clearCache w))
  = (requests w ++ [fetch_request])%list.
Proof.
  assert (Hinv : cache_invalidated (after Api.clearCache w)) by reflexivity.
  split; [reflexivity|]. split; [exact Hinv|]. split; [reflexivity|].
  split; [reflexivity|]. split; [reflexivity|].
  rewrite (refresh_after_invalidation x _ Hinv). reflexivity.
Qed.

(* ===================================================================== *)
(** ** App.jsx: what the store shows after start-up *)
(* ===================================================================== *)

(** [loadFromAPI] comes down to one [fetchUserPlants] and one
    [fetchPlantsSuccess]: with the fetched collection when the call
    succeeded and the collection is not empty, with [localPlants]
    otherwise. *)
Lemma loadFromAPI_run {json : JsonCodec} (localPlants : list Plant.t)
  (x : Http.Exchange Http.FetchBody) (w : World) :
  let w1 := set_plantsState
              (PlantsState.set_error None (PlantsState.set_loading true (plantsState w))) w in
  exists r w2,
    Api.fetchUserPlants false x w1 = (Normal r, w2) /\
    Components.loadFromAPI localPlants x w
    = PlantsSlice.fetchPlantsSuccess
        (if Api.success r && (0 <? length (Api.data r))%nat then Api.data r else localPlants)
        w2.
Proof.
  intros w1.
  destruct (fetchUserPlants_frame false x w1) as (r & w2 & Hrun & _).
  exists r, w2. split; [exact Hrun|].
  unfold Components.loadFromAPI, try_catch.
  unfold bind at 1.
  unfold PlantsSlice.fetchPlantsStart, bind at 1, PlantsSlice.assign, modify.
  set (w1' := set_plantsState _ (set_plantsState _ w)).
  change w1' with w1. clear w1'.
  unfold bind. rewrite Hrun.
  set (payload := if Api.success r && (0 <? length (Api.data r))%nat
                  then Api.data r else localPlants).
  assert (Hpick : (if Api.success r && (0 <? length (Api.data r))%nat
                   then PlantsSlice.fetchPlantsSuccess (Api.data r)
                   else PlantsSlice.fetchPlantsSuccess localPlants) w2
                  = PlantsSlice.fetchPlantsSuccess payload w2).
  { subst payload. destruct (Api.success r && (0 <? length (Api.data r))%nat); reflexivity. }
  rewrite Hpick.
  destruct (fetchPlantsSuccess_spec payload w2) as (S1 & _).
  unfold outcome in S1.
  destruct (PlantsSlice.fetchPlantsSuccess payload w2) as [c w3].
  simpl in S1. subst c. reflexivity.
Qed.

Lemma length_pos_not_nil {A : Type} (l : list A) : (0 <? length l)%nat = true <-> l <> [].
Proof.
  destruct l; simpl; split; intros H; try congruence; try reflexivity.
  discriminate H.
Qed.

(** After [loadFromAPI] the store shows [localPlants], or else a collection
    that is not empty and is the one the cache holds. *)
Lemma loadFromAPI_store {json : JsonCodec} (localPlants : list Plant.t)
  (x : Http.Exchange Http.FetchBody) (w : World) :
  let w' := after (Components.loadFromAPI localPlants x) w in
  outcome (Components.loadFromAPI localPlants x) w = Normal tt /\
  PlantsState.loading (plantsState w') = false /\
  (store_plants w' = localPlants \/
   (store_plants w' <> [] /\ Cache.plants (cache w') = Some (store_plants w'))) /\
  (store_accepts w (store_plants w') = true -> mirror w' = Some (mirror_text (store_plants w'))).
Proof.
  intros w'. subst w'.
  destruct (loadFromAPI_run localPlants x w) as (r & w2 & Hrun & Hload).
  set (w1 := set_plantsState _ w) in Hrun.
  destruct (fetchUserPlants_frame false x w1) as (r' & w2' & Hrun' & _ & F2 & _).
  rewrite Hrun in Hrun'. injection Hrun' as <- <-.
  destruct (fetchUserPlants_result false x w1) as (r' & w2' & Hrun' & Hs & _).
  rewrite Hrun in Hrun'. injection Hrun' as <- <-.
  unfold outcome, after. rewrite Hload.
  set (payload := if Api.success r && (0 <? length (Api.data r))%nat
                  then Api.data r else localPlants).
  destruct (fetchPlantsSuccess_spec payload w2) as (S1 & S2 & S3 & _ & _ & S6 & _).
  unfold outcome, after in S1, S2, S3, S6.
  destruct (PlantsSlice.fetchPlantsSuccess payload w2) as [c w3].
  simpl in *. subst c.
  assert (Hstore : store_plants w3 = payload).
  { unfold store_plants. rewrite S2. reflexivity. }
  split; [reflexivity|]. split; [rewrite S2; reflexivity|]. split.
  - rewrite Hstore. subst payload.
    destruct (Api.success r) eqn:Hsucc; [|left; reflexivity].
    destruct (0 <? length (Api.data r))%nat eqn:Hlen; [|left; reflexivity].
    right. simpl. split; [apply length_pos_not_nil, Hlen|].
    rewrite S3. apply (Hs eq_refl).
  - rewrite Hstore. intros Hacc.
    assert (Hacc2 : store_accepts w2 payload = true).
    { unfold store_accepts in *. rewrite F2. exact Hacc. }
    specialize (S6 Hacc2). unfold mirrors_store in S6. rewrite S6, Hstore. reflexivity.
Qed.

(** X15.  What [loadFromAPI] puts in the store, for every answer of the remote
    side: the fetched collection when the request succeeds with at least
    one record, and [localPlants] in every other case, also when the
    remote side answers with an empty collection.  The loading flag is
    cleared, no error is recorded, and the mirror is rewritten from what
    the store shows. *)
Theorem loadFromAPI_shows_remote_or_local {json : JsonCodec} (localPlants : list Plant.t)
  (x : Http.Exchange Http.FetchBody) (w : World) :
  let w' := after (Components.loadFromAPI localPlants x) w in
  outcome (Components.loadFromAPI localPlants x) w = Normal tt /\
  PlantsState.loading (plantsState w') = false /\
  (store_plants w' = localPlants \/
   (store_plants w' <> [] /\ Cache.plants (cache w') = Some (store_plants w'))) /\
  (store_accepts w (store_plants w') = true ->
   mirror w' = Some (mirror_text (store_plants w'))) /\
  (outcome (Api.cacheLookup false) w = Normal None ->
   store_plants w'
   = match Http.reply x with
     | Http.Resolved body =>
         if Http.fetch_success body
            && (0 <? length (default [] (Http.fetch_data body)))%nat
         then map Api.fetchedPlant (default [] (Http.fetch_data body))
         else localPlants
     | Http.Rejected _ => localPlants
     end).
Proof.
  intros w'.
  destruct (loadFromAPI_store localPlants x w) as (H1 & H2 & H3 & H4).
  split; [exact H1|]. split; [exact H2|]. split; [exact H3|]. split; [exact H4|].
  intros Hmiss. subst w'.
  destruct (loadFromAPI_run localPlants x w) as (r & w2 & Hrun & Hload).
  unfold after. rewrite Hload.
  destruct (fetchPlantsSuccess_spec
              (if Api.success r && (0 <? length (Api.data r))%nat
               then Api.data r else localPlants) w2) as (_ & S2 & _).
  unfold after in S2. unfold store_plants. rewrite S2. cbn [fetched PlantsState.plants
    PlantsState.set_loading PlantsState.set_plants].
  assert (Hmiss1 : outcome (Api.cacheLookup false)
                     (set_plantsState
                        (PlantsState.set_error None
                           (PlantsState.set_loading true (plantsState w))) w)
                   = Normal None).
  { rewrite <- Hmiss. apply cacheLookup_outcome_ext; reflexivity. }
  rewrite (fetchUserPlants_uncached false x _ Hmiss1) in Hrun. cbv zeta in Hrun.
  destruct (Http.reply x) as [body|e].
  - destruct (Http.fetch_success body); injection Hrun as <- _; simpl.
    + rewrite length_map. reflexivity.
    + reflexivity.
  - injection Hrun as <- _. reflexivity.
Qed.


(* ===================================================================== *)
(** ** utils/storage.js: writing, reading back and clearing the mirror *)
(* ===================================================================== *)

Lemma loadPlantsFromLocal_ext {json : JsonCodec} (w w1 : World) :
  localStorage w1 = localStorage w ->
  outcome Storage.loadPlantsFromLocal w1 = outcome Storage.loadPlantsFromLocal w.
Proof.
  intros H. unfold outcome. rewrite !loadPlantsFromLocal_run. unfold mirror. rewrite H.
  destruct (LocalStorage.blocked (localStorage w)); [reflexivity|].
  destruct (LocalStorage.items (localStorage w) !! Storage.STORAGE_KEY) as [s|];
    [|reflexivity].
  destruct (truthy_string s); [|reflexivity].
  destruct (JSON_parse s); reflexivity.
Qed.

(** X18.  [savePlantsToLocal] never throws and answers whether the write was
    taken.  A write that was taken is what [loadPlantsFromLocal] reads
    back, and it leaves the other keys of [localStorage] alone; a write
    that was refused leaves the mirror, and so what is read back, as it
    was. *)
Theorem savePlantsToLocal_then_load {json : JsonCodec} (ps : list Plant.t) (w : World) :
  let w1 := after (Storage.savePlantsToLocal ps) w in
  outcome (Storage.savePlantsToLocal ps) w = Normal (store_accepts w ps) /\
  (store_accepts w ps = true ->
   mirror w1 = Some (mirror_text ps) /\
   (forall k, k <> Storage.STORAGE_KEY ->
      LocalStorage.items (localStorage w1) !! k = LocalStorage.items (localStorage w) !! k) /\
   (forall v, mirror_text ps <> "" -> JSON_parse (mirror_text ps) = Some v ->
      Storage.loadPlantsFromLocal w1 = (Normal v, w1))) /\
  (store_accepts w ps = false ->
   localStorage w1 = localStorage w /\
   outcome Storage.loadPlantsFromLocal w1 = outcome Storage.loadPlantsFromLocal w).
Proof.
  intros w1. subst w1. unfold outcome at 1, after.
  destruct (store_accepts w ps) eqn:Hacc.
  - rewrite (savePlantsToLocal_accepted ps w Hacc). cbn [fst snd].
    split; [reflexivity|]. split; [|intros H; discriminate H]. intros _.
    assert (Hb : LocalStorage.blocked (localStorage w) = false).
    { unfold store_accepts, LocalStorage.accepts in Hacc.
      apply andb_true_iff in Hacc as [Hb _]. apply negb_true_iff in Hb. exact Hb. }
    split; [apply mirror_written|]. split.
    + intros k Hk. simpl. apply lookup_insert_ne. congruence.
    + intros v Hne Hparse. rewrite loadPlantsFromLocal_run.
      rewrite mirror_written. cbn [localStorage set_localStorage written LocalStorage.blocked].
      rewrite Hb. apply truthy_string_spec in Hne. rewrite Hne, Hparse. reflexivity.
  - destruct (savePlantsToLocal_refused ps w Hacc) as [e ->]. cbn [fst snd].
    split; [reflexivity|]. split; [intros H; discriminate H|]. intros _.
    split; [reflexivity|]. apply loadPlantsFromLocal_ext. reflexivity.
Qed.

Lemma savePlantsToLocal_then_load_witness :
  let ps := [Sample.x2; Sample.x1] in
  let w1 := after (@Storage.savePlantsToLocal sample_json ps) Sample.fresh in
  outcome (@Storage.savePlantsToLocal sample_json ps) Sample.fresh = Normal true /\
  @Storage.loadPlantsFromLocal sample_json w1 = (Normal (Plant.list_to_json ps), w1).
Proof.
  intros ps w1.
  destruct (@savePlantsToLocal_then_load sample_json ps Sample.fresh) as (H1 & H2 & _).
  split; [exact H1|].
  destruct (H2 ltac:(vm_compute; reflexivity)) as (_ & _ & H3).
  apply H3; [vm_compute; discriminate | vm_compute; reflexivity].
Defined.

Lemma clearLocalStorage_run {json : JsonCodec} (w : World) :
  Storage.clearLocalStorage w =
  if LocalStorage.blocked (localStorage w) then
    (Normal false,
     set_console
       (console w ++ [ConsoleError "Failed to clear localStorage:"
                        (DOMException "SecurityError" "The operation is insecure.")]) w)
  else
    (Normal true,
     set_localStorage
       (LocalStorage.mk (delete Storage.STORAGE_KEY (LocalStorage.items (localStorage w)))
                        (LocalStorage.quota (localStorage w))
                        (LocalStorage.blocked (localStorage w))) w).
Proof.
  unfold Storage.clearLocalStorage, try_catch, bind, localStorage_removeItem.
  destruct (LocalStorage.blocked (localStorage w)); reflexivity.
Qed.

(** X19.  [clearLocalStorage] never throws and answers whether the mirror was
    removed.  It removes the mirror and nothing else: the other keys, the
    collection held in the store and the cache stay as they were, so the
    next deletion dispatched writes the whole remaining collection back.
    Reading the cleared mirror gives an empty collection and logs
    nothing. *)
Theorem clearLocalStorage_removes_only_the_mirror {json : JsonCodec} (w : World) :
  let w1 := after Storage.clearLocalStorage w in
  outcome Storage.clearLocalStorage w
  = Normal (negb (LocalStorage.blocked (localStorage w))) /\
  plantsState w1 = plantsState w /\
  cache w1 = cache w /\
  (LocalStorage.blocked (localStorage w) = true -> localStorage w1 = localStorage w) /\
  (LocalStorage.blocked (localStorage w) = false ->
   mirror w1 = None /\
   (forall k, k <> Storage.STORAGE_KEY ->
      LocalStorage.items (localStorage w1) !! k = LocalStorage.items (localStorage w) !! k) /\
   Storage.loadPlantsFromLocal w1 = (Normal (JArr []), w1) /\
   (forall plantId,
      store_accepts w1 (without plantId (store_plants w)) = true ->
      mirror (after (PlantsSlice.deletePlantSuccess plantId) w1)
      = Some (mirror_text (without plantId (store_plants w))))).
Proof.
  intros w1. subst w1. unfold outcome, after. rewrite clearLocalStorage_run.
  destruct (LocalStorage.blocked (localStorage w)) eqn:Hb; cbn [fst snd negb].
  - split; [reflexivity|]. split; [reflexivity|]. split; [reflexivity|].
    split; [reflexivity | intros H; discriminate H].
  - split; [reflexivity|]. split; [reflexivity|]. split; [reflexivity|].
    split; [intros H; discriminate H|]. intros _.
    set (w1 := set_localStorage _ w).
    assert (Hm : mirror w1 = None) by apply lookup_delete_eq.
    split; [exact Hm|]. split.
    + intros k Hk. simpl. apply lookup_delete_ne. congruence.
    + split.
      * apply loadPlantsFromLocal_absent_is_silent; [reflexivity | exact Hm].
      * intros plantId Hacc.
        destruct (deletePlantSuccess_spec plantId w1) as (_ & D2 & D3 & _).
        change (store_plants w1) with (store_plants w) in D2, D3.
        specialize (D3 Hacc). unfold mirrors_store, after in D2, D3.
        rewrite D3, D2. reflexivity.
Qed.

Lemma clearLocalStorage_removes_only_the_mirror_witness :
  let w := Sample.with_mirror "[]" (Sample.with_plants [Sample.x2; Sample.x1] Sample.fresh) in
  let w1 := after Storage.clearLocalStorage w in
  mirror w1 = None /\
  store_plants w1 = [Sample.x2; Sample.x1] /\
  mirror (after (@PlantsSlice.deletePlantSuccess sample_json (Some "x1")) w1)
  = Some (@mirror_text sample_json [Sample.x2]).
Proof.
  intros w w1.
  destruct (@clearLocalStorage_removes_only_the_mirror sample_json w) as (_ & _ & _ & _ & H).
  destruct (H eq_refl) as (H1 & _ & _ & H4).
  split; [exact H1|]. split; [reflexivity|].
  apply (H4 (Some "x1")). vm_compute. reflexivity.
Defined.

(* ===================================================================== *)
(** ** helpers.js: filterPlants *)
(* ===================================================================== *)

Lemma filter_throwing_total {A : Type} (keep : A -> Completion bool) (f : A -> bool)
  (l : list A) :
  (forall a, In a l -> keep a = Normal (f a)) ->
  Helpers.filter_throwing keep l = Normal (List.filter f l).
Proof.
  induction l as [|a l IH]; intros H; [reflexivity|].
  simpl. rewrite (H a (or_introl eq_refl)), IH by (intros b Hb; apply H; right; exact Hb).
  destruct (f a); reflexivity.
Qed.

Lemma filter_throwing_throws {A : Type} (keep : A -> Completion bool) (l : list A) :
  completes (Helpers.filter_throwing keep l) = false
  <-> exists a, In a l /\ completes (keep a) = false.
Proof.
  induction l as [|a l IH]; simpl.
  - split; [discriminate | intros (a & [] & _)].
  - destruct (keep a) as [b|e] eqn:Ea.
    + destruct (Helpers.filter_throwing keep l) as [kept|e]; simpl in *.
      * split; [discriminate|]. intros (a' & [<-|Hin] & Ha').
        -- rewrite Ea in Ha'. discriminate Ha'.
        -- apply IH. exists a'. auto.
      * split; [|reflexivity]. intros _.
        destruct (proj1 IH eq_refl) as (a' & Hin & Ha'). exists a'. auto.
    + split; [|reflexivity]. intros _. exists a. rewrite Ea. auto.
Qed.

Lemma filter_filter_same {A : Type} (f : A -> bool) (l : list A) :
  List.filter f (List.filter f l) = List.filter f l.
Proof.
  induction l as [|a l IH]; [reflexivity|]. simpl.
  destruct (f a) eqn:E; simpl; rewrite ?E, IH; reflexivity.
Qed.

Lemma nameMatches_named (toLowerCase : string -> string) (term : string) (p : Plant.t) :
  Plant.imageName p <> None ->
  Helpers.nameMatches toLowerCase (toLowerCase term) p
  = Normal (named_like toLowerCase term p).
Proof.
  unfold Helpers.nameMatches, named_like.
  destruct (Plant.imageName p); [reflexivity | congruence].
Qed.

(** X20.  A search with an empty or missing term returns the collection as it
    is.  With a term, the search keeps, in order, the records whose name
    contains the term, both in lower case, provided every record has a
    name; one record without a name makes the search throw, whichever
    term is searched for.  Searching the result again changes nothing. *)
Theorem filterPlants_needs_every_record_named (toLowerCase : string -> string)
  (plants : list Plant.t) (searchTerm : option string) :
  let result := Helpers.filterPlants toLowerCase plants searchTerm in
  (truthy_opt truthy_string searchTerm = false -> result = Normal plants) /\
  (forall term, searchTerm = Some term -> term <> "" ->
     ((forall p, In p plants -> Plant.imageName p <> None) ->
      result = Normal (List.filter (named_like toLowerCase term) plants)) /\
     ((exists p, In p plants /\ Plant.imageName p = None) -> completes result = false)) /\
  (forall kept, result = Normal kept ->
     Helpers.filterPlants toLowerCase kept searchTerm = Normal kept).
Proof.
  intros result. subst result.
  assert (Hthrows : forall term l,
            completes (Helpers.filter_throwing
                         (Helpers.nameMatches toLowerCase (toLowerCase term)) l) = false
            <-> exists p, In p l /\ Plant.imageName p = None).
  { intros term l. rewrite filter_throwing_throws.
    split; intros (p & Hin & Hp); exists p; (split; [exact Hin|]);
      unfold Helpers.nameMatches in *; destruct (Plant.imageName p);
      try reflexivity; try discriminate. }
  split; [|split].
  - unfold Helpers.filterPlants. destruct searchTerm as [s|]; [|reflexivity].
    simpl. intros ->. reflexivity.
  - intros term -> Hne. apply truthy_string_spec in Hne.
    unfold Helpers.filterPlants. rewrite Hne. split.
    + intros Hnamed. apply filter_throwing_total.
      intros p Hin. apply nameMatches_named, Hnamed, Hin.
    + intros Hex. apply Hthrows, Hex.
  - intros kept Hres. unfold Helpers.filterPlants in *.
    destruct searchTerm as [term|]; [|injection Hres as <-; reflexivity].
    destruct (truthy_string term); [|injection Hres as <-; reflexivity].
    assert (Hnamed : forall p, In p plants -> Plant.imageName p <> None).
    { intros p Hin Hp.
      assert (Hc : completes (Helpers.filter_throwing
                                (Helpers.nameMatches toLowerCase (toLowerCase term)) plants)
                   = false) by (apply Hthrows; exists p; auto).
      rewrite Hres in Hc. discriminate Hc. }
    rewrite (filter_throwing_total _ (named_like toLowerCase term)) in Hres
      by (intros p Hin; apply nameMatches_named, Hnamed, Hin).
    injection Hres as <-.
    rewrite (filter_throwing_total _ (named_like toLowerCase term)).
    + rewrite filter_filter_same. reflexivity.
    + intros p Hin. apply nameMatches_named, Hnamed.
      apply filter_In in Hin. apply Hin.
Qed.

Lemma filterPlants_needs_every_record_named_witness :
  let unnamed := {| Plant.id := Some "x4"; Plant.imageName := None; Plant.imageUrl := None;
                    Plant.latitude := None; Plant.longitude := None;
                    Plant.uploadedAt := None |} in
  Helpers.filterPlants lowercase [Sample.x1; Sample.x2; Sample.x3] (Some "B.JPG")
  = Normal [Sample.x2] /\
  completes (Helpers.filterPlants lowercase [Sample.x1; unnamed] (Some "a")) = false.
Proof.
  intros unnamed.
  destruct (filterPlants_needs_every_record_named lowercase [Sample.x1; Sample.x2; Sample.x3]
              (Some "B.JPG")) as (_ & H & _).
  destruct (filterPlants_needs_every_record_named lowercase [Sample.x1; unnamed] (Some "a"))
    as (_ & H' & _).
  split.
  - apply (H "B.JPG" eq_refl); [discriminate|].
    intros p [<-|[<-|[<-|[]]]]; discriminate.
  - apply (H' "a" eq_refl); [discriminate|].
    exists unnamed. split; [right; left; reflexivity | reflexivity].
Defined.

(* ===================================================================== *)
(** ** ImageUpload.jsx: the list of selected files *)
(* ===================================================================== *)

Lemma sameFile_sym (f g : File.t) : ImageUpload.sameFile f g = ImageUpload.sameFile g f.
Proof.
  unfold ImageUpload.sameFile. rewrite String.eqb_sym, Z.eqb_sym. reflexivity.
Qed.

Lemma distinct_app (a b : list File.t) :
  distinct (a ++ b)
  <-> distinct a /\ distinct b /\
      forall f g, In f a -> In g b -> ImageUpload.sameFile f g = false.
Proof.
  induction a as [|x a IH]; simpl.
  - split; [intros H; repeat split; [exact H | intros f g []] | intros (_ & H & _); exact H].
  - rewrite IH. split.
    + intros (Hx & Ha & Hb & Hab). repeat split; auto.
      * intros g Hg. apply Hx, in_or_app. left. exact Hg.
      * intros f g [<-|Hf] Hg; [apply Hx, in_or_app; right; exact Hg | apply Hab; assumption].
    + intros ((Hx & Ha) & Hb & Hab). repeat split; auto.
      intros g Hg. apply in_app_or in Hg as [Hg|Hg]; [apply Hx, Hg | apply Hab; auto].
Qed.

Lemma distinct_filter (p : File.t -> bool) (l : list File.t) :
  distinct l -> distinct (List.filter p l).
Proof.
  induction l as [|x l IH]; simpl; [trivial|]. intros (Hx & Hl).
  destruct (p x); simpl; [|apply IH, Hl]. split; [|apply IH, Hl].
  intros g Hg. apply filter_In in Hg. apply Hx, Hg.
Qed.

Lemma filter_length_lt {A : Type} (p : A -> bool) (l : list A) :
  (length (List.filter p l) <? length l)%nat = true <-> exists a, In a l /\ p a = false.
Proof.
  rewrite Nat.ltb_lt. induction l as [|a l IH]; simpl.
  - split; [lia | intros (a & [] & _)].
  - pose proof (filter_length_le p l) as Hle.
    destruct (p a) eqn:E; simpl.
    + rewrite <- Nat.succ_lt_mono, IH. split.
      * intros (b & Hb & Hp). exists b. auto.
      * intros (b & [<-|Hb] & Hp); [congruence | exists b; auto].
    + split; [|lia]. intros _. exists a. auto.
Qed.

(** X21.  [handleFilesSelected], called on the list the component shows, appends
    the selected files that are not yet in the list, by name and size, and
    drops the others, so every selected file is in the list afterwards.
    The notice is shown exactly when a selected file was already there, and
    one error toast is shown for each entry of [errors].  A list without
    two files of the same name and size stays so, provided the selection
    itself has no such pair.  After a drop, a list of files that pass the
    checks of [uploadToCloudinary] is still such a list. *)
Theorem handleFilesSelected_adds_each_new_file (files selectedFiles : list File.t)
  (errors : list UploadZone.Rejection) :
  let picked := ImageUpload.handleFilesSelected files files selectedFiles errors in
  (exists added,
     ImageUpload.selection picked = (files ++ added)%list /\
     forall f, In f added
               <-> In f selectedFiles /\
                   forall g, In g files -> ImageUpload.sameFile g f = false) /\
  (forall f, In f selectedFiles ->
             exists g, In g (ImageUpload.selection picked) /\ ImageUpload.sameFile g f = true) /\
  (ImageUpload.notice picked = true
   <-> exists f g, In f selectedFiles /\ In g files /\ ImageUpload.sameFile g f = true) /\
  length (ImageUpload.errorToasts picked) = length errors /\
  (distinct files -> distinct selectedFiles -> distinct (ImageUpload.selection picked)) /\
  (forall acceptedFiles rejectedFiles,
     (forall f, In f files -> Cloudinary.rejection f = None) ->
     forall f, In f (ImageUpload.selection (ImageUpload.drop files acceptedFiles rejectedFiles)) ->
               Cloudinary.rejection f = None).
Proof.
  intros picked.
  assert (Hnew : forall selected f,
            In f (ImageUpload.newFiles files selected)
            <-> In f selected /\
                forall g, In g files -> ImageUpload.sameFile g f = false).
  { intros selected f. unfold ImageUpload.newFiles. rewrite filter_In, negb_true_iff.
    split; intros (Hin & H); (split; [exact Hin|]).
    - intros g Hg. destruct (ImageUpload.sameFile g f) eqn:E; [|reflexivity].
      assert (Hex : existsb (fun f0 => ImageUpload.sameFile f0 f) files = true)
        by (apply existsb_exists; exists g; auto).
      congruence.
    - destruct (existsb _ files) eqn:E; [|reflexivity].
      apply existsb_exists in E as (g & Hg & Hs). rewrite (H g Hg) in Hs. discriminate Hs. }
  assert (Hfiles : forall selected errs,
            ImageUpload.selection (ImageUpload.handleFilesSelected files files selected errs)
            = (files ++ ImageUpload.newFiles files selected)%list).
  { intros selected errs. unfold ImageUpload.handleFilesSelected.
    destruct selected; [symmetry; apply app_nil_r | reflexivity]. }
  assert (Hnotice : ImageUpload.notice picked
                    = (length (ImageUpload.newFiles files selectedFiles)
                       <? length selectedFiles)%nat).
  { subst picked. unfold ImageUpload.handleFilesSelected.
    destruct selectedFiles; reflexivity. }
  split; [|split; [|split; [|split; [|split]]]].
  - exists (ImageUpload.newFiles files selectedFiles).
    split; [apply Hfiles | apply Hnew].
  - intros f Hf. subst picked. rewrite Hfiles.
    destruct (existsb (fun g => ImageUpload.sameFile g f) files) eqn:E.
    + apply existsb_exists in E as (g & Hg & Hs). exists g. split; [|exact Hs].
      apply in_or_app. left. exact Hg.
    + exists f. split.
      * apply in_or_app. right. apply Hnew. split; [exact Hf|].
        intros g Hg. destruct (ImageUpload.sameFile g f) eqn:Es; [|reflexivity].
        assert (Hex : existsb (fun g0 => ImageUpload.sameFile g0 f) files = true)
          by (apply existsb_exists; exists g; auto).
        congruence.
      * unfold ImageUpload.sameFile. rewrite String.eqb_refl, Z.eqb_refl. reflexivity.
  - rewrite Hnotice. unfold ImageUpload.newFiles. rewrite filter_length_lt.
    split.
    + intros (f & Hf & Hp). apply negb_false_iff, existsb_exists in Hp as (g & Hg & Hs).
      exists f, g. auto.
    + intros (f & g & Hf & Hg & Hs). exists f. split; [exact Hf|].
      apply negb_false_iff, existsb_exists. exists g. auto.
  - subst picked. unfold ImageUpload.handleFilesSelected.
    destruct selectedFiles; apply length_map.
  - intros Hd Hs. subst picked. rewrite Hfiles. apply distinct_app. split; [exact Hd|]. split.
    + apply distinct_filter, Hs.
    + intros f g Hf Hg. apply Hnew in Hg. apply Hg, Hf.
  - intros acceptedFiles rejectedFiles Hok f. unfold ImageUpload.drop. rewrite Hfiles.
    intros Hin. apply in_app_or in Hin as [Hin|Hin]; [apply Hok, Hin|].
    apply Hnew in Hin as (Hin & _). simpl in Hin. apply filter_In in Hin as (_ & Hv).
    apply rejection_none_iff. apply validateImage_valid_iff, Hv.
Qed.

Lemma handleFilesSelected_adds_each_new_file_witness :
  let a := {| File.name := "a.jpg"; File.size := 100; File.type := "image/jpeg" |} in
  let b := {| File.name := "b.jpg"; File.size := 200; File.type := "image/jpeg" |} in
  let a' := {| File.name := "a.jpg"; File.size := 101; File.type := "image/jpeg" |} in
  ImageUpload.handleFilesSelected [a] [a] [a; b; a'] []
  = {| ImageUpload.selection := [a; b; a']; ImageUpload.errorToasts := [];
       ImageUpload.notice := true |} /\
  distinct (ImageUpload.selection (ImageUpload.handleFilesSelected [a] [a] [a; b; a'] [])).
Proof.
  intros a b a'.
  destruct (handleFilesSelected_adds_each_new_file [a] [a; b; a'] [])
    as (_ & _ & _ & _ & H & _).
  split; [reflexivity|].
  apply H; simpl; repeat split; intros g Hg;
    repeat (destruct Hg as [<-|Hg]; [reflexivity|]); destruct Hg.
Defined.

(* ===================================================================== *)
(** ** plantsSlice.js: the mirror along a run of actions *)
(* ===================================================================== *)

Lemma dispatch_step {json : JsonCodec} (action : Action) (w : World) :
  let w1 := after (dispatch action) w in
  outcome (dispatch action) w = Normal tt /\
  store_plants w1 = reduce_plants action (store_plants w) /\
  cache w1 = cache w /\
  requests w1 = requests w /\
  toasts w1 = toasts w /\
  (persists action = false -> localStorage w1 = localStorage w) /\
  (persists action = true ->
   store_accepts w (reduce_plants action (store_plants w)) = true -> mirrors_store w1).
Proof.
  assert (Hp : forall s,
            persists action = true ->
            reduce_plants action (store_plants w) = PlantsState.plants s ->
            dispatch action w = PlantsSlice.persist (set_plantsState s w) ->
            let w1 := after (dispatch action) w in
            outcome (dispatch action) w = Normal tt /\
            store_plants w1 = reduce_plants action (store_plants w) /\
            cache w1 = cache w /\
            requests w1 = requests w /\
            toasts w1 = toasts w /\
            (persists action = false -> localStorage w1 = localStorage w) /\
            (persists action = true ->
             store_accepts w (reduce_plants action (store_plants w)) = true ->
             mirrors_store w1)).
  { intros s Hpa Hs Hrun w1. subst w1. unfold outcome, after. rewrite Hrun, Hs.
    destruct (assign_then_persist s w) as (A1 & A2 & A3 & A4 & A5 & _ & A7 & A8).
    unfold outcome, after in A1, A2, A3, A4, A5, A7, A8.
    split; [exact A1|]. split; [unfold store_plants; rewrite A2; reflexivity|].
    split; [exact A3|]. split; [exact A4|]. split; [exact A5|].
    split; [intros Hn; congruence | intros _; exact A7]. }
  destruct action;
    try (repeat split; intros H; discriminate H).
  - apply (Hp (uploaded payload (plantsState w))); [reflexivity | reflexivity | apply uploadSuccess_run].
  - apply (Hp (fetched payload (plantsState w))); [reflexivity | reflexivity | apply fetchPlantsSuccess_run].
  - apply (Hp (deleted payload (plantsState w))); [reflexivity | reflexivity | apply deletePlantSuccess_run].
Qed.

(** X23.  Along any run of actions the reducers never throw, never touch the
    cache and never send a request; the collection is the one the three
    persisting actions build; and when [localStorage] takes every write,
    the mirror holds the serialised collection at the end of the run,
    provided it did at the start or the run has a persisting action. *)
Theorem mirror_follows_store_along_any_run {json : JsonCodec} (actions : list Action)
  (w : World) :
  let w' := after (dispatchAll actions) w in
  outcome (dispatchAll actions) w = Normal tt /\
  store_plants w' = fold_left (fun ps action => reduce_plants action ps) actions
                              (store_plants w) /\
  cache w' = cache w /\
  requests w' = requests w /\
  (writes_taken actions w ->
   mirrors_store w \/ existsb persists actions = true ->
   mirrors_store w').
Proof.
  revert w. induction actions as [|action rest IH]; intros w w'.
  - subst w'. repeat split. intros _ [H|H]; [exact H | discriminate H].
  - subst w'. destruct (dispatch_step action w) as (S1 & S2 & S3 & S4 & _ & S6 & S7).
    destruct (IH (after (dispatch action) w)) as (I1 & I2 & I3 & I4 & I5).
    assert (Hrun : dispatchAll (action :: rest) w
                   = dispatchAll rest (after (dispatch action) w)).
    { simpl. unfold bind. unfold outcome, after in *.
      destruct (dispatch action w) as [c w1]. simpl in S1. subst c. reflexivity. }
    unfold outcome, after in *. rewrite Hrun.
    split; [exact I1|]. split; [rewrite I2, S2; reflexivity|].
    split; [congruence|]. split; [congruence|].
    intros (Hw & Hrest) Hstart. apply I5; [exact Hrest|].
    destruct (persists action) eqn:Hpa.
    + left. apply S7; [reflexivity | apply Hw; reflexivity].
    + destruct Hstart as [Hm|He].
      * left. unfold mirrors_store, mirror in *. rewrite (S6 eq_refl), S2.
        rewrite Hm. destruct action; try discriminate Hpa; reflexivity.
      * right. simpl in He. rewrite Hpa in He. exact He.
Qed.

Lemma mirror_follows_store_along_any_run_witness :
  let actions := [FetchPlantsStart; FetchPlantsSuccess [Sample.x2; Sample.x1];
                  UploadStart "c.jpg"; UploadSuccess Sample.x3; SetFilters None (Some "a");
                  DeletePlantSuccess (Some "x2"); ClearError] in
  let w' := after (@dispatchAll sample_json actions) Sample.fresh in
  store_plants w' = [Sample.x3; Sample.x1] /\
  mirror w' = Some (@mirror_text sample_json [Sample.x3; Sample.x1]).
Proof.
  intros actions w'.
  destruct (@mirror_follows_store_along_any_run sample_json actions Sample.fresh)
    as (_ & H2 & _ & _ & H5).
  split; [exact H2|].
  assert (Hm : @mirrors_store sample_json w').
  { apply H5; [|right; reflexivity].
    simpl. repeat split; intros; vm_compute; reflexivity. }
  unfold mirrors_store in Hm. rewrite Hm. f_equal.
Defined.

(* ===================================================================== *)
(** ** PlantCard.jsx, FarmMap.jsx: what a deletion asks of the remote side *)
(* ===================================================================== *)

Lemma handleDelete_confirmed_run {json : JsonCodec} (plant : Plant.t)
  (x : Http.Exchange Http.DeleteBody) (w : World) :
  let w1 := set_plantsState (PlantsState.set_loading true (plantsState w)) w in
  let w2 := after (Api.deletePlantData (Plant.id plant) x) w1 in
  let w3 := after PlantsSlice.persist
                  (set_plantsState (deleted (Plant.id plant) (plantsState w2)) w2) in
  Components.handleDelete plant true x w
  = (Normal tt, set_toasts (toasts w3 ++ [ToastSuccess "Plant deleted successfully"]) w3).
Proof.
  intros w1 w2 w3. subst w3 w2. unfold after.
  unfold Components.handleDelete. change (negb true) with false. cbv iota.
  unfold PlantsSlice.deletePlantStart, PlantsSlice.assign, modify, try_catch, bind.
  cbv beta. fold w1.
  destruct (deletePlantData_frame (Plant.id plant) x w1) as (r & w2 & -> & _).
  rewrite deletePlantSuccess_run. cbn [snd].
  destruct (assign_then_persist (deleted (Plant.id plant) (plantsState w2)) w2) as (A1 & _).
  unfold outcome in A1.
  destruct (PlantsSlice.persist _) as [c w3]. simpl in A1. subst c. reflexivity.
Qed.

(** X24.  A deletion the user declines changes nothing.  A confirmed one sends
    exactly one request, [DELETE /delete-plant/<id>], clears the loading
    flag whatever the answer, and leaves the cache invalidated unless the
    remote side answered that it did not delete.  The handler of the map
    view does the same. *)
Theorem handleDelete_sends_one_request {json : JsonCodec} (plant : Plant.t)
  (x : Http.Exchange Http.DeleteBody) (w : World) :
  let w' := after (Components.handleDelete plant true x) w in
  Components.handleDelete plant false x w = (Normal tt, w) /\
  Components.handleDeletePlant plant false x w = (Normal tt, w) /\
  Components.handleDeletePlant plant true x w = Components.handleDelete plant true x w /\
  requests w' = (requests w ++ [delete_request (Plant.id plant)])%list /\
  PlantsState.loading (plantsState w') = false /\
  PlantsState.error (plantsState w') = PlantsState.error (plantsState w) /\
  cache w'
  = match Http.reply x with
    | Http.Resolved body =>
        if Http.delete_success body
        then {| Cache.plants := None; Cache.timestamp := None |}
        else cache w
    | Http.Rejected _ => {| Cache.plants := None; Cache.timestamp := None |}
    end.
Proof.
  intros w'. do 3 (split; [reflexivity|]).
  subst w'. unfold after at 1 2 3 4. rewrite handleDelete_confirmed_run. cbv zeta.
  set (w1 := set_plantsState (PlantsState.set_loading true (plantsState w)) w).
  pose proof (deletePlantData_cache (Plant.id plant) x w1) as Hc.
  destruct (deletePlantData_frame (Plant.id plant) x w1) as (r & w2' & Hrun & Hps & _).
  assert (Hreq : requests (after (Api.deletePlantData (Plant.id plant) x) w1)
                 = (requests w ++ [delete_request (Plant.id plant)])%list).
  { unfold after. rewrite deletePlantData_run. cbv zeta.
    destruct (Http.reply x) as [body|e]; [destruct (Http.delete_success body)|];
      reflexivity. }
  assert (Hst : plantsState (after (Api.deletePlantData (Plant.id plant) x) w1)
                = plantsState w1).
  { unfold after. rewrite Hrun. exact Hps. }
  set (w2 := after (Api.deletePlantData (Plant.id plant) x) w1) in *.
  destruct (assign_then_persist (deleted (Plant.id plant) (plantsState w2)) w2)
    as (_ & A2 & A3 & A4 & _).
  cbn [snd requests plantsState cache set_toasts].
  rewrite A2, A3, A4, Hreq, Hc, Hst. repeat split.
Qed.

(* ===================================================================== *)
(** ** services/api.js: the retry interceptor *)
(* ===================================================================== *)

(** Closes a branch in which the call has settled; [T] is what the last
    attempt gave. *)
Ltac settled T :=
  eexists; split; [reflexivity|]; split; [reflexivity|]; cbn; rewrite T;
  repeat split; try lia; eauto;
  try (intros i Hlt; assert (i = 0%nat) as -> by lia; assumption).

(** X25.  A call is attempted at most three times and waits at most three
    seconds between its attempts: following three attempts is enough to
    see it settle, and more fuel changes nothing.  Every attempt before the
    last was a time-out of a request with its [config]; the caller gets the
    response of the last attempt, or its error when it is not a time-out or
    was the third attempt. *)
Theorem retry_interceptor_settles_within_three_attempts {Body : Type}
  (transport : nat -> Interceptor.Attempt Body) (fuel : nat) :
  (3 <= fuel)%nat ->
  exists s,
    Interceptor.call fuel transport = Some s /\
    Interceptor.call 3 transport = Some s /\
    (1 <= Interceptor.attempts s <= 3)%nat /\
    Interceptor.waited s
    = match Interceptor.attempts s with
      | 1%nat => 0%Z
      | 2%nat => 1000%Z
      | _ => 3000%Z
      end /\
    length (Interceptor.logged s) = (Interceptor.attempts s - 1)%nat /\
    (forall i, (S i < Interceptor.attempts s)%nat ->
               Interceptor.retried (transport i) = true) /\
    match transport (Interceptor.attempts s - 1)%nat with
    | Interceptor.Responds body => Interceptor.reply s = Http.Resolved body
    | Interceptor.Fails true code e =>
        Interceptor.reply s = Http.Rejected e /\
        (Interceptor.timedOut code = false \/ Interceptor.attempts s = 3%nat)
    | Interceptor.Fails false _ _ => exists e, Interceptor.reply s = Http.Rejected e
    end.
Proof.
  intros Hfuel.
  destruct fuel as [|[|[|fuel]]]; try lia. clear Hfuel.
  unfold Interceptor.call. cbn [Interceptor.send].
  destruct (transport 0%nat) as [b0|[|] c0 e0] eqn:T0; [settled T0| |settled T0].
  cbn [Interceptor.retryCount or_default]. change (0 <? Interceptor.MAX_RETRIES)%Z with true.
  cbn [andb].
  destruct (Interceptor.timedOut c0) eqn:C0; [|settled T0].
  assert (R0 : Interceptor.retried (transport 0%nat) = true) by (rewrite T0; exact C0).
  destruct (transport 1%nat) as [b1|[|] c1 e1] eqn:T1; [settled T1| |settled T1].
  change (Interceptor.retryCount (Some (0 + 1)%Z)) with 1%Z.
  change (1 <? Interceptor.MAX_RETRIES)%Z with true. cbn [andb].
  destruct (Interceptor.timedOut c1) eqn:C1; [|settled T1].
  assert (R1 : Interceptor.retried (transport 1%nat) = true) by (rewrite T1; exact C1).
  assert (Hlt2 : forall i, (S i < 3)%nat -> Interceptor.retried (transport i) = true).
  { intros i Hlt. assert (i = 0 \/ i = 1)%nat as [-> | ->] by lia; assumption. }
  destruct (transport 2%nat) as [b2|[|] c2 e2] eqn:T2; [settled T2| |settled T2].
  change (Interceptor.retryCount (Some (1 + 1)%Z)) with 2%Z.
  change (2 <? Interceptor.MAX_RETRIES)%Z with false. cbn [andb].
  settled T2.
Qed.

Lemma retry_interceptor_settles_within_three_attempts_witness :
  let timeout := {| Js.name := "AxiosError"; Js.message := Some "timeout of 10000ms exceeded";
                    Js.response := None; Js.request := true |} in
  let transport := fun n : nat =>
    match n with
    | 0%nat | 1%nat => Interceptor.Fails true (Some "ECONNABORTED") timeout
    | _ => Interceptor.Responds "ok"
    end in
  Interceptor.call 5 transport
  = Some {| Interceptor.reply := Http.Resolved "ok"; Interceptor.attempts := 3;
            Interceptor.waited := 3000;
            Interceptor.logged := [ConsoleLog "Retrying request... Attempt 1";
                                   ConsoleLog "Retrying request... Attempt 2"] |}.
Proof.
  intros timeout transport.
  destruct (retry_interceptor_settles_within_three_attempts transport 5 ltac:(lia))
    as (s & H1 & H2 & _).
  rewrite H1, <- H2. reflexivity.
Defined.

(* ===================================================================== *)
(** ** ImageUpload.jsx: removing a file from the selection *)
(* ===================================================================== *)

(** X22.  [handleRemoveFile] goes by the name alone, while [handleFilesSelected]
    tells files apart by name and size: two files of the same name and
    different sizes both get into the list, and removing one of them removes
    both.  The files of other names stay, in their order. *)
Theorem handleRemoveFile_removes_by_name_alone (files : list File.t) (fileName : string) :
  (forall f, In f (ImageUpload.handleRemoveFile files fileName)
             <-> In f files /\ File.name f <> fileName) /\
  ((forall f, In f files -> File.name f <> fileName) ->
   ImageUpload.handleRemoveFile files fileName = files) /\
  (forall a a',
     File.name a = fileName -> File.name a' = fileName -> File.size a <> File.size a' ->
     ImageUpload.selection (ImageUpload.handleFilesSelected [a] [a] [a'] []) = [a; a'] /\
     ImageUpload.handleRemoveFile [a; a'] fileName = []).
Proof.
  split; [|split].
  - intros f. unfold ImageUpload.handleRemoveFile. rewrite filter_In, negb_true_iff.
    rewrite String.eqb_neq. reflexivity.
  - induction files as [|f files IH]; intros H; [reflexivity|].
    simpl. assert (Hf : String.eqb (File.name f) fileName = false).
    { apply String.eqb_neq, H. left. reflexivity. }
    rewrite Hf. simpl. f_equal. apply IH. intros g Hg. apply H. right. exact Hg.
  - intros a a' Ha Ha' Hsize. split.
    + unfold ImageUpload.handleFilesSelected, ImageUpload.newFiles, ImageUpload.sameFile.
      simpl. rewrite Ha, Ha', String.eqb_refl.
      apply Z.eqb_neq in Hsize. rewrite Hsize. reflexivity.
    + unfold ImageUpload.handleRemoveFile. simpl.
      rewrite Ha, Ha', String.eqb_refl. reflexivity.
Qed.

Lemma handleRemoveFile_removes_by_name_alone_witness :
  let a := {| File.name := "a.jpg"; File.size := 100; File.type := "image/jpeg" |} in
  let a' := {| File.name := "a.jpg"; File.size := 101; File.type := "image/jpeg" |} in
  ImageUpload.selection (ImageUpload.handleFilesSelected [a] [a] [a'] []) = [a; a'] /\
  ImageUpload.handleRemoveFile [a; a'] "a.jpg" = [].
Proof.
  intros a a'.
  destruct (handleRemoveFile_removes_by_name_alone [a; a'] "a.jpg") as (_ & _ & H).
  apply (H a a' eq_refl eq_refl). discriminate.
Defined.

(* ===================================================================== *)
(** ** services/api.js: the freshness rule in a running application *)
(* ===================================================================== *)

(** The only write of a time to [cache.timestamp] is [Date.now()], so in a
    running application the timestamp is a past reading of the clock, and
    never 0. *)
Lemma reachable_timestamp (w : World) : Reachable w -> timestamp_is_a_reading w.
Proof.
  unfold timestamp_is_a_reading.
  induction 1 as [w Hc Hk | w w' _ IH Hc Hk | w imageName imageUrl x _ IH Hl
                 | w plantData x _ IH Hl | w forceRefresh x _ IH Hl
                 | w plantId x _ IH Hl | w _ IH].
  - rewrite Hc. split; [exact Hk | intros t Ht; discriminate Ht].
  - destruct IH as (Hpos & Ht). rewrite Hc. split; [lia|].
    intros t E. specialize (Ht t E). lia.
  - destruct IH as (Hpos & Ht). unfold after. rewrite extractCoordinates_run. cbv zeta.
    destruct (Http.reply x) as [body|e]; [destruct (Http.extract_success body)|];
      cbn; (split; [lia|]); intros t E; specialize (Ht t E); lia.
  - destruct IH as (Hpos & Ht). unfold after.
    destruct (Api.missing_fields plantData) eqn:Hm.
    + rewrite (savePlantData_missing_fields _ x w Hm). cbn. split; [exact Hpos | exact Ht].
    + rewrite (savePlantData_sent _ x w Hm). cbv zeta.
      destruct (Http.reply x) as [body|e]; [destruct (Http.save_success body)|];
        cbn; (split; [lia|]); intros t E; try discriminate E; specialize (Ht t E); lia.
  - destruct IH as (Hpos & Ht). unfold after.
    destruct (cacheLookup_cases forceRefresh w) as [(ps & Hhit)|Hmiss].
    + rewrite (fetchUserPlants_cached forceRefresh x w ps Hhit). cbn.
      split; [exact Hpos | exact Ht].
    + rewrite (fetchUserPlants_uncached forceRefresh x w Hmiss). cbv zeta.
      destruct (Http.reply x) as [body|e];
        [destruct (Http.fetch_success body)|destruct (development w)];
        cbn; (split; [lia|]); intros t E;
        try (injection E as <-; lia); specialize (Ht t E); lia.
  - destruct IH as (Hpos & Ht). unfold after. rewrite deletePlantData_run. cbv zeta.
    destruct (Http.reply x) as [body|e]; [destruct (Http.delete_success body)|];
      cbn; (split; [lia|]); intros t E; try discriminate E; specialize (Ht t E); lia.
  - destruct IH as (Hpos & Ht). cbn. split; [exact Hpos|]. intros t E. discriminate E.
Qed.

(** C2.  In a running application, that is in every world reached from an
    empty cache by the calls of [services/api.js] and the passing of time
    on a clock that reads a time after the epoch, [fetchUserPlants] follows
    the freshness rule exactly: the remote side is contacted if and only if
    the refresh is forced, or the cache is empty or invalidated, or its age
    [now - fetchedAt] is at least 120000 ms; otherwise the cached collection
    is returned without a request.  The window is strict, an age of exactly
    120000 ms is stale, and a forced refresh always contacts the remote
    side. *)
Theorem fetchUserPlants_follows_freshness_rule (forceRefresh : bool)
  (x : Http.Exchange Http.FetchBody) (w : World) :
  Reachable w ->
  let w' := after (Api.fetchUserPlants forceRefresh x) w in
  (requests w' = (requests w ++ [fetch_request])%list
   <-> forceRefresh = true
       \/ Cache.plants (cache w) = None
       \/ Cache.timestamp (cache w) = None
       \/ exists fetchedAt, Cache.timestamp (cache w) = Some fetchedAt
                            /\ (clock w - fetchedAt >= 120000)%Z) /\
  (requests w' = (requests w ++ [fetch_request])%list
   <-> spec_serves_cache forceRefresh (clock w) (cache w) = false) /\
  (spec_serves_cache forceRefresh (clock w) (cache w) = true ->
   requests w' = requests w /\
   exists ps, Cache.plants (cache w) = Some ps /\
              outcome (Api.fetchUserPlants forceRefresh x) w = Normal (cached_result ps)) /\
  (forall fetchedAt,
     Cache.timestamp (cache w) = Some fetchedAt -> (clock w - fetchedAt = 120000)%Z ->
     requests w' = (requests w ++ [fetch_request])%list) /\
  (forceRefresh = true -> requests w' = (requests w ++ [fetch_request])%list).
Proof.
  intros Hreach w'. subst w'.
  destruct (reachable_timestamp w Hreach) as (_ & Hts).
  assert (Hnz : Cache.timestamp (cache w) <> Some 0%Z).
  { intros E. specialize (Hts 0%Z E). lia. }
  destruct (fetchUserPlants_follows_spec_off_zero forceRefresh x w Hnz) as (Hiff & Hhit).
  assert (Hrule : requests (after (Api.fetchUserPlants forceRefresh x) w)
                  = (requests w ++ [fetch_request])%list
                  <-> forceRefresh = true
                      \/ Cache.plants (cache w) = None
                      \/ Cache.timestamp (cache w) = None
                      \/ exists fetchedAt, Cache.timestamp (cache w) = Some fetchedAt
                                           /\ (clock w - fetchedAt >= 120000)%Z).
  { rewrite Hiff. apply spec_serves_cache_false_iff. }
  split; [exact Hrule|]. split; [exact Hiff|]. split; [exact Hhit|]. split.
  - intros fetchedAt Ht Hage. apply Hrule. do 3 right. exists fetchedAt.
    split; [exact Ht | lia].
  - intros ->. apply Hrule. left. reflexivity.
Qed.

Lemma fetchUserPlants_follows_freshness_rule_witness :
  let x := Sample.answers {| Http.fetch_success := true;
                             Http.fetch_data := Some [Sample.remote "x1" "a.jpg" 10 20] |} in
  let w1 := after (Api.fetchUserPlants false x) Sample.fresh in
  requests w1 = [fetch_request] /\
  (requests (after (Api.fetchUserPlants false Sample.offline) (advance 119999 w1))
   = [fetch_request] /\
   outcome (Api.fetchUserPlants false Sample.offline) (advance 119999 w1)
   = Normal (cached_result [Sample.x1])) /\
  requests (after (Api.fetchUserPlants false Sample.offline) (advance 120000 w1))
  = [fetch_request; fetch_request] /\
  requests (after (Api.fetchUserPlants true Sample.offline) (advance 119999 w1))
  = [fetch_request; fetch_request].
Proof.
  intros x w1.
  assert (R1 : Reachable w1).
  { apply reach_fetchUserPlants; [apply reach_start; [reflexivity | reflexivity] |].
    discriminate. }
  assert (Rlater : forall ms, (0 <= ms)%Z -> Reachable (advance ms w1)).
  { intros ms Hms. apply (reach_elsewhere w1); [exact R1 | reflexivity | simpl; lia]. }
  split; [reflexivity|].
  destruct (fetchUserPlants_follows_freshness_rule false Sample.offline (advance 119999 w1)
              (Rlater 119999%Z ltac:(lia))) as (_ & _ & Hhit & _).
  destruct (fetchUserPlants_follows_freshness_rule false Sample.offline (advance 120000 w1)
              (Rlater 120000%Z ltac:(lia))) as (_ & _ & _ & Hedge & _).
  destruct (fetchUserPlants_follows_freshness_rule true Sample.offline (advance 119999 w1)
              (Rlater 119999%Z ltac:(lia))) as (_ & _ & _ & _ & Hforce).
  split; [|split].
  - destruct (Hhit eq_refl) as (Hreq & ps & Hps & Hout).
    split; [exact Hreq|]. rewrite Hout. injection Hps as <-. reflexivity.
  - apply (Hedge 1700000000150%Z); reflexivity.
  - apply Hforce. reflexivity.
Defined.
